(** * llama_panel: the expert reasoning loop, its tool dispatch and the panel fan-out

    A shallow embedding of [llama_panel.py].  Python text is a Rocq [string]
    (the UTF-8 bytes of the text), a decoded JSON document is a [json] value,
    and everything the program obtains from outside (the inference service,
    the search engine, the web, the file system, the clock, the renderings
    computed by the Python run time) is read from an explicit environment. *)

From Stdlib Require Import String Ascii List ZArith Lia Bool Arith.
From Stdlib Require Import DecimalString.
Import ListNotations.
Local Open Scope list_scope.
Local Open Scope string_scope.

(** ** Text helpers *)

(** [sep.join(parts)] *)
Definition join (sep : string) (parts : list string) : string :=
  String.concat sep parts.

(** [p] stripped from the front of [s], when [s] starts with it *)
Fixpoint strip_prefix (p s : string) : option string :=
  match p, s with
  | EmptyString, _ => Some s
  | String a p', String b s' => if Ascii.eqb a b then strip_prefix p' s' else None
  | String _ _, EmptyString => None
  end.

Definition startswith (p s : string) : bool :=
  match strip_prefix p s with Some _ => true | None => false end.

(** [needle in hay] on text *)
Fixpoint contains (needle hay : string) : bool :=
  startswith needle hay ||
  match hay with
  | EmptyString => false
  | String _ hay' => contains needle hay'
  end.

(** number of positions of [hay] at which [needle] starts *)
Fixpoint occurrences (needle hay : string) : nat :=
  (if startswith needle hay then 1 else 0) +
  match hay with
  | EmptyString => 0
  | String _ hay' => occurrences needle hay'
  end.

(** position of the first occurrence of [needle] in [hay] *)
Fixpoint find (needle hay : string) : option nat :=
  if startswith needle hay then Some 0
  else match hay with
       | EmptyString => None
       | String _ hay' => option_map S (find needle hay')
       end.

Definition nonempty (s : string) : bool :=
  match s with EmptyString => false | String _ _ => true end.

(** [str(n)] for an [int] *)
Definition str_of_Z (n : Z) : string := NilZero.string_of_int (Z.to_int n).
Definition str_of_nat (n : nat) : string := str_of_Z (Z.of_nat n).

(** ** Characters

    A text is the sequence of the bytes of its UTF-8 form, an unpaired
    surrogate (which a Python [str] can hold) taking the three bytes that
    the scheme of UTF-8 gives its number.  A character is a byte that is
    no continuation byte, with the continuation bytes that follow it. *)

(** a byte of the form 10xxxxxx *)
Definition is_continuation (c : ascii) : bool :=
  let n := nat_of_ascii c in ((128 <=? n) && (n <=? 191))%nat.

(** [len(s)] *)
Fixpoint char_length (s : string) : nat :=
  match s with
  | EmptyString => 0
  | String c s' => if is_continuation c then char_length s' else S (char_length s')
  end.

(** [s[:n]]: the first [n] characters *)
Fixpoint take_chars (n : nat) (s : string) : string :=
  match s with
  | EmptyString => EmptyString
  | String c s' =>
      if is_continuation c then String c (take_chars n s')
      else
        match n with
        | O => EmptyString
        | S n' => String c (take_chars n' s')
        end
  end.

(** the text holds a surrogate: the byte 237 followed by one from 160 to
    191, which no UTF-8 form of a character has *)
Fixpoint has_surrogate (s : string) : bool :=
  match s with
  | EmptyString => false
  | String c s' =>
      match s' with
      | String d _ =>
          ((nat_of_ascii c =? 237) && (160 <=? nat_of_ascii d)
           && (nat_of_ascii d <=? 191))%nat
      | EmptyString => false
      end
      || has_surrogate s'
  end.

(** ** Decoded JSON documents

    What [json.loads] returns: [None], [bool], [int], [float], [str], [list]
    and [dict].  A [float] is carried by the lexeme it was read from; a
    [dict] keeps its keys in insertion order, each key once. *)

#[warnings="-register-all"]
Inductive json : Type :=
| JNull
| JBool (b : bool)
| JInt (n : Z)
| JFloat (lexeme : string)
| JString (s : string)
| JArray (items : list json)
| JObject (members : list (string * json)).

(** [d[k] = v] on a [dict]: a present key keeps its place and takes the new
    value *)
Fixpoint dict_set (k : string) (v : json) (d : list (string * json))
  : list (string * json) :=
  match d with
  | [] => [(k, v)]
  | (k', v') :: d' =>
      if String.eqb k k' then (k, v) :: d' else (k', v') :: dict_set k v d'
  end.

Fixpoint dict_lookup (k : string) (d : list (string * json)) : option json :=
  match d with
  | [] => None
  | (k', v) :: d' => if String.eqb k k' then Some v else dict_lookup k d'
  end.

(** [d.get(k, default)] *)
Definition dict_get (d : list (string * json)) (k : string) (default : json) : json :=
  match dict_lookup k d with
  | Some v => v
  | None => default
  end.

(** ** [json.loads]

    The decoder of the Python standard library, in its default (strict)
    configuration: recursive descent over the text, white space being space,
    tab, line feed and carriage return.  What the grammar rejects is the
    one exception [json.JSONDecodeError].  The scanner also meets two
    limits of the interpreter, each with an exception of its own, raised
    where the scanner stands, before it looks at the rest of the text: it
    enters a recursive call for every array and every object it opens
    ([RecursionError] when none is left), and it converts an integer
    literal with [int], which refuses more digits than
    [sys.get_int_max_str_digits()] ([ValueError]). *)

Module Decoder.

(** a limit of the interpreter met while scanning *)
Inductive limit : Type :=
| TooDeep (container : string)
| TooManyDigits (digits : nat).

Inductive result (A : Type) : Type :=
| Ok (a : A) (rest : string)
| Invalid
| Beyond (l : limit)
| OutOfFuel.
Arguments Ok {A} a rest.
Arguments Invalid {A}.
Arguments Beyond {A} l.
Arguments OutOfFuel {A}.

Definition is_ws (c : ascii) : bool :=
  Ascii.eqb c " " || Ascii.eqb c "009" || Ascii.eqb c "010" || Ascii.eqb c "013".

Fixpoint skip_ws (s : string) : string :=
  match s with
  | String c s' => if is_ws c then skip_ws s' else s
  | EmptyString => s
  end.

Definition is_digit (c : ascii) : bool :=
  let n := nat_of_ascii c in ((48 <=? n) && (n <=? 57))%nat.

Definition digit_val (c : ascii) : Z := Z.of_nat (nat_of_ascii c) - 48.

(** the longest run of digits at the front, and what follows it *)
Fixpoint span_digits (s : string) : string * string :=
  match s with
  | String c s' =>
      if is_digit c then let (ds, r) := span_digits s' in (String c ds, r)
      else (EmptyString, s)
  | EmptyString => (EmptyString, EmptyString)
  end.

Fixpoint digits_value (acc : Z) (ds : string) : Z :=
  match ds with
  | String c ds' => digits_value (10 * acc + digit_val c) ds'
  | EmptyString => acc
  end.

(** the text with its first character taken off, when it is [c] *)
Definition eat (c : ascii) (s : string) : option string :=
  match s with
  | String x s' => if Ascii.eqb x c then Some s' else None
  | EmptyString => None
  end.

(** [int(lexeme)] for an optional minus sign and digits *)
Definition int_of_lexeme (s : string) : Z :=
  match eat "-" s with
  | Some ds => - digits_value 0 ds
  | None => digits_value 0 s
  end.

(** the integer part of a number: an optional minus sign, then a lone zero
    or a digit run that does not start with zero *)
Definition match_integer (s : string) : option (string * string) :=
  let (sign, r) :=
    match eat "-" s with
    | Some r => ("-", r)
    | None => ("", s)
    end in
  match r with
  | String c r' =>
      if Ascii.eqb c "0" then Some (sign ++ "0", r')
      else if is_digit c
      then let (ds, r'') := span_digits r' in Some (sign ++ String c ds, r'')
      else None
  | EmptyString => None
  end.

(** the optional fraction: a dot and at least one digit *)
Definition match_frac (s : string) : string * string :=
  match eat "." s with
  | Some r =>
      let (ds, r') := span_digits r in
      if nonempty ds then (String "." ds, r') else ("", s)
  | None => ("", s)
  end.

(** the optional exponent: e or E, an optional sign, at least one digit *)
Definition match_exp (s : string) : string * string :=
  match s with
  | String e r =>
      if Ascii.eqb e "e" || Ascii.eqb e "E" then
        let (sign, r1) :=
          match eat "+" r, eat "-" r with
          | Some r1, _ => ("+", r1)
          | None, Some r1 => ("-", r1)
          | None, None => ("", r)
          end in
        let (ds, r2) := span_digits r1 in
        if nonempty ds then (String e (sign ++ ds), r2) else ("", s)
      else ("", s)
  | EmptyString => ("", s)
  end.

Definition match_number (s : string) : option (json * string) :=
  match match_integer s with
  | None => None
  | Some (integer, r) =>
      let (frac, r1) := match_frac r in
      let (exp, r2) := match_exp r1 in
      if nonempty frac || nonempty exp
      then Some (JFloat (integer ++ frac ++ exp), r2)
      else Some (JInt (int_of_lexeme integer), r2)
  end.

Definition hex_val (c : ascii) : option N :=
  let n := N_of_ascii c in
  if ((48 <=? n) && (n <=? 57))%N then Some (n - 48)%N
  else if ((65 <=? n) && (n <=? 70))%N then Some (n - 55)%N
  else if ((97 <=? n) && (n <=? 102))%N then Some (n - 87)%N
  else None.

Definition hex4 (a b c d : ascii) : option N :=
  match hex_val a, hex_val b, hex_val c, hex_val d with
  | Some x, Some y, Some z, Some w => Some (((x * 16 + y) * 16 + z) * 16 + w)%N
  | _, _, _, _ => None
  end.

Definition byte_of (n : N) : ascii := ascii_of_N n.

(** the UTF-8 bytes of a code point (an unpaired surrogate takes the
    three-byte form) *)
Definition utf8 (cp : N) : string :=
  if (cp <? 128)%N then String (byte_of cp) ""
  else if (cp <? 2048)%N then
    String (byte_of (192 + cp / 64)) (String (byte_of (128 + cp mod 64)) "")
  else if (cp <? 65536)%N then
    String (byte_of (224 + cp / 4096))
      (String (byte_of (128 + (cp / 64) mod 64))
         (String (byte_of (128 + cp mod 64)) ""))
  else
    String (byte_of (240 + cp / 262144))
      (String (byte_of (128 + (cp / 4096) mod 64))
         (String (byte_of (128 + (cp / 64) mod 64))
            (String (byte_of (128 + cp mod 64)) ""))).

(** A piece of a string literal: a byte taken as it is, or the 16-bit unit
    of a [\uXXXX] escape. *)
Inductive piece : Type :=
| Byte (c : ascii)
| Unit16 (u : N).

(** the character a one-letter escape stands for *)
Definition escape_char (e : ascii) : option ascii :=
  if Ascii.eqb e "034" then Some "034"%char
  else if Ascii.eqb e "\" then Some "\"%char
  else if Ascii.eqb e "/" then Some "/"%char
  else if Ascii.eqb e "b" then Some "008"%char
  else if Ascii.eqb e "f" then Some "012"%char
  else if Ascii.eqb e "n" then Some "010"%char
  else if Ascii.eqb e "r" then Some "013"%char
  else if Ascii.eqb e "t" then Some "009"%char
  else None.

Definition prepend (p : piece) (o : option (list piece * string))
  : option (list piece * string) :=
  match o with
  | Some (ps, r) => Some (p :: ps, r)
  | None => None
  end.

(** The body of a string literal after its opening quote, up to the closing
    quote: escapes resolved, control characters refused. *)
Fixpoint scan_pieces (s : string) : option (list piece * string) :=
  match s with
  | EmptyString => None
  | String c r =>
      if Ascii.eqb c "034" then Some ([], r)
      else if Ascii.eqb c "\" then
        match r with
        | EmptyString => None
        | String e r1 =>
            match escape_char e with
            | Some x => prepend (Byte x) (scan_pieces r1)
            | None =>
                if Ascii.eqb e "u" then
                  match r1 with
                  | String a (String b (String c (String d r4))) =>
                      match hex4 a b c d with
                      | Some u => prepend (Unit16 u) (scan_pieces r4)
                      | None => None
                      end
                  | _ => None
                  end
                else None
            end
        end
      else if (N_of_ascii c <? 32)%N then None
      else prepend (Byte c) (scan_pieces r)
  end.

(** a high surrogate directly followed by a low one is one code point *)
Fixpoint assemble (ps : list piece) : string :=
  match ps with
  | [] => ""
  | Byte c :: ps' => String c (assemble ps')
  | Unit16 hi :: ps' =>
      match ps' with
      | Unit16 lo :: ps'' =>
          if ((55296 <=? hi) && (hi <=? 56319) && (56320 <=? lo) && (lo <=? 57343))%N
          then utf8 (65536 + (hi - 55296) * 1024 + (lo - 56320)) ++ assemble ps''
          else utf8 hi ++ assemble ps'
      | _ => utf8 hi ++ assemble ps'
      end
  end.

Definition scanstring (s : string) : option (string * string) :=
  match scan_pieces s with
  | Some (ps, r) => Some (assemble ps, r)
  | None => None
  end.

Definition literal (word : string) (v : json) (s : string) : option (json * string) :=
  match strip_prefix word s with
  | Some r => Some (v, r)
  | None => None
  end.

(** the first of the attempts that succeeded *)
Fixpoint first_of (attempts : list (option (json * string))) : result json :=
  match attempts with
  | [] => Invalid
  | Some (v, r) :: _ => Ok v r
  | None :: attempts' => first_of attempts'
  end.

(** the scalars other than strings, in the order the scanner tries them *)
Definition scan_scalar (s : string) : result json :=
  first_of [ literal "null" JNull s;
             literal "true" (JBool true) s;
             literal "false" (JBool false) s;
             match_number s;
             literal "NaN" (JFloat "NaN") s;
             literal "Infinity" (JFloat "Infinity") s;
             literal "-Infinity" (JFloat "-Infinity") s ].

(** The number of digits of the integer literal at the front of the text,
    when [int] refuses it: a number without fraction and exponent is
    converted by [int], which raises [ValueError] when the limit
    [max_digits] is set (it is 0 when there is none) and the literal has
    more digits than it allows (a literal of 640 digits or fewer is never
    refused). *)
Definition refused_digits (max_digits : nat) (s : string) : option nat :=
  match match_integer s with
  | None => None
  | Some (integer, r) =>
      let (frac, r1) := match_frac r in
      let (exp, _) := match_exp r1 in
      if nonempty frac || nonempty exp then None
      else
        let digits :=
          match eat "-" integer with
          | Some ds => String.length ds
          | None => String.length integer
          end in
        if ((640 <? digits) && (0 <? max_digits) && (max_digits <? digits))%nat
        then Some digits
        else None
  end.

(** [scan_once] reads one value at the front of the text; [array_items] and
    [object_members] read the rest of a container once its first element is
    known to be there ([object_members] starts just after the opening quote
    of a key).  [room] is the number of recursive calls the interpreter
    still allows: opening a container takes one, for the time the container
    is read.  The fuel bounds the number of nested calls of the model;
    [decode] gives enough of it, see [decode_has_fuel]. *)
Fixpoint scan_once (max_digits fuel room : nat) (s : string) : result json :=
  match fuel with
  | O => OutOfFuel
  | S fuel' =>
      match s with
      | EmptyString => Invalid
      | String c r =>
          if Ascii.eqb c "034" then
            match scanstring r with
            | Some (str, r') => Ok (JString str) r'
            | None => Invalid
            end
          else if Ascii.eqb c "{" then
            match room with
            | O => Beyond (TooDeep "object")
            | S room' =>
                match skip_ws r with
                | EmptyString => Invalid
                | String c' r' =>
                    if Ascii.eqb c' "}" then Ok (JObject []) r'
                    else if Ascii.eqb c' "034" then
                      match object_members max_digits fuel' room' [] r' with
                      | Ok d r'' => Ok (JObject d) r''
                      | Invalid => Invalid
                      | Beyond l => Beyond l
                      | OutOfFuel => OutOfFuel
                      end
                    else Invalid
                end
            end
          else if Ascii.eqb c "[" then
            match room with
            | O => Beyond (TooDeep "array")
            | S room' =>
                match eat "]" (skip_ws r) with
                | Some r' => Ok (JArray []) r'
                | None =>
                    match array_items max_digits fuel' room' [] (skip_ws r) with
                    | Ok l r'' => Ok (JArray l) r''
                    | Invalid => Invalid
                    | Beyond l => Beyond l
                    | OutOfFuel => OutOfFuel
                    end
                end
            end
          else
            match refused_digits max_digits s with
            | Some digits => Beyond (TooManyDigits digits)
            | None => scan_scalar s
            end
      end
  end

with array_items (max_digits fuel room : nat) (acc : list json) (s : string)
  : result (list json) :=
  match fuel with
  | O => OutOfFuel
  | S fuel' =>
      match scan_once max_digits fuel' room s with
      | Ok v r =>
          match skip_ws r with
          | EmptyString => Invalid
          | String c r' =>
              if Ascii.eqb c "]" then Ok (acc ++ [v])%list r'
              else if Ascii.eqb c ","
              then array_items max_digits fuel' room (acc ++ [v])%list (skip_ws r')
              else Invalid
          end
      | Invalid => Invalid
      | Beyond l => Beyond l
      | OutOfFuel => OutOfFuel
      end
  end

with object_members (max_digits fuel room : nat) (acc : list (string * json))
  (s : string) : result (list (string * json)) :=
  match fuel with
  | O => OutOfFuel
  | S fuel' =>
      match scanstring s with
      | None => Invalid
      | Some (key, r) =>
          match eat ":" (skip_ws r) with
          | None => Invalid
          | Some r1 =>
              match scan_once max_digits fuel' room (skip_ws r1) with
              | Ok v r2 =>
                  match skip_ws r2 with
                  | EmptyString => Invalid
                  | String c r3 =>
                      if Ascii.eqb c "}" then Ok (dict_set key v acc) r3
                      else if Ascii.eqb c "," then
                        match eat "034" (skip_ws r3) with
                        | Some r4 =>
                            object_members max_digits fuel' room (dict_set key v acc) r4
                        | None => Invalid
                        end
                      else Invalid
                  end
              | Invalid => Invalid
              | Beyond l => Beyond l
              | OutOfFuel => OutOfFuel
              end
          end
      end
  end.

(** the whole text is one value, white space around it allowed *)
Definition decode (max_digits room : nat) (s : string) : result json :=
  match scan_once max_digits (2 * String.length s + 2) room (skip_ws s) with
  | Ok v r =>
      match skip_ws r with
      | EmptyString => Ok v ""
      | String _ _ => Invalid
      end
  | Invalid => Invalid
  | Beyond l => Beyond l
  | OutOfFuel => OutOfFuel
  end.

End Decoder.

(** ** Text constants *)

Definition LF : string := String "010"%char "".
Definition DQ : string := String "034"%char "".

Definition EXPERT_SYSTEM_PROMPT : string :=
  join LF
  [ "";
    "You are a master expert AI, the coordinator of a panel of other AI experts. Your goal is to provide a single, comprehensive, consensus-based answer. Avoid relying on any single source or tool, and instead synthesize information from multiple perspectives.";
    "";
    "**IMPORTANT CONTEXT**: You and your panel members are offline Large Language Models with knowledge limited to training data from the past. To overcome this, you have access to tools to ask the other models questions and to search the internet.";
    "";
    "Your workflow for each user query is as follows:";
    "1.  **Plan**: Understand the user's request. Decide if you can answer it with very high confidence or if you need to gather information using your tools.";
    "2.  **Act with Tools**: If you need more information, choose the best tool for the job. You must respond with a single JSON object to use a tool.";
    "    - `search_web(query, reason)`: Use search engine to get search results for webpages that contain current information or verify facts on the web. Search results only include title, description, and URL only and you must call `read_webpage`on two or more URLs to get and understand their full content.";
    "    - `read_webpage(url, reason)`: Read the webpage specified by the URL to get more information about one of the search results. This is necessary because `search_web` only provides titles, descriptions, and URLs.";
    "    - `llama_panel(question, reason)`: Ask a specific question to the panel for diverse answers. The panel's information is limited to their training data and information you share in your question.";
    "3.  **Synthesize and Check**: Once you have gathered sufficient information, synthesize your best answer based on your knowledge and all gathered information. Confirm your complete answer with the panel with `llama_panel(question, reason)`.";
    "4.  **Finalize**: Considering your answer and panel's feedback, return a final, conclusive answer. You must responsd with a single JSON object using tool `final_answer(answer)`.";
    "";
    "Because `search_web` only gives you title, description and URL about each page, you must call `read_webpage` on two or more of the URLs to fetch and understand thier content.";
    "";
    "For any tool selection, always include a " ++ DQ ++ "reason" ++ DQ ++ " field explaining why you chose that tool in a single sentence.";
    "";
    "You only have 10 steps to reach a final answer. If you cannot reach a consensus in 10 steps, return your best answer to that point.";
    "";
    "**Available Responses**:";
    "- `{" ++ DQ ++ "tool" ++ DQ ++ ": " ++ DQ ++ "llama_panel" ++ DQ ++ ", " ++ DQ ++ "question" ++ DQ ++ ": " ++ DQ ++ "Your question to the panel" ++ DQ ++ ", " ++ DQ ++ "reason" ++ DQ ++ ": " ++ DQ ++ "Why you chose to consult the panel" ++ DQ ++ "}`";
    "- `{" ++ DQ ++ "tool" ++ DQ ++ ": " ++ DQ ++ "search_web" ++ DQ ++ ", " ++ DQ ++ "query" ++ DQ ++ ": " ++ DQ ++ "Your search query" ++ DQ ++ ", " ++ DQ ++ "reason" ++ DQ ++ ": " ++ DQ ++ "Why you chose to search the web" ++ DQ ++ "}`";
    "- `{" ++ DQ ++ "tool" ++ DQ ++ ": " ++ DQ ++ "read_webpage" ++ DQ ++ ", " ++ DQ ++ "url" ++ DQ ++ ": " ++ DQ ++ "A specific URL from the search results" ++ DQ ++ ", " ++ DQ ++ "reason" ++ DQ ++ ": " ++ DQ ++ "Why you chose to read this webpage" ++ DQ ++ "}`";
    "- `{" ++ DQ ++ "tool" ++ DQ ++ ": " ++ DQ ++ "final_answer" ++ DQ ++ ", " ++ DQ ++ "answer" ++ DQ ++ ": " ++ DQ ++ "Your final, well-reasoned consensus answer." ++ DQ ++ "}`";
    "";
    "Always respond with one of the Available Responses above in the prescribed JSON format. Response must include " ++ DQ ++ "tool" ++ DQ ++ " field with the tool name, and " ++ DQ ++ "reason" ++ DQ ++ " field explaining why you chose that tool in a single sentence.";
    "" ].

(** ** Values of the program *)

(** A [float], carried by the text it was read from; its renderings belong
    to the Python run time (see [Env]). *)
Definition PyFloat : Type := string.

(** The exceptions the program can meet.  [ResponseError] is
    [ollama.ResponseError] with its [error] attribute; [RecursionError] and
    [ValueError] are those of [json.loads] at a limit of the interpreter,
    [UnicodeEncodeError] the one of [print], each with its [str];
    [OtherException] is any other [Exception], with its [str]. *)
Inductive Exn : Type :=
| ResponseError (error : string)
| AttributeError (type_name : string)
| OSError (msg : string)
| EOFError
| RecursionError (msg : string)
| ValueError (msg : string)
| UnicodeEncodeError (msg : string)
| OtherException (msg : string).

Definition exn_str (e : Exn) : string :=
  match e with
  | ResponseError error => error
  | AttributeError type_name => "'" ++ type_name ++ "' object has no attribute 'get'"
  | OSError msg => msg
  | EOFError => "EOF when reading a line"
  | RecursionError msg => msg
  | ValueError msg => msg
  | UnicodeEncodeError msg => msg
  | OtherException msg => msg
  end.

(** The result of a call that either returns or raises. *)
Inductive Reply (A : Type) : Type :=
| Replied (a : A)
| Failed (e : Exn).
Arguments Replied {A} a.
Arguments Failed {A} e.

Inductive Role : Type := system | user | assistant | tool.

(** One entry of [conversation_history]: [{'role': ..., 'content': ...}] *)
Record Turn : Type := { role : Role; content : string }.

(** What [client.chat] returns, as far as the program reads it:
    [response['message']['content']], [response['message']['thinking']]
    when the message has one, and the text [print(response)] writes for the
    whole object. *)
Record Response : Type := {
  message_content : string;
  message_thinking : option string;
  response_str : string
}.

(** One result of [googlesearch.search(..., advanced=True)]: its [url] and
    the text an f-string gives for it. *)
Record SearchResult : Type := { url : string; shown : string }.

(** How the body of [read_webpage] ends: with the cleaned text of the page
    (lines 51 to 60: the request, the HTML parser and the tidying of its
    text), with [httpx.RequestError], or with any other exception. *)
Inductive Fetched : Type :=
| Page (clean_text : string)
| RequestError (request_url : string) (msg : string)
| FetchException (msg : string).

Record PanelMember : Type := { model : string; temperature : PyFloat }.

Record ExpertSystem : Type := {
  expert_model : string;
  expert_temp : PyFloat;
  max_reasoning_steps : Z;
  panel : list PanelMember
}.

(** ** The environment

    The renderings of the Python run time that the program relies on, the
    clock, and the services it calls.  A service is indexed by the reasoning
    step that calls it (and, for a panelist, by the panelist's position), so
    that it may answer differently every time. *)
Record Env : Type := {
  recursion_room : nat;               (* containers [json.loads] may open in the first *)
  int_max_str_digits : nat;           (* [sys.get_int_max_str_digits()], 0 for none *)
  encode_error : string -> string;    (* [str(e)] of the [UnicodeEncodeError] for a text *)
  repr_value : json -> string;        (* [str(v)] for a float, a list, a dict *)
  float_bool : string -> bool;        (* [bool(x)] for a float *)
  float_str : PyFloat -> string;      (* [str(x)] *)
  float_2f : PyFloat -> string;       (* [f"{x:.2f}"] *)
  now : string;                       (* [str(datetime.now())] *)
  timestamp : string;                 (* [time.strftime("%Y%m%d-%H%M%S")] *)
  expert_chat : nat -> string -> PyFloat -> bool -> list Turn -> Reply Response;
  panelist_chat : nat -> nat -> PanelMember -> json -> Reply string;
  google_search : nat -> json -> Reply (list SearchResult);
  http_get : nat -> json -> Fetched;
  write_file : string -> list Turn -> option Exn  (* [open(fname, "w")] and [json.dump] *)
}.

(** ** [json.loads], as the program meets it *)

(** How a call of [json.loads] ends: with the document, with
    [json.JSONDecodeError], or with the exception of a limit. *)
Inductive Loaded : Type :=
| Decoded (v : json)
| JSONDecodeError
| LoadError (e : Exn).

Definition limit_error (max_digits : nat) (l : Decoder.limit) : Exn :=
  match l with
  | Decoder.TooDeep container =>
      RecursionError ("maximum recursion depth exceeded while decoding a JSON "
                      ++ container ++ " from a unicode string")
  | Decoder.TooManyDigits digits =>
      ValueError ("Exceeds the limit (" ++ str_of_nat max_digits
                  ++ " digits) for integer string conversion: value has "
                  ++ str_of_nat digits
                  ++ " digits; use sys.set_int_max_str_digits() to increase the limit")
  end.

(** [json.loads(s)].  The call is made far from the recursion limit of the
    interpreter, which the program leaves as it is: the outermost container
    can always be opened, and [recursion_room] tells how many more, one
    inside the other. *)
Definition json_loads (env : Env) (s : string) : Loaded :=
  match Decoder.decode (int_max_str_digits env) (S (recursion_room env)) s with
  | Decoder.Ok v _ => Decoded v
  | Decoder.Beyond l => LoadError (limit_error (int_max_str_digits env) l)
  | _ => JSONDecodeError
  end.

(** ** Output and session state *)

Inductive Stream : Type := stdout | stderr.

(** What a run does to the outside: [Print to text] is one call of [print]
    (or [cprint], whose colours are left out) writing [text] and a line
    break to the stream; [Dump fname doc] is the transcript written to a
    file; [Prompt text] is one call of [input], which writes [text] to
    [stdout], without a line break, before it reads a line. *)
Inductive Event : Type :=
| Print (to : Stream) (text : string)
| Dump (fname : string) (doc : list Turn)
| Prompt (text : string).

(** The locals of [get_consensus_answer] that live across iterations, the
    events so far, and [step_index], the number of iterations begun. *)
Record Session : Type := {
  conversation_history : list Turn;
  tool_outputs : list string;
  step_index : nat;
  events : list Event
}.

(** How a call of [get_consensus_answer] ends: at one of its three [return]
    statements, by falling off the loop, or with an exception leaving it. *)
Inductive Outcome : Type :=
| Concluded (answer : json)
| RawFallback (response : Response)
| UnknownTool (tool_name : json) (response : Response)
| StepsExhausted
| Raised (e : Exn).

(** ** A small monad: session state, with early exit *)

Inductive Flow (A : Type) : Type :=
| Next (a : A)
| Stop (o : Outcome).
Arguments Next {A} a.
Arguments Stop {A} o.

Definition Run (A : Type) : Type := Session -> Flow A * Session.

Definition ret {A : Type} (a : A) : Run A := fun st => (Next a, st).

Definition bind {A B : Type} (c : Run A) (k : A -> Run B) : Run B :=
  fun st =>
    match c st with
    | (Next a, st') => k a st'
    | (Stop o, st') => (Stop o, st')
    end.

Declare Scope run_scope.
Delimit Scope run_scope with run.
Notation "x <- c ;; k" := (bind c (fun x => k))
  (at level 61, c at next level, right associativity) : run_scope.
Notation "c ;; k" := (bind c (fun _ => k))
  (at level 61, right associativity) : run_scope.
Local Open Scope run_scope.

(** [return] out of the function, or an exception leaving it *)
Definition finish {A : Type} (o : Outcome) : Run A := fun st => (Stop o, st).

(** the session after further events *)
Definition add_events (st : Session) (es : list Event) : Session :=
  {| conversation_history := conversation_history st;
     tool_outputs := tool_outputs st;
     step_index := step_index st;
     events := (events st ++ es)%list |}.

Definition emit (e : Event) : Run unit := fun st => (Next tt, add_events st [e]).

(** [print(text)].  [stdout] is taken to encode UTF-8: the texts of the
    program and those that the services deliver are well-formed, so that
    writing them cannot fail (see [print_decoded] for the one text that
    can hold a surrogate). *)
Definition print (text : string) : Run unit := emit (Print stdout text).

(** [cprint(text, colour, file=sys.stderr)] *)
Definition cprint (text : string) : Run unit := emit (Print stderr text).

Definition when (b : bool) (c : Run unit) : Run unit := if b then c else ret tt.

(** [conversation_history.append(turn)] *)
Definition append_turn (t : Turn) : Run unit :=
  fun st =>
    (Next tt,
     {| conversation_history := (conversation_history st ++ [t])%list;
        tool_outputs := tool_outputs st;
        step_index := step_index st;
        events := events st |}).

(** [tool_outputs.append(tool_output)] *)
Definition push_output (s : string) : Run unit :=
  fun st =>
    (Next tt,
     {| conversation_history := conversation_history st;
        tool_outputs := (tool_outputs st ++ [s])%list;
        step_index := step_index st;
        events := events st |}).

(** an iteration of the loop begins: [step_index] counts it *)
Definition begin_step : Run unit :=
  fun st =>
    (Next tt,
     {| conversation_history := conversation_history st;
        tool_outputs := tool_outputs st;
        step_index := S (step_index st);
        events := events st |}).

(** the value of a local *)
Definition read {A : Type} (f : Session -> A) : Run A := fun st => (Next (f st), st).

(** [await call]: the value, or the exception on its way out *)
Definition await {A : Type} (r : Reply A) : Run A :=
  match r with
  | Replied a => ret a
  | Failed e => finish (Raised e)
  end.

(** ** The program *)

Section Program.

Variable env : Env.

(** [str(v)], as an f-string or [print] renders a decoded value *)
Definition py_str (v : json) : string :=
  match v with
  | JNull => "None"
  | JBool true => "True"
  | JBool false => "False"
  | JInt n => str_of_Z n
  | JString s => s
  | _ => repr_value env v
  end.

(** [bool(v)], the test of [if v:] *)
Definition truthy (v : json) : bool :=
  match v with
  | JNull => false
  | JBool b => b
  | JInt n => negb (n =? 0)%Z
  | JFloat x => float_bool env x
  | JString s => nonempty s
  | JArray l => match l with [] => false | _ :: _ => true end
  | JObject d => match d with [] => false | _ :: _ => true end
  end.

(** [v == "literal"] *)
Definition is_str (v : json) (s : string) : bool :=
  match v with
  | JString t => String.eqb t s
  | _ => false
  end.

(** [type(v).__name__] *)
Definition type_name (v : json) : string :=
  match v with
  | JNull => "NoneType"
  | JBool _ => "bool"
  | JInt _ => "int"
  | JFloat _ => "float"
  | JString _ => "str"
  | JArray _ => "list"
  | JObject _ => "dict"
  end.

(** *** [read_webpage] *)

Definition read_webpage (i : nat) (url : json) : Run string :=
  cprint (LF ++ "> Fetching content from URL: " ++ py_str url) ;;
  match http_get env i url with
  | Page clean_text =>
      cprint ("> Successfully fetched and parsed content from " ++ py_str url) ;;
      ret ("Content from " ++ py_str url ++ ":" ++ LF ++ LF
           ++ take_chars 4000 clean_text ++ "...")
  | RequestError request_url msg =>
      let error_msg := "Error fetching URL " ++ request_url ++ ": " ++ msg in
      cprint ("> " ++ error_msg) ;;
      ret error_msg
  | FetchException msg =>
      let error_msg :=
        "An unexpected error occurred while processing " ++ py_str url ++ ": " ++ msg in
      cprint ("> " ++ error_msg) ;;
      ret error_msg
  end.

(** *** [search_web] *)

Definition search_web (i : nat) (query : json) : Run string :=
  cprint (LF ++ "> Performing Google search for: '" ++ py_str query ++ "'") ;;
  match google_search env i query with
  | Replied found =>
      let results :=
        filter (fun result => negb (contains "substack.com" (url result))) found in
      match results with
      | [] => ret "No results found."
      | _ :: _ =>
          let formatted_results := join LF (map shown results) in
          cprint ("> Found " ++ str_of_nat (List.length results) ++ " URLs.") ;;
          ret ("Google Search Results for '" ++ py_str query ++ "':" ++ LF ++ LF
               ++ formatted_results)
      end
  | Failed e =>
      cprint ("Error during Google search: " ++ exn_str e) ;;
      ret "An error occurred during the Google search."
  end.

(** *** [PanelMember.query]

    The coroutine announces itself, awaits the panelist, and turns an
    [ollama.ResponseError] into a text; any other exception leaves it. *)

Definition query_announce (member : PanelMember) : Event :=
  Print stderr ("  - Querying panelist '" ++ model member ++ "' (temp: "
                ++ float_2f env (temperature member) ++ ")...").

Definition query_complete (member : PanelMember) (r : Reply string)
  : list Event * Reply string :=
  match r with
  | Replied text => ([], Replied text)
  | Failed (ResponseError error) =>
      ([Print stderr ("Error querying panelist " ++ model member ++ ": " ++ error)],
       Replied ("Error: Could not get a response from model '" ++ model member ++ "'."))
  | Failed e => ([], Failed e)
  end.

(** *** [ExpertSystem._query_panel] *)

Definition CONTEXT_HEADER : string :=
  LF ++ LF ++ "Context from previous tool outputs:" ++ LF.

Definition SECTION_SEPARATOR : string := LF ++ LF ++ "---" ++ LF ++ LF.

(** the local [panel_prompt]; it is text, except that a question which is
    not text is passed on as it is when there is no context *)
Definition panel_prompt (question : json) (outputs : list string) : json :=
  let context := join (LF ++ LF) outputs in
  if nonempty context
  then JString (py_str question ++ CONTEXT_HEADER ++ context)
  else question.

(** the local [tasks]: one call [member.query(panel_prompt)] per member, in
    the order of [self.panel] *)
Definition tasks (members : list PanelMember) (question : json)
  (outputs : list string) : list (PanelMember * json) :=
  map (fun member => (member, panel_prompt question outputs)) members.

(** [asyncio.gather] over [tasks] with [return_exceptions=True]: every call is awaited,
    and the result or the exception of each is kept at its position *)
Fixpoint gather (i j : nat) (calls : list (PanelMember * json))
  : list (list Event * Reply string) :=
  match calls with
  | [] => []
  | (member, prompt) :: calls' =>
      query_complete member (panelist_chat env i j member prompt)
      :: gather i (S j) calls'
  end.

(** one element of [panel_responses] *)
Definition panel_response (member : PanelMember) (resp : Reply string) : string :=
  match resp with
  | Replied text => "Response from '" ++ model member ++ "':" ++ LF ++ text
  | Failed e => "Exception from panelist " ++ model member ++ ": " ++ exn_str e
  end.

Fixpoint emit_all (es : list Event) : Run unit :=
  match es with
  | [] => ret tt
  | e :: es' => emit e ;; emit_all es'
  end.

(** The announcements come first, in the order of the panel.  The error
    lines of the members that failed follow; the program writes them in the
    order the calls complete, the model in the order of the panel. *)
Definition _query_panel (i : nat) (members : list PanelMember) (question : json)
  (outputs : list string) : Run string :=
  cprint (LF ++ "> Consulting the panel with the question: '" ++ py_str question ++ "'") ;;
  let calls := tasks members question outputs in
  emit_all (map (fun call => query_announce (fst call)) calls) ;;
  let gathered := gather i 0 calls in
  emit_all (concat (map fst gathered)) ;;
  let panel_raw_responses := map snd gathered in
  let panel_responses :=
    map (fun mr => panel_response (fst mr) (snd mr)) (combine members panel_raw_responses) in
  let tool_output := join SECTION_SEPARATOR panel_responses in
  cprint "> Panel consultation complete." ;;
  ret tool_output.

(** *** [ExpertSystem.get_consensus_answer] *)

Variable self : ExpertSystem.
Variables (verbose thinking write_convo : bool).

(** [print(text)] for a text out of a decoded document, line 168: a
    [\uXXXX] escape may have left an unpaired surrogate in it, which
    [stdout] refuses with [UnicodeEncodeError] before anything is written.
    ([stderr] replaces what it cannot encode, so that [cprint] to it never
    fails.) *)
Definition print_decoded (text : string) : Run unit :=
  if has_surrogate text
  then finish (Raised (UnicodeEncodeError (encode_error env text)))
  else print text.

(** lines 181 to 183 *)
Definition record_output (tool_output : string) : Run unit :=
  when (nonempty tool_output)
    (append_turn {| role := tool; content := tool_output |} ;;
     push_output tool_output).

(** the echo of the call that opens [tool_output] *)
Definition echo_call (name : string) (payload reason : json) : string :=
  "Using " ++ name ++ "(" ++ py_str payload ++ ") with reason '" ++ py_str reason
  ++ "'." ++ LF ++ "Output:" ++ LF.

(** lines 169 to 174 *)
Definition persist : Run unit :=
  when write_convo
    (let fname := "llama-panel-" ++ timestamp env ++ ".convo" in
     history <- read conversation_history ;;
     match write_file env fname history with
     | Some e => finish (Raised e)
     | None =>
         emit (Dump fname history) ;;
         cprint (LF ++ "Conversation history written to " ++ fname)
     end).

(** lines 153 to 183: the branch on [tool_name], and the recording of the
    output of a tool *)
Definition route (i : nat) (response : Response) (d : list (string * json))
  : Run unit :=
  let tool_name := dict_get d "tool" JNull in
  let tool_reason := dict_get d "reason" JNull in
  if is_str tool_name "llama_panel" then
    let question := dict_get d "question" (JString "") in
    outputs <- read tool_outputs ;;
    panel_output <- _query_panel i (panel self) question outputs ;;
    record_output (echo_call "llama_panel" question tool_reason ++ panel_output)
  else if is_str tool_name "search_web" then
    let query := dict_get d "query" (JString "") in
    search_output <- search_web i query ;;
    record_output (echo_call "search_web" query tool_reason ++ search_output)
  else if is_str tool_name "read_webpage" then
    let url := dict_get d "url" (JString "") in
    webpage_output <- read_webpage i url ;;
    record_output (echo_call "read_webpage" url tool_reason ++ webpage_output)
  else if is_str tool_name "final_answer" then
    let answer := dict_get d "answer" (JString "No answer provided.") in
    print_decoded (py_str answer) ;;
    persist ;;
    finish (Concluded answer)
  else
    cprint ("Error: Expert called an unknown tool: " ++ py_str tool_name) ;;
    print (response_str response) ;;
    finish (UnknownTool tool_name response).

(** lines 149 to 151: what is written about the tool chosen *)
Definition tool_narration (d : list (string * json)) : list Event :=
  let tool_name := dict_get d "tool" JNull in
  let tool_reason := dict_get d "reason" JNull in
  (Print stderr ("> Expert wants to use tool: '" ++ py_str tool_name ++ "'")
   :: if truthy tool_reason
      then [Print stderr ("> Reason for tool selection: " ++ py_str tool_reason)]
      else [])%list.

(** lines 147 to 183: the body of the [try] once [json.loads] has returned;
    [tool_call.get] raises [AttributeError] on a value that is no [dict] *)
Definition dispatch (i : nat) (response : Response) (tool_call : json) : Run unit :=
  match tool_call with
  | JObject d => emit_all (tool_narration d) ;; route i response d
  | other => finish (Raised (AttributeError (type_name other)))
  end.

(** lines 185 to 187 *)
Definition fallback (response : Response) : Run unit :=
  cprint "Warning: Model did not return valid JSON. Treating response as final." ;;
  print (response_str response) ;;
  finish (RawFallback response).

(** lines 133 to 187: one iteration of the loop, for the index [i] *)
Definition reasoning_step (i : nat) : Run unit :=
  begin_step ;;
  cprint (LF ++ "--- Expert Reasoning Step " ++ str_of_nat (i + 1) ++ "/"
          ++ str_of_Z (max_reasoning_steps self) ++ " ---") ;;
  history <- read conversation_history ;;
  response <- await (expert_chat env i (expert_model self) (expert_temp self)
                       thinking history) ;;
  let assistant_message := message_content response in
  when verbose
    match message_thinking response with
    | Some trace => print (LF ++ "--- Expert Thinking ---" ++ LF ++ trace ++ LF)
    | None => ret tt
    end ;;
  append_turn {| role := assistant; content := assistant_message |} ;;
  match json_loads env assistant_message with
  | Decoded tool_call => dispatch i response tool_call
  | JSONDecodeError => fallback response
  | LoadError e => finish (Raised e)
  end.

(** [for i in range(n): ...], from the index [i] on *)
Fixpoint reasoning_loop (n i : nat) : Run unit :=
  match n with
  | O => ret tt
  | S n' => reasoning_step i ;; reasoning_loop n' (S i)
  end.

Definition EXHAUSTION_NOTICE : string :=
  "The expert could not reach a consensus in the allowed number of steps.".

Definition start (user_prompt : string) : Session :=
  {| conversation_history :=
       [ {| role := system;
            content := EXPERT_SYSTEM_PROMPT ++ "Current date: " ++ now env |};
         {| role := user; content := user_prompt |} ];
     tool_outputs := [];
     step_index := 0;
     events := [] |}.

Definition consensus_body : Run Outcome :=
  reasoning_loop (Z.to_nat (max_reasoning_steps self)) 0 ;;
  cprint (LF ++ "--- Max Reasoning Steps Reached ---") ;;
  print EXHAUSTION_NOTICE ;;
  ret StepsExhausted.

Definition outcome_of (f : Flow Outcome) : Outcome :=
  match f with
  | Next o => o
  | Stop o => o
  end.

Definition get_consensus_answer (user_prompt : string) : Outcome * Session :=
  let (f, st) := consensus_body (start user_prompt) in (outcome_of f, st).

End Program.

(** ** [main], from the parsed arguments on *)

(** [ExpertSystem.__init__]: the system, and what it writes *)
Definition ExpertSystem_init (env : Env) (expert_config : string * PyFloat)
  (panel_configs : list (string * PyFloat)) (max_steps : Z)
  : list Event * ExpertSystem :=
  let members :=
    map (fun c => {| model := fst c; temperature := snd c |}) panel_configs in
  let panel_details :=
    map (fun p => model p ++ " (temp: " ++ float_2f env (temperature p) ++ ")") members in
  ([ Print stderr "Initializing expert panel...";
     Print stderr ("Expert: " ++ fst expert_config ++ " (temp: "
                   ++ float_str env (snd expert_config) ++ ")");
     Print stderr ("Panel: " ++ join ", " panel_details) ],
   {| expert_model := fst expert_config;
      expert_temp := snd expert_config;
      max_reasoning_steps := max_steps;
      panel := members |}).

(** The result of [parser.parse_args()] and of line 212. *)
Record Args : Type := {
  question : option string;
  expert : string * PyFloat;
  panel_configs : list (string * PyFloat);
  max_steps : Z;
  arg_verbose : bool;
  arg_thinking : bool;
  arg_write_convo : bool
}.

Definition lower_char (c : ascii) : ascii :=
  let n := nat_of_ascii c in
  if ((65 <=? n) && (n <=? 90))%nat then ascii_of_nat (n + 32) else c.

(** [s.lower()], on the letters A to Z *)
Fixpoint lower (s : string) : string :=
  match s with
  | EmptyString => EmptyString
  | String c s' => String (lower_char c) (lower s')
  end.

Definition INPUT_PROMPT : string := LF ++ "ðŸ‘¤ You: ".

Section Main.

(** the environment of the [k]-th question *)
Variable world : nat -> Env.
Variable args : Args.

Definition ask (self : ExpertSystem) (k : nat) (user_prompt : string)
  : Outcome * Session :=
  get_consensus_answer (world k) self (arg_verbose args) (arg_thinking args)
    (arg_write_convo args) user_prompt.

(** lines 220 to 223: the interactive loop over the lines that the
    standard input holds, [input] raising [EOFError] when there is none
    left.  A run is followed as long as nothing interrupts it: an interrupt
    from the keyboard (lines 232 to 236) is a signal, which reaches the
    program at a moment of its own, and is outside this model. *)
Fixpoint chat_loop (self : ExpertSystem) (k : nat) (inputs : list string)
  : list Event * option Exn :=
  match inputs with
  | [] => ([Prompt INPUT_PROMPT], Some EOFError)
  | user_input :: inputs' =>
      if String.eqb (lower user_input) "exit" || String.eqb (lower user_input) "quit"
      then ([Prompt INPUT_PROMPT], None)
      else
        let (o, st) := ask self k user_input in
        match o with
        | Raised e => ((Prompt INPUT_PROMPT :: events st)%list, Some e)
        | _ =>
            let (es, r) := chat_loop self (S k) inputs' in
            ((Prompt INPUT_PROMPT :: events st ++ es)%list, r)
        end
  end.

(** lines 225 to 230: both handlers end in [sys.exit(1)] *)
Definition handle (e : Exn) : list Event * Z :=
  match e with
  | ResponseError error =>
      ([Print stderr (LF ++ "Fatal Error: " ++ error)], 1%Z)
  | _ =>
      ([Print stderr (LF ++ "An unexpected error occurred: " ++ exn_str e)], 1%Z)
  end.

(** What the process writes, and its exit status. *)
Definition main (inputs : list string) : list Event * Z :=
  let (init, self) :=
    ExpertSystem_init (world 0) (expert args) (panel_configs args) (max_steps args) in
  let single :=
    match question args with
    | Some q => nonempty q
    | None => false
    end in
  let (es, raised) :=
    if single then
      let (o, st) := ask self 0 (match question args with Some q => q | None => "" end) in
      (events st, match o with Raised e => Some e | _ => None end)
    else
      let (es, r) := chat_loop self 0 inputs in
      ((Print stdout (LF ++ "Welcome to Llama Panel Interactive Chat!") :: es
        ++ match r with None => [Print stdout "Goodbye!"] | Some _ => [] end)%list, r)
  in
  match raised with
  | Some e => let (h, code) := handle e in ((init ++ es ++ h)%list, code)
  | None => ((init ++ es)%list, 0%Z)
  end.

End Main.

(** ** Observations on a run *)

(** the texts printed to a stream, in order (a prompt is no printed
    text) *)
Fixpoint printed (to : Stream) (es : list Event) : list string :=
  match es with
  | [] => []
  | Print stdout text :: es' =>
      match to with
      | stdout => text :: printed to es'
      | stderr => printed to es'
      end
  | Print stderr text :: es' =>
      match to with
      | stdout => printed to es'
      | stderr => text :: printed to es'
      end
  | Dump _ _ :: es' => printed to es'
  | Prompt _ :: es' => printed to es'
  end.


(** the block line 142 prints for a thinking trace *)
Definition thinking_block (trace : string) : string :=
  LF ++ "--- Expert Thinking ---" ++ LF ++ trace ++ LF.

(** what one iteration prints to [stdout] before it dispatches *)
Definition thinking_output (verbose : bool) (response : Response) : list string :=
  if verbose then
    match message_thinking response with
    | Some trace => [thinking_block trace]
    | None => []
    end
  else [].

(** ** A scripted environment

    An expert that answers step [i] with [script i], three services that
    always succeed, and panelists of which every second one fails. *)

Definition tool_reply (fields : list (string * string)) : string :=
  "{" ++ join "," (map (fun kv => DQ ++ fst kv ++ DQ ++ ":" ++ DQ ++ snd kv ++ DQ) fields)
  ++ "}".

Definition spoken (content : string) (trace : option string) : Response :=
  {| message_content := content;
     message_thinking := trace;
     response_str :=
       "model='mistral-small3.2' done=True message=Message(role='assistant', content='"
       ++ content ++ "')" |}.

Definition scripted (script : nat -> Reply Response) : Env :=
  {| recursion_room := 950;
     int_max_str_digits := 4300;
     encode_error := fun _ =>
       "'utf-8' codec can't encode character '\ud800' in position 0: surrogates not allowed";
     repr_value := fun _ => "<value>";
     float_bool := fun x => negb (String.eqb x "0.0");
     float_str := fun x => x;
     float_2f := fun x => x;
     now := "2025-01-01 00:00:00";
     timestamp := "20250101-000000";
     expert_chat := fun i _ _ _ _ => script i;
     panelist_chat := fun _ j member _ =>
       if Nat.even j then Replied ("opinion of " ++ model member)
       else if Nat.even (j / 2) then Failed (OtherException "timed out")
       else Failed (ResponseError "model not found");
     google_search := fun _ _ =>
       Replied [ {| url := "https://example.org/a"; shown := "SearchResult(a)" |};
                 {| url := "https://x.substack.com/p"; shown := "SearchResult(p)" |} ];
     http_get := fun _ _ => Page "page text";
     write_file := fun _ _ => None |}.

Definition demo_system (steps : Z) : ExpertSystem :=
  {| expert_model := "mistral-small3.2";
     expert_temp := "0.0";
     max_reasoning_steps := steps;
     panel := [ {| model := "gemma3:4b"; temperature := "0.5" |};
                {| model := "granite3.3:2b"; temperature := "0.5" |};
                {| model := "qwen3:4b"; temperature := "0.5" |};
                {| model := "phi4"; temperature := "0.5" |} ] |}.

Definition SEARCH_REPLY : string :=
  tool_reply [("tool", "search_web"); ("query", "x"); ("reason", "r")].
Definition FINAL_REPLY : string :=
  tool_reply [("tool", "final_answer"); ("answer", "42")].
Definition MOON_REPLY : string := tool_reply [("tool", "fly_to_moon")].
Definition PROSE_REPLY : string := "I think the answer is 42".

(** ** Shapes of a run

    The vocabulary in which the properties below are stated. *)

(** the session after [added] turns, [outs] tool outputs, [k] iterations
    and the events [es] *)
Definition grow (st : Session) (added : list Turn) (outs : list string) (k : nat)
  (es : list Event) : Session :=
  {| conversation_history := (conversation_history st ++ added)%list;
     tool_outputs := (tool_outputs st ++ outs)%list;
     step_index := k + step_index st;
     events := (events st ++ es)%list |}.

Definition tool_turn (out : string) : Turn := {| role := tool; content := out |}.

Definition assistant_turn (response : Response) : Turn :=
  {| role := assistant; content := message_content response |}.

(** the one text a session that ends without an exception prints last *)
Definition final_message (env : Env) (o : Outcome) : option string :=
  match o with
  | Concluded answer => Some (py_str env answer)
  | RawFallback response => Some (response_str response)
  | UnknownTool _ response => Some (response_str response)
  | StepsExhausted => Some EXHAUSTION_NOTICE
  | Raised _ => None
  end.

(** the call of line 134, in the session [st] *)
Definition chat (env : Env) (self : ExpertSystem) (thinking : bool) (i : nat)
  (st : Session) : Reply Response :=
  expert_chat env i (expert_model self) (expert_temp self) thinking
    (conversation_history st).

(** the banner of line 133 *)
Definition step_banner (self : ExpertSystem) (i : nat) : Event :=
  Print stderr (LF ++ "--- Expert Reasoning Step " ++ str_of_nat (i + 1) ++ "/"
                ++ str_of_Z (max_reasoning_steps self) ++ " ---").

(** the session as the [try] of line 145 finds it *)
Definition before_try (self : ExpertSystem) (verbose : bool) (i : nat)
  (response : Response) (st : Session) : Session :=
  grow st [assistant_turn response] [] 1
    (step_banner self i :: map (Print stdout) (thinking_output verbose response)).

(** the exception of lines 169 to 173, when the transcript is asked for and
    cannot be written *)
Definition transcript_error (env : Env) (write_convo : bool) (st : Session)
  : option Exn :=
  if write_convo
  then write_file env ("llama-panel-" ++ timestamp env ++ ".convo")
         (conversation_history st)
  else None.

(** the exception of line 168, when [stdout] cannot encode the answer *)
Definition answer_error (env : Env) (answer : json) : option Exn :=
  if has_surrogate (py_str env answer)
  then Some (UnicodeEncodeError (encode_error env (py_str env answer)))
  else None.

(** how lines 167 to 175 end, for the answer found *)
Definition final_outcome (env : Env) (write_convo : bool) (st : Session)
  (answer : json) : Outcome :=
  match answer_error env answer with
  | Some e => Raised e
  | None =>
      match transcript_error env write_convo st with
      | Some e => Raised e
      | None => Concluded answer
      end
  end.

(** what lines 167 to 175 write *)
Definition final_events (env : Env) (write_convo : bool) (st : Session)
  (answer : json) : list Event :=
  match answer_error env answer with
  | Some _ => []
  | None =>
      Print stdout (py_str env answer)
      :: (if write_convo then
            match write_file env ("llama-panel-" ++ timestamp env ++ ".convo")
                    (conversation_history st) with
            | Some _ => []
            | None =>
                [Dump ("llama-panel-" ++ timestamp env ++ ".convo")
                   (conversation_history st);
                 Print stderr (LF ++ "Conversation history written to "
                               ++ "llama-panel-" ++ timestamp env ++ ".convo")]
            end
          else [])
  end.

(** What one iteration does to the session, by the way it ends. *)
Definition StepShape (env : Env) (self : ExpertSystem) (verbose thinking : bool)
  (i : nat) (st : Session) (r : Flow unit * Session) : Prop :=
  exists es added outs,
    snd r = grow st added outs 1 es
    /\ match fst r with
       | Next _ =>
           exists response out,
             chat env self thinking i st = Replied response
             /\ added = [assistant_turn response; tool_turn out] /\ outs = [out]
             /\ nonempty out = true
             /\ printed stdout es = thinking_output verbose response
       | Stop (Raised e) =>
           outs = []
           /\ ((chat env self thinking i st = Failed e /\ added = []
                /\ printed stdout es = [])
               \/ exists response,
                    chat env self thinking i st = Replied response
                    /\ added = [assistant_turn response]
                    /\ (printed stdout es = thinking_output verbose response
                        \/ exists answer,
                             printed stdout es
                             = (thinking_output verbose response
                                ++ [py_str env answer])%list))
       | Stop o =>
           exists response final,
             chat env self thinking i st = Replied response
             /\ added = [assistant_turn response] /\ outs = []
             /\ final_message env o = Some final
             /\ printed stdout es = (thinking_output verbose response ++ [final])%list
       end.

(** the three tools that return text *)
Definition text_tool (d : list (string * json)) : bool :=
  let tool_name := dict_get d "tool" JNull in
  is_str tool_name "llama_panel" || is_str tool_name "search_web"
  || is_str tool_name "read_webpage".

Definition is_thinking_block (text : string) : Prop :=
  exists trace, text = thinking_block trace.

(** What a run of the loop does to the session, by the way it ends:
    [blocks] is what the iterations printed for their thinking traces. *)
Definition LoopShape (env : Env) (verbose : bool) (n : nat) (st : Session)
  (r : Flow unit * Session) : Prop :=
  exists es added outs k blocks,
    snd r = grow st added outs k es
    /\ k <= n
    /\ Forall (fun out => nonempty out = true) outs
    /\ Forall is_thinking_block blocks
    /\ (verbose = false -> blocks = [])
    /\ match fst r with
       | Next _ => k = n /\ printed stdout es = blocks
       | Stop (Raised e) =>
           printed stdout es = blocks
           \/ exists answer, printed stdout es = (blocks ++ [py_str env answer])%list
       | Stop o =>
           exists final,
             final_message env o = Some final
             /\ printed stdout es = (blocks ++ [final])%list
       end.

(** [isinstance(v, dict)] *)
Definition is_dict (v : json) : bool :=
  match v with
  | JObject _ => true
  | _ => false
  end.

(** the names of the routing table *)
Definition TOOLS : list string :=
  ["llama_panel"; "search_web"; "read_webpage"; "final_answer"].

(** The section of the combined text for one member, by the way its call
    ended: the reply, the error text that [query] returns for an
    [ollama.ResponseError], or the line for any other exception. *)
Definition member_section (member : PanelMember) (r : Reply string) : string :=
  match r with
  | Replied text => "Response from '" ++ model member ++ "':" ++ LF ++ text
  | Failed (ResponseError _) =>
      "Response from '" ++ model member ++ "':" ++ LF
      ++ "Error: Could not get a response from model '" ++ model member ++ "'."
  | Failed e => "Exception from panelist " ++ model member ++ ": " ++ exn_str e
  end.

(** [f j x] for each [x] of the list, [j] being its position counted from
    [j0] *)
Fixpoint map_from {A B : Type} (j0 : nat) (f : nat -> A -> B) (l : list A) : list B :=
  match l with
  | [] => []
  | x :: l' => f j0 x :: map_from (S j0) f l'
  end.

(** A computation that only narrates: it returns, changes nothing of the
    session but its events, and prints nothing to [stdout]. *)
Definition Narrates {A : Type} (c : Run A) : Prop :=
  forall st, exists a es,
    c st = (Next a, add_events st es) /\ printed stdout es = [].

(** what [_query_panel] returns *)
Definition panel_sections (env : Env) (i : nat) (members : list PanelMember)
  (question : json) (outputs : list string) : list string :=
  map (fun mr => panel_response (fst mr) (snd mr))
    (combine members (map snd (gather env i 0 (tasks env members question outputs)))).

(** the system [main] builds at line 215 *)
Definition built_system (world : nat -> Env) (args : Args) : ExpertSystem :=
  snd (ExpertSystem_init (world 0) (expert args) (panel_configs args) (max_steps args)).

(** ** Scenarios *)

Definition search_forever : Env :=
  scripted (fun _ => Replied (spoken SEARCH_REPLY None)).


Definition flies_to_moon : Env :=
  scripted (fun _ => Replied (spoken MOON_REPLY None)).

Definition answers_at_once : Env :=
  scripted (fun _ => Replied (spoken FINAL_REPLY None)).

Definition speaks_prose : Env :=
  scripted (fun _ => Replied (spoken PROSE_REPLY None)).



Definition replies_seven : Env := scripted (fun _ => Replied (spoken "7" None)).

Definition demo_args : Args :=
  {| question := Some "What is the answer?";
     expert := ("mistral-small3.2", "0.0");
     panel_configs := [("gemma3:4b", "0.5"); ("granite3.3:2b", "0.5"); ("qwen3:4b", "0.5")];
     max_steps := 20;
     arg_verbose := false;
     arg_thinking := false;
     arg_write_convo := false |}.

Definition asks_panel : Env :=
  scripted (fun _ => Replied (spoken (tool_reply [("tool", "llama_panel");
                                                   ("question", "Is it 42?")]) None)).

(** ** [parse_model_temp]

    The model is that of the function on ASCII text, where [str.isdigit]
    holds of the runs of the digits 0 to 9 and [float] converts every text
    that passes the test of line 195.  (Other scripts have digits of their
    own, which [str.isdigit] and [float] know; they are not modelled.)  The
    temperature, a [float], is carried by its lexeme. *)

(** [value.rsplit(':', 1)] when [value] has a colon: what stands before the
    last colon, and what stands after it *)
Fixpoint rsplit_colon (value : string) : option (string * string) :=
  match value with
  | EmptyString => None
  | String c rest =>
      match rsplit_colon rest with
      | Some (before, after) => Some (String c before, after)
      | None => if Ascii.eqb c ":" then Some ("", rest) else None
      end
  end.

(** [s.replace('.', '', 1)] *)
Fixpoint drop_first_dot (s : string) : string :=
  match s with
  | EmptyString => ""
  | String c s' => if Ascii.eqb c "." then s' else String c (drop_first_dot s')
  end.

Fixpoint all_digits (s : string) : bool :=
  match s with
  | EmptyString => true
  | String c s' => Decoder.is_digit c && all_digits s'
  end.

(** [s.isdigit()]: at least one character, and digits only *)
Definition isdigit (s : string) : bool := nonempty s && all_digits s.

(** the message of the [argparse.ArgumentTypeError] *)
Definition invalid_format (value : string) : string :=
  "Invalid format: '" ++ value ++ "'. Use 'model_name:temperature'.".

(** the pair of the model name and the temperature, or the error message *)
Definition parse_model_temp (value : string) : (string * PyFloat) + string :=
  match rsplit_colon value with
  | Some (name, temp) =>
      if isdigit (drop_first_dot temp) then inl (name, temp)
      else inr (invalid_format value)
  | None => inr (invalid_format value)
  end.

(** line 212: [[parse_model_temp(p) for p in args.panel]], the first error
    leaving the comprehension *)
Fixpoint parse_panel (values : list string) : list (string * PyFloat) + string :=
  match values with
  | [] => inl []
  | value :: values' =>
      match parse_model_temp value with
      | inr msg => inr msg
      | inl config =>
          match parse_panel values' with
          | inr msg => inr msg
          | inl configs => inl (config :: configs)
          end
      end
  end.

(** the characters of a text *)
Fixpoint chars (s : string) : list ascii :=
  match s with
  | EmptyString => []
  | String c s' => c :: chars s'
  end.

(** the text is ASCII *)
Definition is_ascii_text (s : string) : bool :=
  forallb (fun c => (nat_of_ascii c <? 128)%nat) (chars s).

(** ** More observations *)

(** the transcripts written, in order: file name and document *)
Fixpoint dumped (es : list Event) : list (string * list Turn) :=
  match es with
  | [] => []
  | Dump fname doc :: es' => (fname, doc) :: dumped es'
  | Print _ _ :: es' => dumped es'
  | Prompt _ :: es' => dumped es'
  end.

(** a line of narration on [stderr] *)
Definition is_log (e : Event) : Prop :=
  match e with
  | Print stderr _ => True
  | _ => False
  end.

(** A computation that only logs: it returns, and all it does is to write
    lines to [stderr]. *)
Definition Logs {A : Type} (c : Run A) : Prop :=
  forall st, exists a es, c st = (Next a, add_events st es) /\ Forall is_log es.

(** the name of the transcript, line 171 *)
Definition transcript_name (env : Env) : string :=
  "llama-panel-" ++ timestamp env ++ ".convo".

Definition is_tool (t : Turn) : bool :=
  match role t with
  | tool => true
  | _ => false
  end.

(** the contents of the [tool] turns of a history, in order *)
Definition tool_contents (history : list Turn) : list string :=
  map content (filter is_tool history).

(** the roles of [m] iterations that ran a tool *)
Definition tool_rounds (m : nat) : list Role := concat (repeat [assistant; tool] m).

(** [hit] is a result of the domain the search leaves out *)
Definition from_substack (hit : SearchResult) : Prop :=
  exists pre post, url hit = pre ++ "substack.com" ++ post.

(** the tools whose output is recorded *)
Definition TEXT_TOOLS : list string := ["llama_panel"; "search_web"; "read_webpage"].

(** the keys under which those tools find their payload *)
Definition PAYLOAD_KEYS : list string := ["question"; "query"; "url"].

(** ** Further scenarios *)

(** the expert asks for a page, and every service fails *)
Definition fetch_fails : Env :=
  {| recursion_room := 950;
     int_max_str_digits := 4300;
     encode_error := fun _ =>
       "'utf-8' codec can't encode character '\ud800' in position 0: surrogates not allowed";
     repr_value := fun _ => "<value>";
     float_bool := fun _ => true;
     float_str := fun x => x;
     float_2f := fun x => x;
     now := "2025-01-01 00:00:00";
     timestamp := "20250101-000000";
     expert_chat := fun _ _ _ _ _ =>
       Replied (spoken (tool_reply [("tool", "read_webpage"); ("url", "http://x")]) None);
     panelist_chat := fun _ _ _ _ => Failed (OtherException "down");
     google_search := fun _ _ => Failed (OtherException "blocked");
     http_get := fun _ _ => FetchException "timed out";
     write_file := fun _ _ => Some (OSError "read-only file system") |}.

(** the call to the expert raises [ollama.ResponseError] *)
Definition expert_is_down : Env :=
  scripted (fun _ => Failed (ResponseError "model 'mistral-small3.2' not found")).



(** What one iteration does, transcript included: [added] is what it
    appends to the history, the tool outputs it records being the contents
    of the tool turns among them. *)
Definition StepTrace (env : Env) (write_convo : bool) (st : Session)
  (r : Flow unit * Session) : Prop :=
  exists es added,
    snd r = grow st added (tool_contents added) 1 es
    /\ dumped es
       = match fst r with
         | Stop (Concluded _) =>
             if write_convo
             then [(transcript_name env, (conversation_history st ++ added)%list)]
             else []
         | _ => []
         end
    /\ match fst r with
       | Next _ =>
           exists response out,
             added = [assistant_turn response; tool_turn out] /\ nonempty out = true
       | Stop (Raised _) => added = [] \/ exists response, added = [assistant_turn response]
       | Stop StepsExhausted => False
       | Stop _ => exists response, added = [assistant_turn response]
       end.

(** the expert replies with an object that has no [tool] key *)
Definition names_no_tool : Env :=
  scripted (fun _ => Replied (spoken (tool_reply [("answer", "42")]) None)).

(** ** Runs compared

    [off_stdout es] is what a run did besides printing to [stdout]: the
    lines on [stderr] and the transcripts, in their order.  Two sessions
    are alike when they differ by nothing but what they printed to
    [stdout]; two computations are alike when, from sessions alike, they
    end the same way in sessions alike. *)
Definition off_stdout (es : list Event) : list Event :=
  filter (fun e =>
            match e with
            | Print stdout _ => false
            | Prompt _ => false
            | _ => true
            end) es.

Definition Alike (s1 s2 : Session) : Prop :=
  conversation_history s1 = conversation_history s2
  /\ tool_outputs s1 = tool_outputs s2
  /\ step_index s1 = step_index s2
  /\ off_stdout (events s1) = off_stdout (events s2).

Definition RunsAlike {A : Type} (c1 c2 : Run A) : Prop :=
  forall s1 s2, Alike s1 s2 ->
    fst (c1 s1) = fst (c2 s2) /\ Alike (snd (c1 s1)) (snd (c2 s2)).

(** ** The interactive chat observed *)

(** line 222: the test that leaves the chat *)
Definition is_exit (line : string) : bool :=
  String.eqb (lower line) "exit" || String.eqb (lower line) "quit".

(** line 216: no question, or an empty one, starts the chat *)
Definition interactive (args : Args) : bool :=
  match question args with
  | Some q => negb (nonempty q)
  | None => true
  end.

(** the session ended with an exception *)
Definition raises (o : Outcome) : bool :=
  match o with
  | Raised _ => true
  | _ => false
  end.

Definition WELCOME : Event :=
  Print stdout (LF ++ "Welcome to Llama Panel Interactive Chat!").

(** what is written for the lines typed, each one asked as a question of
    its own: the prompt, then the events of its session *)
Fixpoint chat_rounds (world : nat -> Env) (args : Args) (self : ExpertSystem)
  (k : nat) (lines : list string) : list Event :=
  match lines with
  | [] => []
  | line :: lines' =>
      (Prompt INPUT_PROMPT :: events (snd (ask world args self k line))
       ++ chat_rounds world args self (S k) lines')%list
  end.

(** the empty question *)
Definition chatting_args : Args :=
  {| question := Some "";
     expert := ("mistral-small3.2", "0.0");
     panel_configs := [("gemma3:4b", "0.5")];
     max_steps := 20;
     arg_verbose := false;
     arg_thinking := false;
     arg_write_convo := false |}.

(** the environment with other panelists *)
Definition with_panelists (env : Env)
  (panelists : nat -> nat -> PanelMember -> json -> Reply string) : Env :=
  {| recursion_room := recursion_room env;
     int_max_str_digits := int_max_str_digits env;
     encode_error := encode_error env;
     repr_value := repr_value env;
     float_bool := float_bool env;
     float_str := float_str env;
     float_2f := float_2f env;
     now := now env;
     timestamp := timestamp env;
     expert_chat := expert_chat env;
     panelist_chat := panelists;
     google_search := google_search env;
     http_get := http_get env;
     write_file := write_file env |}.

(** ** The thinking blocks of a session

    An iteration that goes on appends two turns to the history, the reply
    and the output of the tool; the call of iteration [j] (line 134)
    therefore carries the first [2 + 2 * j] turns of the history the
    session ends with. *)

(** the reply of the expert in iteration [j] of a session that ended with
    the history [history] *)
Definition reply_at (env : Env) (self : ExpertSystem) (thinking : bool)
  (history : list Turn) (j : nat) : Reply Response :=
  expert_chat env j (expert_model self) (expert_temp self) thinking
    (firstn (2 + 2 * j) history).

(** what line 142 prints in iteration [j] *)
Definition thinking_at (env : Env) (self : ExpertSystem) (verbose thinking : bool)
  (history : list Turn) (j : nat) : list string :=
  match reply_at env self thinking history j with
  | Replied response => thinking_output verbose response
  | Failed _ => []
  end.




(** ** Replies at the limits *)

(** [n] times the text [piece] *)
Fixpoint times (n : nat) (piece : string) : string :=
  match n with
  | O => ""
  | S n' => piece ++ times n' piece
  end.

(** the expert opens two thousand arrays and closes none *)
Definition nests_deeply : Env :=
  scripted (fun _ => Replied (spoken (times 2000 "[") None)).

(** the expert replies with an integer of 4301 digits *)
Definition counts_too_far : Env :=
  scripted (fun _ => Replied (spoken (times 4301 "1") None)).

Definition SURROGATE_REPLY : string :=
  tool_reply [("tool", "final_answer"); ("answer", "\ud800")].

(** the answer of the expert is an unpaired surrogate, written as an
    escape *)
Definition answers_surrogate : Env :=
  scripted (fun _ => Replied (spoken SURROGATE_REPLY None)).

(** * Properties *)

(** ** The decoder has fuel enough *)

Module DecoderFacts.
Import Decoder.

Lemma skip_ws_length (s : string) : String.length (skip_ws s) <= String.length s.
Proof.
  induction s as [|c s IH]; simpl; [lia|].
  destruct (is_ws c); simpl; lia.
Qed.

Lemma eat_length (c : ascii) (s r : string) :
  eat c s = Some r -> String.length s = S (String.length r).
Proof.
  destruct s as [|x s]; simpl; [discriminate|].
  destruct (Ascii.eqb x c); [|discriminate]. intros [= ->]. reflexivity.
Qed.

Lemma span_digits_length (s : string) :
  String.length (snd (span_digits s)) <= String.length s.
Proof.
  induction s as [|c s IH]; simpl; [lia|].
  destruct (is_digit c); simpl; [|lia].
  destruct (span_digits s) as [ds r]. simpl in *. lia.
Qed.

Lemma strip_prefix_length (p s r : string) :
  strip_prefix p s = Some r -> String.length s = String.length p + String.length r.
Proof.
  revert s. induction p as [|a p IH]; intros s; simpl.
  - intros [= ->]. reflexivity.
  - destruct s as [|b s]; [discriminate|].
    destruct (Ascii.eqb a b); [|discriminate].
    intros H. simpl. rewrite (IH s H). reflexivity.
Qed.

Lemma literal_length (word : string) (v w : json) (s r : string) :
  nonempty word = true ->
  literal word v s = Some (w, r) -> String.length r < String.length s.
Proof.
  intros Hword. unfold literal.
  destruct (strip_prefix word s) as [r'|] eqn:Hstrip; [|discriminate].
  intros [= _ ->]. rewrite (strip_prefix_length _ _ _ Hstrip).
  destruct word; [discriminate|]. simpl. lia.
Qed.

Lemma match_integer_length (s integer r : string) :
  match_integer s = Some (integer, r) -> String.length r < String.length s.
Proof.
  unfold match_integer.
  assert (Hrest : forall sign t,
             String.length t <= String.length s ->
             match t with
             | String c r' =>
                 if Ascii.eqb c "0" then Some (sign ++ "0", r')
                 else if is_digit c
                      then let (ds, r'') := span_digits r' in Some (sign ++ String c ds, r'')
                      else None
             | EmptyString => None
             end = Some (integer, r) ->
             String.length r < String.length s).
  { intros sign [|c t] Ht; [discriminate|]. simpl in Ht.
    destruct (Ascii.eqb c "0"); [intros [= _ <-]; lia|].
    destruct (is_digit c); [|discriminate].
    pose proof (span_digits_length t) as Hspan.
    destruct (span_digits t) as [ds r'']. simpl in Hspan.
    intros [= _ <-]. lia. }
  destruct (eat "-" s) as [t|] eqn:Heat.
  - apply Hrest. rewrite (eat_length _ _ _ Heat). lia.
  - apply Hrest. lia.
Qed.

Lemma match_frac_length (s : string) :
  String.length (snd (match_frac s)) <= String.length s.
Proof.
  unfold match_frac. destruct (eat "." s) as [r|] eqn:Heat; simpl; [|lia].
  pose proof (span_digits_length r) as Hspan.
  destruct (span_digits r) as [ds r']. simpl in Hspan.
  pose proof (eat_length _ _ _ Heat) as Hs.
  destruct (nonempty ds); simpl; lia.
Qed.

Lemma match_exp_length (s : string) :
  String.length (snd (match_exp s)) <= String.length s.
Proof.
  unfold match_exp. destruct s as [|e r]; simpl; [lia|].
  destruct (Ascii.eqb e "e" || Ascii.eqb e "E"); simpl; [|lia].
  assert (Hsign : forall sign r1,
             String.length r1 <= String.length r ->
             String.length
               (snd (let (ds, r2) := span_digits r1 in
                     if nonempty ds then (String e (sign ++ ds), r2) else ("", String e r)))
             <= S (String.length r)).
  { intros sign r1 Hr1. pose proof (span_digits_length r1) as Hspan.
    destruct (span_digits r1) as [ds r2]. simpl in Hspan.
    destruct (nonempty ds); simpl; lia. }
  destruct (eat "+" r) as [r1|] eqn:Hplus.
  - apply Hsign. rewrite (eat_length _ _ _ Hplus). lia.
  - destruct (eat "-" r) as [r1|] eqn:Hminus.
    + apply Hsign. rewrite (eat_length _ _ _ Hminus). lia.
    + apply Hsign. lia.
Qed.

Lemma match_number_length (s : string) (v : json) (r : string) :
  match_number s = Some (v, r) -> String.length r < String.length s.
Proof.
  unfold match_number.
  destruct (match_integer s) as [[integer r0]|] eqn:Hint; [|discriminate].
  apply match_integer_length in Hint.
  pose proof (match_frac_length r0) as Hfrac.
  destruct (match_frac r0) as [frac r1]. simpl in Hfrac.
  pose proof (match_exp_length r1) as Hexp.
  destruct (match_exp r1) as [exp r2]. simpl in Hexp.
  destruct (nonempty frac || nonempty exp); intros [= _ <-]; lia.
Qed.

Lemma first_of_fuel (attempts : list (option (json * string))) :
  first_of attempts <> OutOfFuel.
Proof.
  induction attempts as [|[[v r]|] attempts IH]; simpl; [discriminate|discriminate|exact IH].
Qed.

Lemma first_of_length (s : string) (attempts : list (option (json * string)))
  (v : json) (r : string) :
  Forall (fun attempt => forall w t, attempt = Some (w, t) ->
                                     String.length t < String.length s) attempts ->
  first_of attempts = Ok v r -> String.length r < String.length s.
Proof.
  induction 1 as [|[[w t]|] attempts Hhead _ IH]; simpl; try discriminate.
  - intros [= _ <-]. apply (Hhead w t eq_refl).
  - exact IH.
Qed.

Lemma scan_scalar_length (s : string) (v : json) (r : string) :
  scan_scalar s = Ok v r -> String.length r < String.length s.
Proof.
  unfold scan_scalar. apply first_of_length.
  repeat constructor; intros w t;
    solve [ apply literal_length; reflexivity | apply match_number_length ].
Qed.

Lemma prepend_length (p : piece) (o : option (list piece * string))
  (ps : list piece) (r : string) (n : nat) :
  (forall ps' r', o = Some (ps', r') -> String.length r' < n) ->
  prepend p o = Some (ps, r) -> String.length r < n.
Proof.
  intros Ho. destruct o as [[ps' r']|]; simpl; [|discriminate].
  intros [= _ <-]. apply (Ho ps' r' eq_refl).
Qed.

Lemma scan_pieces_length (n : nat) :
  forall s ps r,
    String.length s <= n ->
    scan_pieces s = Some (ps, r) -> String.length r < String.length s.
Proof.
  induction n as [|n IH]; intros s ps r Hn.
  - destruct s; [discriminate | simpl in Hn; lia].
  - destruct s as [|c s]; [discriminate|]. simpl in Hn. simpl.
    destruct (Ascii.eqb c "034"); [intros [= _ <-]; lia|].
    destruct (Ascii.eqb c "\").
    + destruct s as [|e s1]; [discriminate|]. simpl in Hn.
      destruct (escape_char e).
      * intros H. apply (prepend_length _ _ _ _ (String.length s1)) in H; [simpl; lia|].
        intros ps' r' H'. apply IH in H'; lia.
      * destruct (Ascii.eqb e "u"); [|discriminate].
        destruct s1 as [|a [|b [|x [|d r4]]]]; try discriminate. simpl in Hn.
        destruct (hex4 a b x d); [|discriminate].
        intros H. apply (prepend_length _ _ _ _ (String.length r4)) in H; [simpl; lia|].
        intros ps' r' H'. apply IH in H'; lia.
    + destruct (N_of_ascii c <? 32)%N; [discriminate|].
      intros H. apply (prepend_length _ _ _ _ (String.length s)) in H; [lia|].
      intros ps' r' H'. apply IH in H'; lia.
Qed.

Lemma scanstring_length (s str r : string) :
  scanstring s = Some (str, r) -> String.length r < String.length s.
Proof.
  unfold scanstring. destruct (scan_pieces s) as [[ps r']|] eqn:Hscan; [|discriminate].
  intros [= _ <-]. apply (scan_pieces_length (String.length s) s ps r' (le_n _) Hscan).
Qed.

Lemma scan_consumes (max_digits fuel : nat) :
  (forall room s v r,
      scan_once max_digits fuel room s = Ok v r -> String.length r < String.length s)
  /\ (forall room acc s l r,
         array_items max_digits fuel room acc s = Ok l r ->
         String.length r < String.length s)
  /\ (forall room acc s d r,
         object_members max_digits fuel room acc s = Ok d r ->
         String.length r < String.length s).
Proof.
  induction fuel as [|fuel (IHvalue & IHitems & IHmembers)];
    [repeat split; intros; discriminate|].
  split; [|split].
  - intros room [|c s] v r; simpl; [discriminate|].
    destruct (Ascii.eqb c "034").
    { destruct (scanstring s) as [[str r']|] eqn:Hstr; [|discriminate].
      intros [= _ <-]. apply scanstring_length in Hstr. lia. }
    destruct (Ascii.eqb c "{").
    { destruct room as [|room]; [discriminate|].
      pose proof (skip_ws_length s) as Hws.
      destruct (skip_ws s) as [|c' r']; [discriminate|]. simpl in Hws.
      destruct (Ascii.eqb c' "}"); [intros [= _ <-]; lia|].
      destruct (Ascii.eqb c' "034"); [|discriminate].
      destruct (object_members max_digits fuel room [] r') as [d r''| | |] eqn:Hobj;
        try discriminate.
      intros [= _ <-]. apply IHmembers in Hobj. lia. }
    destruct (Ascii.eqb c "[").
    { destruct room as [|room]; [discriminate|].
      pose proof (skip_ws_length s) as Hws.
      destruct (eat "]" (skip_ws s)) as [r'|] eqn:Heat.
      - intros [= _ <-]. apply eat_length in Heat. lia.
      - destruct (array_items max_digits fuel room [] (skip_ws s)) as [l r''| | |] eqn:Harr;
          try discriminate.
        intros [= _ <-]. apply IHitems in Harr. lia. }
    destruct (refused_digits max_digits (String c s)); [discriminate|].
    intros H. apply scan_scalar_length in H. exact H.
  - intros room acc s l r. simpl.
    destruct (scan_once max_digits fuel room s) as [v r0| | |] eqn:Hvalue; try discriminate.
    apply IHvalue in Hvalue. pose proof (skip_ws_length r0) as Hws.
    destruct (skip_ws r0) as [|c r']; [discriminate|]. simpl in Hws.
    destruct (Ascii.eqb c "]"); [intros [= _ <-]; lia|].
    destruct (Ascii.eqb c ","); [|discriminate].
    intros H. apply IHitems in H. pose proof (skip_ws_length r'). lia.
  - intros room acc s d r. simpl.
    destruct (scanstring s) as [[key r0]|] eqn:Hkey; [|discriminate].
    apply scanstring_length in Hkey. pose proof (skip_ws_length r0) as Hws0.
    destruct (eat ":" (skip_ws r0)) as [r1|] eqn:Hcolon; [|discriminate].
    apply eat_length in Hcolon. pose proof (skip_ws_length r1) as Hws1.
    destruct (scan_once max_digits fuel room (skip_ws r1)) as [v r2| | |] eqn:Hvalue;
      try discriminate.
    apply IHvalue in Hvalue. pose proof (skip_ws_length r2) as Hws2.
    destruct (skip_ws r2) as [|c r3]; [discriminate|]. simpl in Hws2.
    destruct (Ascii.eqb c "}"); [intros [= _ <-]; lia|].
    destruct (Ascii.eqb c ","); [|discriminate].
    pose proof (skip_ws_length r3) as Hws3.
    destruct (eat "034" (skip_ws r3)) as [r4|] eqn:Hquote; [|discriminate].
    apply eat_length in Hquote.
    intros H. apply IHmembers in H. lia.
Qed.

Lemma scan_has_fuel (max_digits fuel : nat) :
  (forall room s,
      2 * String.length s < fuel -> scan_once max_digits fuel room s <> OutOfFuel)
  /\ (forall room acc s,
         2 * String.length s + 1 < fuel ->
         array_items max_digits fuel room acc s <> OutOfFuel)
  /\ (forall room acc s,
         2 * String.length s + 1 < fuel ->
         object_members max_digits fuel room acc s <> OutOfFuel).
Proof.
  induction fuel as [|fuel (IHvalue & IHitems & IHmembers)];
    [repeat split; intros; lia|].
  destruct (scan_consumes max_digits fuel) as (Hvalue & _ & _).
  split; [|split].
  - intros room [|c s] Hfuel; simpl; [discriminate|]. simpl in Hfuel.
    destruct (Ascii.eqb c "034").
    { destruct (scanstring s) as [[str r']|]; discriminate. }
    destruct (Ascii.eqb c "{").
    { destruct room as [|room]; [discriminate|].
      pose proof (skip_ws_length s) as Hws.
      destruct (skip_ws s) as [|c' r']; [discriminate|]. simpl in Hws.
      destruct (Ascii.eqb c' "}"); [discriminate|].
      destruct (Ascii.eqb c' "034"); [|discriminate].
      specialize (IHmembers room [] r').
      destruct (object_members max_digits fuel room [] r'); try discriminate.
      exfalso. apply IHmembers; [lia | reflexivity]. }
    destruct (Ascii.eqb c "[").
    { destruct room as [|room]; [discriminate|].
      pose proof (skip_ws_length s) as Hws.
      destruct (eat "]" (skip_ws s)); [discriminate|].
      specialize (IHitems room [] (skip_ws s)).
      destruct (array_items max_digits fuel room [] (skip_ws s)); try discriminate.
      exfalso. apply IHitems; [lia | reflexivity]. }
    destruct (refused_digits max_digits (String c s)); [discriminate|].
    apply first_of_fuel.
  - intros room acc s Hfuel. simpl.
    specialize (IHvalue room s). specialize (Hvalue room s).
    destruct (scan_once max_digits fuel room s) as [v r0| | |]; [|discriminate|discriminate|].
    + specialize (Hvalue v r0 eq_refl). pose proof (skip_ws_length r0) as Hws.
      destruct (skip_ws r0) as [|c r']; [discriminate|]. simpl in Hws.
      destruct (Ascii.eqb c "]"); [discriminate|].
      destruct (Ascii.eqb c ","); [|discriminate].
      apply IHitems. pose proof (skip_ws_length r'). lia.
    + exfalso. apply IHvalue; [lia | reflexivity].
  - intros room acc s Hfuel. simpl.
    destruct (scanstring s) as [[key r0]|] eqn:Hkey; [|discriminate].
    apply scanstring_length in Hkey. pose proof (skip_ws_length r0) as Hws0.
    destruct (eat ":" (skip_ws r0)) as [r1|] eqn:Hcolon; [|discriminate].
    apply eat_length in Hcolon. pose proof (skip_ws_length r1) as Hws1.
    specialize (IHvalue room (skip_ws r1)). specialize (Hvalue room (skip_ws r1)).
    destruct (scan_once max_digits fuel room (skip_ws r1)) as [v r2| | |];
      [|discriminate|discriminate|].
    + specialize (Hvalue v r2 eq_refl). pose proof (skip_ws_length r2) as Hws2.
      destruct (skip_ws r2) as [|c r3]; [discriminate|]. simpl in Hws2.
      destruct (Ascii.eqb c "}"); [discriminate|].
      destruct (Ascii.eqb c ","); [|discriminate].
      pose proof (skip_ws_length r3) as Hws3.
      destruct (eat "034" (skip_ws r3)) as [r4|] eqn:Hquote; [|discriminate].
      apply eat_length in Hquote. apply IHmembers. lia.
    + exfalso. apply IHvalue; [lia | reflexivity].
Qed.

(** the decoder never stops for want of fuel: what it does not decode, it
    rejects, unless a limit of the interpreter was met *)
Lemma decode_has_fuel (max_digits room : nat) (s : string) :
  decode max_digits room s <> OutOfFuel.
Proof.
  unfold decode.
  destruct (scan_has_fuel max_digits (2 * String.length s + 2)) as (Hvalue & _ & _).
  specialize (Hvalue room (skip_ws s)). pose proof (skip_ws_length s) as Hws.
  destruct (scan_once max_digits (2 * String.length s + 2) room (skip_ws s)) as [v r| | |].
  - destruct (skip_ws r); discriminate.
  - discriminate.
  - discriminate.
  - exfalso. apply Hvalue; [lia | reflexivity].
Qed.

End DecoderFacts.

Lemma json_loads_rejects (env : Env) (s : string) :
  json_loads env s = JSONDecodeError
  <-> Decoder.decode (int_max_str_digits env) (S (recursion_room env)) s
      = Decoder.Invalid.
Proof.
  unfold json_loads.
  pose proof (DecoderFacts.decode_has_fuel (int_max_str_digits env)
                (S (recursion_room env)) s) as Hfuel.
  destruct (Decoder.decode _ _ s); split; intros H; try discriminate; try reflexivity.
  contradiction.
Qed.

(** ** Events and narration *)

Lemma printed_app (to : Stream) (es es' : list Event) :
  printed to (es ++ es')%list = (printed to es ++ printed to es')%list.
Proof.
  induction es as [|e es IH]; [reflexivity|].
  destruct e as [[] text | fname doc | text]; destruct to; simpl; rewrite IH; reflexivity.
Qed.

Lemma add_events_nil (st : Session) : add_events st [] = st.
Proof. destruct st; unfold add_events; simpl; rewrite app_nil_r; reflexivity. Qed.

Lemma add_events_app (st : Session) (es es' : list Event) :
  add_events (add_events st es) es' = add_events st (es ++ es')%list.
Proof. unfold add_events; simpl; rewrite app_assoc; reflexivity. Qed.

Lemma Narrates_ret {A : Type} (a : A) : Narrates (ret a).
Proof.
  intros st. exists a, []. split; [|reflexivity].
  unfold ret. rewrite add_events_nil. reflexivity.
Qed.

Lemma Narrates_bind {A B : Type} (c : Run A) (k : A -> Run B) :
  Narrates c -> (forall a, Narrates (k a)) -> Narrates (bind c k).
Proof.
  intros Hc Hk st.
  destruct (Hc st) as (a & es & Hrun & Hq).
  destruct (Hk a (add_events st es)) as (b & es' & Hrun' & Hq').
  exists b, (es ++ es')%list. split.
  - unfold bind. rewrite Hrun, Hrun', add_events_app. reflexivity.
  - rewrite printed_app, Hq, Hq'. reflexivity.
Qed.

Lemma Narrates_cprint (text : string) : Narrates (cprint text).
Proof. intros st. exists tt, [Print stderr text]. split; reflexivity. Qed.

Lemma Narrates_when (b : bool) (c : Run unit) : Narrates c -> Narrates (when b c).
Proof. intros Hc. destruct b; simpl; [exact Hc | apply Narrates_ret]. Qed.

Lemma emit_all_run (es : list Event) (st : Session) :
  emit_all es st = (Next tt, add_events st es).
Proof.
  revert st. induction es as [|e es IH]; intros st; simpl.
  - unfold ret. rewrite add_events_nil. reflexivity.
  - unfold bind, emit. rewrite IH, add_events_app. reflexivity.
Qed.

Lemma Narrates_emit_all (es : list Event) :
  printed stdout es = [] -> Narrates (emit_all es).
Proof.
  intros Hq st. exists tt, es. split; [apply emit_all_run | exact Hq].
Qed.

Create HintDb narrate.
#[local] Hint Resolve Narrates_ret Narrates_cprint Narrates_when : narrate.

Lemma Narrates_read_webpage (env : Env) (i : nat) (url : json) :
  Narrates (read_webpage env i url).
Proof.
  unfold read_webpage. apply Narrates_bind; [auto with narrate|]. intros _.
  destruct (http_get env i url); apply Narrates_bind; auto with narrate.
Qed.

Lemma Narrates_search_web (env : Env) (i : nat) (query : json) :
  Narrates (search_web env i query).
Proof.
  unfold search_web. apply Narrates_bind; [auto with narrate|]. intros _.
  destruct (google_search env i query) as [found|e].
  - destruct (filter _ found); [auto with narrate|].
    apply Narrates_bind; auto with narrate.
  - apply Narrates_bind; auto with narrate.
Qed.

Lemma query_complete_quiet (member : PanelMember) (r : Reply string) :
  printed stdout (fst (query_complete member r)) = [].
Proof. destruct r as [text|[]]; reflexivity. Qed.

Lemma gather_quiet (env : Env) (calls : list (PanelMember * json)) (i j : nat) :
  printed stdout (concat (map fst (gather env i j calls))) = [].
Proof.
  revert j. induction calls as [|[member prompt] calls IH]; intros j; simpl.
  - reflexivity.
  - rewrite printed_app, IH, query_complete_quiet. reflexivity.
Qed.

Lemma announcements_quiet (env : Env) (calls : list (PanelMember * json)) :
  printed stdout (map (fun call => query_announce env (fst call)) calls) = [].
Proof. induction calls as [|call calls IH]; simpl; auto. Qed.

Lemma Narrates_read {A : Type} (f : Session -> A) : Narrates (read f).
Proof.
  intros st. exists (f st), []. split; [|reflexivity].
  unfold read. rewrite add_events_nil. reflexivity.
Qed.

Lemma query_panel_run (env : Env) (i : nat) (members : list PanelMember)
  (question : json) (outputs : list string) (st : Session) :
  exists es,
    _query_panel env i members question outputs st
    = (Next (join SECTION_SEPARATOR (panel_sections env i members question outputs)),
       add_events st es)
    /\ printed stdout es = [].
Proof.
  unfold _query_panel.
  set (calls := tasks env members question outputs).
  set (announce := map (fun call => query_announce env (fst call)) calls).
  set (errors := concat (map fst (gather env i 0 calls))).
  exists ([Print stderr (LF ++ "> Consulting the panel with the question: '"
                          ++ py_str env question ++ "'")]
          ++ announce ++ errors ++ [Print stderr "> Panel consultation complete."])%list.
  split.
  - unfold bind, cprint, emit, ret.
    rewrite !emit_all_run, !add_events_app. reflexivity.
  - rewrite !printed_app. subst announce errors.
    rewrite announcements_quiet, gather_quiet. reflexivity.
Qed.

(** ** One iteration *)

Lemma session_ext (a b : Session) :
  conversation_history a = conversation_history b ->
  tool_outputs a = tool_outputs b ->
  step_index a = step_index b ->
  events a = events b ->
  a = b.
Proof. destruct a, b; simpl; intros; subst; reflexivity. Qed.

Ltac session_eq :=
  apply session_ext; simpl; rewrite <- ?app_assoc, ?app_nil_r; simpl; try reflexivity.

Lemma grow_events (st : Session) (es : list Event) : add_events st es = grow st [] [] 0 es.
Proof. session_eq. Qed.

Lemma bind_narrates {A B : Type} (c : Run A) (k : A -> Run B) (st : Session) :
  Narrates c ->
  exists a es, printed stdout es = [] /\ bind c k st = k a (add_events st es).
Proof.
  intros Hc. destruct (Hc st) as (a & es & Hrun & Hq).
  exists a, es. split; [exact Hq|]. unfold bind. rewrite Hrun. reflexivity.
Qed.

Lemma echo_call_nonempty (env : Env) (name : string) (payload reason : json)
  (out : string) :
  nonempty (echo_call env name payload reason ++ out) = true.
Proof. reflexivity. Qed.

Lemma record_output_run (out : string) (st : Session) :
  nonempty out = true ->
  record_output out st = (Next tt, grow st [tool_turn out] [out] 0 []).
Proof.
  intros Hne. unfold record_output. rewrite Hne. simpl.
  unfold bind, append_turn, push_output. simpl. f_equal. session_eq.
Qed.

Lemma is_str_true (v : json) (s : string) : is_str v s = true -> v = JString s.
Proof.
  destruct v; simpl; try discriminate.
  intros H. apply String.eqb_eq in H. subst. reflexivity.
Qed.

Lemma printed_stdout_map (texts : list string) :
  printed stdout (map (Print stdout) texts) = texts.
Proof. induction texts as [|t texts IH]; simpl; [|rewrite IH]; reflexivity. Qed.

Ltac decide_tool :=
  repeat match goal with
    | |- context [is_str (JString ?a) ?b] =>
        let v := eval vm_compute in (is_str (JString a) b) in
        change (is_str (JString a) b) with v
    end;
  cbv iota.

Section Step.

Variable env : Env.
Variable self : ExpertSystem.
Variables (verbose thinking write_convo : bool).

Lemma tool_narration_quiet (d : list (string * json)) :
  printed stdout (tool_narration env d) = [].
Proof. unfold tool_narration. destruct (truthy env _); reflexivity. Qed.

Lemma dispatch_object (i : nat) (response : Response) (d : list (string * json))
  (st : Session) :
  dispatch env self write_convo i response (JObject d) st
  = route env self write_convo i response d (add_events st (tool_narration env d)).
Proof. unfold dispatch, bind. rewrite emit_all_run. reflexivity. Qed.

Lemma persist_shape (st : Session) :
  exists es,
    printed stdout es = []
    /\ (persist env write_convo st = (Next tt, add_events st es)
        \/ exists e, persist env write_convo st = (Stop (Raised e), add_events st es)).
Proof.
  unfold persist. destruct write_convo; unfold when.
  - unfold bind at 1 3, read.
    destruct (write_file env _ _) as [e|].
    + exists []. split; [reflexivity|]. right. exists e.
      unfold finish. rewrite add_events_nil. reflexivity.
    + eexists [Dump _ _; Print stderr _]. split; [reflexivity|]. left.
      unfold bind, cprint, emit. rewrite add_events_app. reflexivity.
  - exists []. split; [reflexivity|]. left. unfold ret. rewrite add_events_nil. reflexivity.
Qed.

(** a tool that returns its output as text: the output is recorded and the
    loop goes on *)
Lemma tool_branch_run (c : Run string) (name : string) (payload reason : json)
  (st : Session) (output : string) (es : list Event) :
  c st = (Next output, add_events st es) ->
  bind c (fun output => record_output (echo_call env name payload reason ++ output)) st
  = (Next tt,
     grow st [tool_turn (echo_call env name payload reason ++ output)]
       [echo_call env name payload reason ++ output] 0 es).
Proof.
  intros Hrun. unfold bind. rewrite Hrun, record_output_run by apply echo_call_nonempty.
  f_equal. session_eq.
Qed.

Lemma route_panel (i : nat) (response : Response) (d : list (string * json))
  (st : Session) :
  dict_get d "tool" JNull = JString "llama_panel" ->
  let question := dict_get d "question" (JString "") in
  let out :=
    echo_call env "llama_panel" question (dict_get d "reason" JNull)
    ++ join SECTION_SEPARATOR (panel_sections env i (panel self) question (tool_outputs st)) in
  exists es,
    route env self write_convo i response d st
    = (Next tt, grow st [tool_turn out] [out] 0 es)
    /\ printed stdout es = [].
Proof.
  intros Hname question out. unfold route. rewrite Hname. decide_tool.
  unfold bind at 1, read at 1.
  destruct (query_panel_run env i (panel self) question (tool_outputs st) st)
    as (es & Hrun & Hq).
  exists es. split; [|exact Hq].
  apply tool_branch_run. exact Hrun.
Qed.

Lemma route_text_tool (i : nat) (response : Response) (d : list (string * json))
  (st : Session) :
  text_tool d = true ->
  exists es out,
    route env self write_convo i response d st
    = (Next tt, grow st [tool_turn out] [out] 0 es)
    /\ nonempty out = true /\ printed stdout es = [].
Proof.
  unfold text_tool. intros Htool. unfold route.
  destruct (is_str (dict_get d "tool" JNull) "llama_panel") eqn:Hpanel.
  { destruct (route_panel i response d st (is_str_true _ _ Hpanel)) as (es & Hrun & Hq).
    unfold route in Hrun. rewrite Hpanel in Hrun.
    eexists es, _. split; [exact Hrun|]. split; [apply echo_call_nonempty | exact Hq]. }
  destruct (is_str (dict_get d "tool" JNull) "search_web") eqn:Hsearch.
  { destruct (Narrates_search_web env i (dict_get d "query" (JString "")) st)
      as (output & es & Hrun & Hq).
    eexists es, _. split; [apply tool_branch_run; exact Hrun|].
    split; [apply echo_call_nonempty | exact Hq]. }
  destruct (is_str (dict_get d "tool" JNull) "read_webpage") eqn:Hread; [|discriminate].
  destruct (Narrates_read_webpage env i (dict_get d "url" (JString "")) st)
    as (output & es & Hrun & Hq).
  eexists es, _. split; [apply tool_branch_run; exact Hrun|].
  split; [apply echo_call_nonempty | exact Hq].
Qed.

Lemma route_final (i : nat) (response : Response) (d : list (string * json))
  (st : Session) :
  dict_get d "tool" JNull = JString "final_answer" ->
  let answer := dict_get d "answer" (JString "No answer provided.") in
  route env self write_convo i response d st
  = (Stop (final_outcome env write_convo st answer),
     add_events st (final_events env write_convo st answer)).
Proof.
  intros Hname answer. unfold route. rewrite Hname. decide_tool.
  fold answer. unfold final_outcome, final_events, transcript_error, answer_error.
  unfold bind at 1, print_decoded.
  destruct (has_surrogate (py_str env answer)).
  { unfold finish. rewrite add_events_nil. reflexivity. }
  unfold print, emit.
  unfold persist. destruct write_convo; unfold when.
  - unfold bind at 1 2, read.
    change (conversation_history (add_events st [Print stdout (py_str env answer)]))
      with (conversation_history st).
    destruct (write_file env _ (conversation_history st)) as [e|].
    + reflexivity.
    + unfold bind, cprint, emit, finish. rewrite !add_events_app. reflexivity.
  - reflexivity.
Qed.

Lemma printed_final_events (st : Session) (answer : json) :
  printed stdout (final_events env write_convo st answer)
  = match answer_error env answer with
    | Some _ => []
    | None => [py_str env answer]
    end.
Proof.
  unfold final_events. destruct (answer_error env answer); [reflexivity|].
  destruct write_convo; [|reflexivity].
  destruct (write_file env _ _); reflexivity.
Qed.

Lemma route_unknown (i : nat) (response : Response) (d : list (string * json))
  (st : Session) :
  text_tool d = false ->
  is_str (dict_get d "tool" JNull) "final_answer" = false ->
  let tool_name := dict_get d "tool" JNull in
  route env self write_convo i response d st
  = (Stop (UnknownTool tool_name response),
     add_events st
       [Print stderr ("Error: Expert called an unknown tool: " ++ py_str env tool_name);
        Print stdout (response_str response)]).
Proof.
  unfold text_tool. cbv zeta. intros Htool Hfinal. unfold route.
  set (tool_name := dict_get d "tool" JNull) in *.
  destruct (is_str tool_name "llama_panel"); [discriminate|].
  destruct (is_str tool_name "search_web"); [discriminate|].
  destruct (is_str tool_name "read_webpage"); [discriminate|].
  rewrite Hfinal. unfold bind, cprint, print, emit, finish.
  rewrite add_events_app. reflexivity.
Qed.

(** one iteration, once the expert has replied *)
Lemma reasoning_step_run (i : nat) (st : Session) (response : Response) :
  chat env self thinking i st = Replied response ->
  reasoning_step env self verbose thinking write_convo i st
  = match json_loads env (message_content response) with
    | Decoded tool_call => dispatch env self write_convo i response tool_call
    | JSONDecodeError => fallback response
    | LoadError e => finish (Raised e)
    end (before_try self verbose i response st).
Proof.
  unfold chat. intros Hchat. unfold reasoning_step.
  unfold bind at 1, begin_step at 1.
  unfold bind at 1, cprint at 1, emit at 1.
  unfold bind at 1, read at 1.
  change (conversation_history (add_events _ _)) with (conversation_history st).
  rewrite Hchat.
  unfold bind at 1, await at 1, ret at 1.
  fold (step_banner self i).
  match goal with |- bind (when verbose ?c) ?k ?s = _ =>
    assert (Hthink : when verbose c s
                     = (Next tt, add_events s (map (Print stdout)
                                                 (thinking_output verbose response))))
  end.
  { unfold thinking_output, when. destruct verbose.
    - destruct (message_thinking response) as [trace|].
      + reflexivity.
      + unfold ret. rewrite add_events_nil. reflexivity.
    - unfold ret. rewrite add_events_nil. reflexivity. }
  unfold bind at 1. rewrite Hthink.
  unfold bind at 1, append_turn at 1.
  unfold fallback.
  match goal with |- ?f ?a = ?g ?b => assert (Hst : a = b) by (unfold before_try; session_eq) end.
  rewrite Hst. reflexivity.
Qed.

Lemma reasoning_step_raise (i : nat) (st : Session) (e : Exn) :
  chat env self thinking i st = Failed e ->
  reasoning_step env self verbose thinking write_convo i st
  = (Stop (Raised e), grow st [] [] 1 [step_banner self i]).
Proof.
  unfold chat. intros Hchat. unfold reasoning_step.
  unfold bind at 1, begin_step at 1.
  unfold bind at 1, cprint at 1, emit at 1.
  unfold bind at 1, read at 1.
  change (conversation_history (add_events _ _)) with (conversation_history st).
  rewrite Hchat. unfold bind, await, finish. f_equal. unfold step_banner. session_eq.
Qed.

Lemma before_try_grow (i : nat) (response : Response) (st : Session)
  (added : list Turn) (outs : list string) (es : list Event) :
  grow (before_try self verbose i response st) added outs 0 es
  = grow st (assistant_turn response :: added) outs 1
      (step_banner self i :: map (Print stdout) (thinking_output verbose response) ++ es).
Proof. unfold before_try. session_eq. Qed.

Lemma printed_before_try (i : nat) (response : Response) (es : list Event) :
  printed stdout
    (step_banner self i :: map (Print stdout) (thinking_output verbose response) ++ es)
  = (thinking_output verbose response ++ printed stdout es)%list.
Proof.
  unfold step_banner. simpl. rewrite printed_app, printed_stdout_map. reflexivity.
Qed.

Lemma routed_grow (i : nat) (response : Response) (d : list (string * json))
  (st : Session) (added : list Turn) (outs : list string) (es : list Event) :
  grow (add_events (before_try self verbose i response st) (tool_narration env d))
    added outs 0 es
  = grow st (assistant_turn response :: added) outs 1
      (step_banner self i
       :: map (Print stdout) (thinking_output verbose response)
          ++ tool_narration env d ++ es).
Proof. rewrite <- before_try_grow. session_eq. Qed.

Lemma printed_routed (i : nat) (response : Response) (d : list (string * json))
  (es : list Event) :
  printed stdout
    (step_banner self i
     :: map (Print stdout) (thinking_output verbose response)
        ++ tool_narration env d ++ es)
  = (thinking_output verbose response ++ printed stdout es)%list.
Proof. rewrite printed_before_try, printed_app, tool_narration_quiet. reflexivity. Qed.

Lemma reasoning_step_shape (i : nat) (st : Session) :
  StepShape env self verbose thinking i st
    (reasoning_step env self verbose thinking write_convo i st).
Proof.
  unfold StepShape.
  destruct (chat env self thinking i st) as [response|e] eqn:Hchat.
  2:{ rewrite (reasoning_step_raise i st e Hchat).
      exists [step_banner self i], [], []. simpl.
      split; [reflexivity|]. split; [reflexivity|]. left. auto. }
  rewrite (reasoning_step_run i st response Hchat).
  set (st0 := before_try self verbose i response st).
  assert (Hraise : forall e0,
               exists es added outs,
                 snd (finish (A:=unit) (Raised e0) st0)
                 = grow st added outs 1 es
                 /\ match fst (finish (A:=unit) (Raised e0) st0) with
                    | Stop (Raised e) =>
                        outs = []
                        /\ ((Replied response = Failed e /\ added = []
                             /\ printed stdout es = [])
                            \/ exists response0,
                                 Replied response = Replied response0
                                 /\ added = [assistant_turn response0]
                                 /\ (printed stdout es = thinking_output verbose response0
                                     \/ exists answer,
                                          printed stdout es
                                          = (thinking_output verbose response0
                                             ++ [py_str env answer])%list))
                    | _ => True
                    end).
  { intros e0. eexists _, [assistant_turn response], []. split.
    - unfold finish. simpl. subst st0. rewrite <- (add_events_nil (before_try _ _ _ _ _)).
      rewrite grow_events, before_try_grow. reflexivity.
    - unfold finish. cbn [fst snd]. split; [reflexivity|]. right. exists response.
      rewrite printed_before_try, app_nil_r. auto. }
  destruct (json_loads env (message_content response)) as [tool_call| |e0];
    [| |apply Hraise].
  - destruct tool_call as [| b | n | x | s | l | d];
      try apply (Hraise (AttributeError _)).
    clear Hraise. rewrite dispatch_object.
    set (st1 := add_events st0 (tool_narration env d)).
    pose proof (routed_grow i response d st) as Hst1. fold st0 st1 in Hst1.
    pose proof (printed_routed i response d) as Hq1.
    destruct (text_tool d) eqn:Htool.
    + destruct (route_text_tool i response d st1 Htool) as (es & out & -> & Hne & Hq).
      eexists _, _, _. split; [cbn [fst snd]; apply Hst1|].
      cbn [fst snd]. exists response, out. rewrite Hq1, Hq, app_nil_r. auto.
    + destruct (is_str (dict_get d "tool" JNull) "final_answer") eqn:Hfinal.
      * rewrite (route_final i response d st1 (is_str_true _ _ Hfinal)).
        eexists _, _, _. split; [cbn [fst snd]; rewrite grow_events; apply Hst1|].
        cbn [fst snd]. rewrite Hq1, printed_final_events. unfold final_outcome.
        destruct (answer_error env _) as [e|].
        { split; [reflexivity|]. right. exists response. rewrite app_nil_r. eauto. }
        destruct (transcript_error env write_convo st1) as [e|].
        -- split; [reflexivity|]. right. exists response. eauto.
        -- exists response. eexists. simpl. eauto.
      * rewrite (route_unknown i response d st1 Htool Hfinal).
        eexists _, _, _. split; [cbn [fst snd]; rewrite grow_events; apply Hst1|].
        cbn [fst snd]. rewrite Hq1. exists response. eexists. simpl. eauto.
  - unfold fallback, bind, cprint, print, emit, finish. rewrite add_events_app.
    eexists _, _, _. split.
    + cbn [fst snd]. subst st0. rewrite grow_events, before_try_grow. reflexivity.
    + cbn [fst snd]. rewrite printed_before_try. simpl. exists response. eexists. eauto.
Qed.

End Step.

(** ** The loop *)

Lemma grow_grow (st : Session) (a a' : list Turn) (o o' : list string) (k k' : nat)
  (e e' : list Event) :
  grow (grow st a o k e) a' o' k' e' = grow st (a ++ a') (o ++ o') (k' + k) (e ++ e').
Proof. unfold grow. simpl. rewrite !app_assoc, Nat.add_assoc. reflexivity. Qed.

Lemma grow_nothing (st : Session) : st = grow st [] [] 0 [].
Proof. destruct st. unfold grow. simpl. rewrite !app_nil_r. reflexivity. Qed.

Lemma thinking_output_blocks (verbose : bool) (response : Response) :
  Forall is_thinking_block (thinking_output verbose response)
  /\ (verbose = false -> thinking_output verbose response = []).
Proof.
  unfold thinking_output. destruct verbose; [|auto].
  split; [|discriminate].
  destruct (message_thinking response) as [trace|]; [|constructor].
  constructor; [|constructor]. exists trace. reflexivity.
Qed.

Lemma bind_assoc {A B C : Type} (c : Run A) (k : A -> Run B) (k' : B -> Run C)
  (st : Session) :
  bind (bind c k) k' st = bind c (fun a => bind (k a) k') st.
Proof. unfold bind. destruct (c st) as [[a|o] st']; reflexivity. Qed.

Section Loop.

Variable env : Env.
Variable self : ExpertSystem.
Variables (verbose thinking write_convo : bool).

Abbreviation step := (reasoning_step env self verbose thinking write_convo).
Abbreviation loop := (reasoning_loop env self verbose thinking write_convo).

Lemma reasoning_loop_shape (n i : nat) (st : Session) :
  LoopShape env verbose n st (loop n i st).
Proof.
  revert i st. induction n as [|n IH]; intros i st.
  - exists [], [], [], 0, []. simpl. repeat split; auto. apply grow_nothing.
  - simpl. unfold bind.
    destruct (reasoning_step_shape env self verbose thinking write_convo i st)
      as (es & added & outs & Hst & Hf).
    destruct (step i st) as [[[]|o] st1]; simpl in Hst, Hf; subst st1.
    + destruct Hf as (response & out & Hchat & -> & -> & Hne & Hq).
      destruct (thinking_output_blocks verbose response) as [Hblocks Hquiet].
      destruct (IH (S i) (grow st [assistant_turn response; tool_turn out] [out] 1 es))
        as (es' & added' & outs' & k & blocks & Hst' & Hk & Houts & Hb & Hv & Hf').
      exists (es ++ es')%list, ([assistant_turn response; tool_turn out] ++ added')%list,
        ([out] ++ outs')%list, (k + 1), (thinking_output verbose response ++ blocks)%list.
      split; [rewrite Hst'; apply grow_grow|].
      split; [lia|].
      split; [constructor; assumption|].
      split; [apply Forall_app; auto|].
      split; [intros Hoff; rewrite Hquiet, Hv by assumption; reflexivity|].
      rewrite printed_app, Hq.
      destruct (fst (loop n (S i) _)) as [[]|[answer | r | name r | | e]].
      * destruct Hf' as [-> ->]. split; [lia | reflexivity].
      * destruct Hf' as (final & Hfinal & ->). exists final.
        rewrite app_assoc. auto.
      * destruct Hf' as (final & Hfinal & ->). exists final.
        rewrite app_assoc. auto.
      * destruct Hf' as (final & Hfinal & ->). exists final.
        rewrite app_assoc. auto.
      * destruct Hf' as (final & Hfinal & ->). exists final.
        rewrite app_assoc. auto.
      * destruct Hf' as [-> | [answer ->]]; [left; reflexivity|].
        right. exists answer. rewrite app_assoc. reflexivity.
    + simpl.
      destruct o as [answer | r | name r | | e].
      1-4: destruct Hf as (response & final & Hchat & -> & -> & Hfinal & Hq);
           destruct (thinking_output_blocks verbose response) as [Hblocks Hquiet];
           exists es, [assistant_turn response], [], 1, (thinking_output verbose response);
           repeat split; auto; try lia; exists final; auto.
      destruct Hf as (-> & [(Hchat & -> & Hq) | (response & Hchat & -> & Hq)]).
      * exists es, [], [], 1, [].
        split; [reflexivity|]. split; [lia|]. repeat (split; [auto|]). left. exact Hq.
      * destruct (thinking_output_blocks verbose response) as [Hblocks Hquiet].
        exists es, [assistant_turn response], [], 1, (thinking_output verbose response).
        split; [reflexivity|]. split; [lia|]. repeat (split; [auto|]). exact Hq.
Qed.

(** the loop run for [n + m] iterations is the loop run for [n] and then,
    if it did not stop, for [m] more *)
Lemma reasoning_loop_add (n m i : nat) (st : Session) :
  loop (n + m) i st = bind (loop n i) (fun _ => loop m (n + i)) st.
Proof.
  revert i st. induction n as [|n IH]; intros i st.
  - reflexivity.
  - simpl. rewrite bind_assoc. unfold bind.
    destruct (step i st) as [[[]|o] st1]; [|reflexivity].
    rewrite IH. unfold bind. rewrite Nat.add_succ_r. reflexivity.
Qed.

Lemma consensus_stop (user_prompt : string) (o : Outcome) (st : Session) :
  loop (Z.to_nat (max_reasoning_steps self)) 0 (start env user_prompt) = (Stop o, st) ->
  get_consensus_answer env self verbose thinking write_convo user_prompt = (o, st).
Proof.
  intros Hrun. unfold get_consensus_answer, consensus_body, bind. rewrite Hrun. reflexivity.
Qed.

Lemma consensus_exhausted (user_prompt : string) (st : Session) :
  loop (Z.to_nat (max_reasoning_steps self)) 0 (start env user_prompt) = (Next tt, st) ->
  get_consensus_answer env self verbose thinking write_convo user_prompt
  = (StepsExhausted,
     add_events st [Print stderr (LF ++ "--- Max Reasoning Steps Reached ---");
                    Print stdout EXHAUSTION_NOTICE]).
Proof.
  intros Hrun. unfold get_consensus_answer, consensus_body, bind. rewrite Hrun.
  unfold cprint, print, emit, ret. rewrite add_events_app. reflexivity.
Qed.

End Loop.

(** ** Sessions *)

Section Session.

Variable env : Env.
Variable self : ExpertSystem.
Variables (verbose thinking write_convo : bool).

Abbreviation step := (reasoning_step env self verbose thinking write_convo).
Abbreviation loop := (reasoning_loop env self verbose thinking write_convo).
Abbreviation answer_to := (get_consensus_answer env self verbose thinking write_convo).

Lemma consensus_cases (user_prompt : string) :
  let r := loop (Z.to_nat (max_reasoning_steps self)) 0 (start env user_prompt) in
  (exists o, fst r = Stop o /\ answer_to user_prompt = (o, snd r))
  \/ (fst r = Next tt
      /\ answer_to user_prompt
         = (StepsExhausted,
            add_events (snd r)
              [Print stderr (LF ++ "--- Max Reasoning Steps Reached ---");
               Print stdout EXHAUSTION_NOTICE])).
Proof.
  intros r. subst r.
  destruct (loop _ 0 (start env user_prompt)) as [[[]|o] st] eqn:Hrun.
  - right. split; [reflexivity|]. apply consensus_exhausted. exact Hrun.
  - left. exists o. split; [reflexivity|]. apply consensus_stop. exact Hrun.
Qed.

(** an iteration in which the expert picks one of the three tools that
    return text goes on to the next *)
Lemma step_text_tool (i : nat) (st : Session) (response : Response)
  (d : list (string * json)) :
  chat env self thinking i st = Replied response ->
  json_loads env (message_content response) = Decoded (JObject d) ->
  text_tool d = true ->
  exists es out,
    step i st = (Next tt, grow st [assistant_turn response; tool_turn out] [out] 1 es)
    /\ nonempty out = true
    /\ printed stdout es = thinking_output verbose response.
Proof.
  intros Hchat Hjson Htool.
  rewrite (reasoning_step_run env self verbose thinking write_convo i st response Hchat).
  rewrite Hjson, dispatch_object.
  destruct (route_text_tool env self write_convo i response d
              (add_events (before_try self verbose i response st) (tool_narration env d))
              Htool) as (es & out & -> & Hne & Hq).
  eexists _, out. split; [|split; [exact Hne|]].
  - f_equal. apply (routed_grow env self verbose).
  - rewrite printed_routed, Hq, app_nil_r. reflexivity.
Qed.

Lemma loop_text_tools (n : nat) :
  (forall i st, exists response d,
      chat env self thinking i st = Replied response
      /\ json_loads env (message_content response) = Decoded (JObject d)
      /\ text_tool d = true) ->
  forall i st, exists st',
    loop n i st = (Next tt, st')
    /\ step_index st' = n + step_index st
    /\ map role (conversation_history st')
       = (map role (conversation_history st) ++ concat (repeat [assistant; tool] n))%list.
Proof.
  intros Hexpert. induction n as [|n IH]; intros i st.
  - exists st. simpl. rewrite app_nil_r. auto.
  - destruct (Hexpert i st) as (response & d & Hchat & Hjson & Htool).
    destruct (step_text_tool i st response d Hchat Hjson Htool) as (es & out & Hstep & _).
    destruct (IH (S i) (grow st [assistant_turn response; tool_turn out] [out] 1 es))
      as (st' & Hrun & Hidx & Hroles).
    exists st'. simpl reasoning_loop. unfold bind. rewrite Hstep, Hrun.
    split; [reflexivity|]. split.
    + rewrite Hidx. simpl. lia.
    + rewrite Hroles. simpl. rewrite map_app, <- app_assoc. reflexivity.
Qed.

End Session.

Lemma search_reply_decodes (env : Env) :
  json_loads env SEARCH_REPLY
  = Decoded (JObject [("tool", JString "search_web"); ("query", JString "x");
                   ("reason", JString "r")]).
Proof. vm_compute. reflexivity. Qed.

(** C3: the reasoning loop runs at most [max_reasoning_steps] iterations
    whatever the expert and the tools answer, and an expert that asks for
    the same web search every time, with three steps allowed, ends in
    [StepsExhausted] after exactly three iterations. *)
Theorem C3_step_bound :
  (forall env self verbose thinking write_convo user_prompt,
      (Z.of_nat (step_index (snd (get_consensus_answer env self verbose thinking
                                    write_convo user_prompt)))
       <= Z.max 0 (max_reasoning_steps self))%Z)
  /\ (forall env self verbose thinking write_convo user_prompt,
         max_reasoning_steps self = 3%Z ->
         (forall i st, exists response,
             chat env self thinking i st = Replied response
             /\ message_content response = SEARCH_REPLY) ->
         let (o, st) :=
           get_consensus_answer env self verbose thinking write_convo user_prompt in
         o = StepsExhausted
         /\ step_index st = 3
         /\ map role (conversation_history st)
            = [system; user; assistant; tool; assistant; tool; assistant; tool]).
Proof.
  split.
  - intros env self verbose thinking write_convo user_prompt.
    destruct (reasoning_loop_shape env self verbose thinking write_convo
                (Z.to_nat (max_reasoning_steps self)) 0 (start env user_prompt))
      as (es & added & outs & k & blocks & Hst & Hk & _).
    assert (Hidx : step_index (snd (get_consensus_answer env self verbose thinking
                                      write_convo user_prompt)) = k).
    { destruct (consensus_cases env self verbose thinking write_convo user_prompt)
        as [(o & _ & ->) | (_ & ->)]; simpl; rewrite Hst; simpl; lia. }
    rewrite Hidx. lia.
  - intros env self verbose thinking write_convo user_prompt Hmax Hexpert.
    assert (Htools : forall i st, exists response d,
               chat env self thinking i st = Replied response
               /\ json_loads env (message_content response) = Decoded (JObject d)
               /\ text_tool d = true).
    { intros i st. destruct (Hexpert i st) as (response & Hchat & Hcontent).
      eexists response, _. rewrite Hcontent, search_reply_decodes. auto. }
    destruct (loop_text_tools env self verbose thinking write_convo 3 Htools 0
                (start env user_prompt)) as (st' & Hrun & Hidx & Hroles).
    assert (Hsteps : Z.to_nat (max_reasoning_steps self) = 3) by (rewrite Hmax; reflexivity).
    rewrite <- Hsteps in Hrun.
    rewrite (consensus_exhausted env self verbose thinking write_convo user_prompt st' Hrun).
    split; [reflexivity|]. split; [exact Hidx|exact Hroles].
Qed.

Lemma C3_step_bound_witness :
  let (o, st) := get_consensus_answer search_forever (demo_system 3) false false false
                   "What is the answer?" in
  o = StepsExhausted /\ step_index st = 3
  /\ map role (conversation_history st)
     = [system; user; assistant; tool; assistant; tool; assistant; tool].
Proof.
  apply (proj2 C3_step_bound search_forever (demo_system 3) false false false).
  - reflexivity.
  - intros i st. exists (spoken SEARCH_REPLY None). split; reflexivity.
Defined.

Section History.

Variable env : Env.
Variable self : ExpertSystem.
Variables (verbose thinking write_convo : bool).

Lemma step_appends (i : nat) (st : Session) :
  exists added,
    conversation_history (snd (reasoning_step env self verbose thinking write_convo i st))
    = (conversation_history st ++ added)%list
    /\ length added <= 2.
Proof.
  destruct (reasoning_step_shape env self verbose thinking write_convo i st)
    as (es & added & outs & Hst & Hf).
  exists added. rewrite Hst. split; [reflexivity|].
  destruct (fst _) as [[]|[answer | r | name r | | e]].
  - destruct Hf as (response & out & _ & -> & _). simpl. lia.
  - destruct Hf as (response & final & _ & -> & _). simpl. lia.
  - destruct Hf as (response & final & _ & -> & _). simpl. lia.
  - destruct Hf as (response & final & _ & -> & _). simpl. lia.
  - destruct Hf as (response & final & _ & -> & _). simpl. lia.
  - destruct Hf as (_ & [(_ & -> & _) | (response & _ & -> & _)]); simpl; lia.
Qed.

Lemma loop_appends (n m i : nat) (st : Session) :
  exists added,
    conversation_history (snd (reasoning_loop env self verbose thinking write_convo (n + m) i st))
    = (conversation_history (snd (reasoning_loop env self verbose thinking write_convo n i st))
       ++ added)%list.
Proof.
  rewrite reasoning_loop_add. unfold bind.
  destruct (reasoning_loop env self verbose thinking write_convo n i st) as [[[]|o] st1].
  - destruct (reasoning_loop_shape env self verbose thinking write_convo m (n + i) st1)
      as (es & added & outs & k & blocks & Hst & _).
    exists added. simpl. rewrite Hst. reflexivity.
  - exists []. simpl. rewrite app_nil_r. reflexivity.
Qed.

End History.

(** C9: the conversation history only grows at its end.  One iteration
    leaves the history it found as a prefix of the history it returns; so
    does every further iteration of the loop, so that the length never
    decreases and an entry, once there, stays at its place unchanged; and
    the history of a whole session starts with the two turns it was seeded
    with. *)
Theorem C9_history_append_only :
  forall env self verbose thinking write_convo,
    (forall i st, exists added,
        conversation_history (snd (reasoning_step env self verbose thinking write_convo i st))
        = (conversation_history st ++ added)%list)
    /\ (forall n m i st, exists added,
           conversation_history
             (snd (reasoning_loop env self verbose thinking write_convo (n + m) i st))
           = (conversation_history
                (snd (reasoning_loop env self verbose thinking write_convo n i st))
              ++ added)%list)
    /\ (forall n m i st,
           length (conversation_history
                     (snd (reasoning_loop env self verbose thinking write_convo n i st)))
           <= length (conversation_history
                        (snd (reasoning_loop env self verbose thinking write_convo
                                (n + m) i st))))
    /\ (forall n m i st j,
           j < length (conversation_history
                         (snd (reasoning_loop env self verbose thinking write_convo n i st))) ->
           nth_error (conversation_history
                        (snd (reasoning_loop env self verbose thinking write_convo
                                (n + m) i st))) j
           = nth_error (conversation_history
                          (snd (reasoning_loop env self verbose thinking write_convo n i st))) j)
    /\ (forall user_prompt, exists added,
           conversation_history
             (snd (get_consensus_answer env self verbose thinking write_convo user_prompt))
           = (conversation_history (start env user_prompt) ++ added)%list).
Proof.
  intros env self verbose thinking write_convo.
  split; [|split; [|split; [|split]]].
  - intros i st. destruct (step_appends env self verbose thinking write_convo i st)
      as (added & Hadded & _). exists added. exact Hadded.
  - intros n m i st. apply loop_appends.
  - intros n m i st.
    destruct (loop_appends env self verbose thinking write_convo n m i st) as (added & ->).
    rewrite length_app. lia.
  - intros n m i st j Hj.
    destruct (loop_appends env self verbose thinking write_convo n m i st) as (added & ->).
    apply nth_error_app1. exact Hj.
  - intros user_prompt.
    destruct (reasoning_loop_shape env self verbose thinking write_convo
                (Z.to_nat (max_reasoning_steps self)) 0 (start env user_prompt))
      as (es & added & outs & k & blocks & Hst & _).
    exists added.
    destruct (consensus_cases env self verbose thinking write_convo user_prompt)
      as [(o & _ & ->) | (_ & ->)]; simpl; rewrite Hst; reflexivity.
Qed.

Lemma C9_history_append_only_witness :
  nth_error (conversation_history
               (snd (reasoning_loop search_forever (demo_system 3) false false false
                       (1 + 2) 0 (start search_forever "What is the answer?")))) 2
  = nth_error (conversation_history
                 (snd (reasoning_loop search_forever (demo_system 3) false false false
                         1 0 (start search_forever "What is the answer?")))) 2.
Proof.
  apply (proj1 (proj2 (proj2 (proj2
           (C9_history_append_only search_forever (demo_system 3) false false false))))).
  vm_compute. lia.
Defined.

Section Terminal.

Variable env : Env.
Variable self : ExpertSystem.
Variables (verbose thinking write_convo : bool).

Lemma loop_stops (n i : nat) (st st' : Session) (o : Outcome) :
  reasoning_step env self verbose thinking write_convo i st = (Stop o, st') ->
  reasoning_loop env self verbose thinking write_convo (S n) i st = (Stop o, st').
Proof. intros Hstep. simpl. unfold bind. rewrite Hstep. reflexivity. Qed.

Lemma step_fallback (i : nat) (st : Session) (response : Response) :
  chat env self thinking i st = Replied response ->
  json_loads env (message_content response) = JSONDecodeError ->
  exists es,
    reasoning_step env self verbose thinking write_convo i st
    = (Stop (RawFallback response), grow st [assistant_turn response] [] 1 es)
    /\ printed stdout es
       = (thinking_output verbose response ++ [response_str response])%list.
Proof.
  intros Hchat Hjson.
  rewrite (reasoning_step_run env self verbose thinking write_convo i st response Hchat).
  rewrite Hjson. unfold fallback, bind, cprint, print, emit, finish.
  rewrite add_events_app, grow_events, before_try_grow.
  eexists. split; [reflexivity|]. rewrite printed_before_try. reflexivity.
Qed.

Lemma step_not_dict (i : nat) (st : Session) (response : Response) (v : json) :
  chat env self thinking i st = Replied response ->
  json_loads env (message_content response) = Decoded v ->
  is_dict v = false ->
  exists es,
    reasoning_step env self verbose thinking write_convo i st
    = (Stop (Raised (AttributeError (type_name v))),
       grow st [assistant_turn response] [] 1 es)
    /\ printed stdout es = thinking_output verbose response.
Proof.
  intros Hchat Hjson Hdict.
  rewrite (reasoning_step_run env self verbose thinking write_convo i st response Hchat).
  rewrite Hjson.
  assert (Hraise : dispatch env self write_convo i response v
                   = finish (Raised (AttributeError (type_name v))))
    by (destruct v; try reflexivity; discriminate).
  rewrite Hraise. unfold finish.
  rewrite <- (add_events_nil (before_try _ _ _ _ _)), grow_events, before_try_grow.
  eexists. split; [reflexivity|]. rewrite printed_before_try, app_nil_r. reflexivity.
Qed.

Lemma step_load_error (i : nat) (st : Session) (response : Response) (e : Exn) :
  chat env self thinking i st = Replied response ->
  json_loads env (message_content response) = LoadError e ->
  exists es,
    reasoning_step env self verbose thinking write_convo i st
    = (Stop (Raised e), grow st [assistant_turn response] [] 1 es)
    /\ printed stdout es = thinking_output verbose response.
Proof.
  intros Hchat Hjson.
  rewrite (reasoning_step_run env self verbose thinking write_convo i st response Hchat).
  rewrite Hjson. unfold finish.
  rewrite <- (add_events_nil (before_try _ _ _ _ _)), grow_events, before_try_grow.
  eexists. split; [reflexivity|]. rewrite printed_before_try, app_nil_r. reflexivity.
Qed.

Lemma transcript_error_history (st st' : Session) :
  conversation_history st = conversation_history st' ->
  transcript_error env write_convo st = transcript_error env write_convo st'.
Proof. unfold transcript_error. intros ->. reflexivity. Qed.




Lemma step_unknown (i : nat) (st : Session) (response : Response)
  (d : list (string * json)) :
  chat env self thinking i st = Replied response ->
  json_loads env (message_content response) = Decoded (JObject d) ->
  text_tool d = false ->
  is_str (dict_get d "tool" JNull) "final_answer" = false ->
  exists es,
    reasoning_step env self verbose thinking write_convo i st
    = (Stop (UnknownTool (dict_get d "tool" JNull) response),
       grow st [assistant_turn response] [] 1 es)
    /\ printed stdout es = (thinking_output verbose response ++ [response_str response])%list.
Proof.
  intros Hchat Hjson Htool Hfinal.
  rewrite (reasoning_step_run env self verbose thinking write_convo i st response Hchat).
  rewrite Hjson, dispatch_object, (route_unknown env self write_convo i response d _ Htool Hfinal).
  rewrite add_events_app, grow_events, before_try_grow.
  eexists. split; [reflexivity|].
  rewrite printed_before_try, printed_app, tool_narration_quiet. reflexivity.
Qed.

End Terminal.

Section Exit.

Variable world : nat -> Env.
Variable args : Args.

Lemma main_single (inputs : list string) (q : string) :
  question args = Some q ->
  nonempty q = true ->
  snd (main world args inputs)
  = match fst (ask world args (built_system world args) 0 q) with
    | Raised _ => 1%Z
    | _ => 0%Z
    end.
Proof.
  intros Hq Hne. unfold main, built_system.
  destruct (ExpertSystem_init _ _ _ _) as [init system]. simpl snd.
  rewrite Hq, Hne.
  destruct (ask world args system 0 q) as [o st]. simpl fst.
  destruct o as [answer | r | name r | | e]; try reflexivity.
  unfold handle. destruct e; reflexivity.
Qed.

End Exit.

Lemma dict_get_lookup (d : list (string * json)) (k : string) (default v : json) :
  dict_lookup k d = Some v -> dict_get d k default = v.
Proof. unfold dict_get. intros ->. reflexivity. Qed.

Lemma unknown_name (d : list (string * json)) (name : string) :
  dict_lookup "tool" d = Some (JString name) ->
  ~ In name TOOLS ->
  text_tool d = false /\ is_str (dict_get d "tool" JNull) "final_answer" = false.
Proof.
  intros Hlookup Hout. unfold text_tool.
  rewrite (dict_get_lookup d "tool" JNull _ Hlookup). simpl is_str.
  assert (Hneq : forall t, In t TOOLS -> String.eqb name t = false).
  { intros t Ht. apply String.eqb_neq. intros ->. exact (Hout Ht). }
  rewrite !Hneq by (simpl; auto). auto.
Qed.

(** a session whose loop stops at once ends the way the loop did *)
Lemma session_stops_at_once (env : Env) (self : ExpertSystem)
  (verbose thinking write_convo : bool) (user_prompt : string) (o : Outcome)
  (st : Session) :
  (0 < max_reasoning_steps self)%Z ->
  (forall n, reasoning_loop env self verbose thinking write_convo (S n) 0
               (start env user_prompt) = (Stop o, st)) ->
  get_consensus_answer env self verbose thinking write_convo user_prompt = (o, st).
Proof.
  intros Hmax Hrun. apply consensus_stop.
  destruct (Z.to_nat (max_reasoning_steps self)) as [|n] eqn:Hn; [lia|]. apply Hrun.
Qed.

Lemma moon_reply_decodes (env : Env) :
  json_loads env MOON_REPLY
  = Decoded (JObject [("tool", JString "fly_to_moon")]).
Proof. vm_compute. reflexivity. Qed.

(** C6: when the reply decodes to an object whose [tool] is a name outside
    the routing table, the loop stops in that very iteration with
    [UnknownTool], whatever number of steps is left; the reply that names
    the tool [fly_to_moon], given first, ends the session after one
    iteration with [UnknownTool] of that name. *)
Theorem C6_unknown_tool :
  (forall env self verbose thinking write_convo n i st response d name,
      chat env self thinking i st = Replied response ->
      json_loads env (message_content response) = Decoded (JObject d) ->
      dict_lookup "tool" d = Some (JString name) ->
      ~ In name TOOLS ->
      exists es,
        reasoning_loop env self verbose thinking write_convo (S n) i st
        = (Stop (UnknownTool (JString name) response),
           grow st [assistant_turn response] [] 1 es)
        /\ printed stdout es
           = (thinking_output verbose response ++ [response_str response])%list)
  /\ (forall env self verbose thinking write_convo user_prompt response,
         (0 < max_reasoning_steps self)%Z ->
         chat env self thinking 0 (start env user_prompt) = Replied response ->
         message_content response = MOON_REPLY ->
         let (o, st) :=
           get_consensus_answer env self verbose thinking write_convo user_prompt in
         o = UnknownTool (JString "fly_to_moon") response
         /\ step_index st = 1
         /\ map role (conversation_history st) = [system; user; assistant]).
Proof.
  assert (Hgeneral :
            forall env self verbose thinking write_convo n i st response d name,
              chat env self thinking i st = Replied response ->
              json_loads env (message_content response) = Decoded (JObject d) ->
              dict_lookup "tool" d = Some (JString name) ->
              ~ In name TOOLS ->
              exists es,
                reasoning_loop env self verbose thinking write_convo (S n) i st
                = (Stop (UnknownTool (JString name) response),
                   grow st [assistant_turn response] [] 1 es)
                /\ printed stdout es
                   = (thinking_output verbose response ++ [response_str response])%list).
  { intros env self verbose thinking write_convo n i st response d name
      Hchat Hjson Hlookup Hout.
    destruct (unknown_name d name Hlookup Hout) as [Htool Hfinal].
    destruct (step_unknown env self verbose thinking write_convo i st response d
                Hchat Hjson Htool Hfinal) as (es & Hstep & Hq).
    rewrite (dict_get_lookup d "tool" JNull _ Hlookup) in Hstep.
    exists es. split; [apply loop_stops; exact Hstep | exact Hq]. }
  split; [exact Hgeneral|].
  intros env self verbose thinking write_convo user_prompt response Hmax Hchat Hcontent.
  assert (Hjson : json_loads env (message_content response)
                  = Decoded (JObject [("tool", JString "fly_to_moon")]))
    by (rewrite Hcontent; apply moon_reply_decodes).
  assert (Hout : ~ In "fly_to_moon" TOOLS)
    by (simpl; intros [H|[H|[H|[H|[]]]]]; discriminate).
  destruct (unknown_name [("tool", JString "fly_to_moon")] "fly_to_moon" eq_refl Hout)
    as [Htool Hfinal].
  destruct (step_unknown env self verbose thinking write_convo 0 (start env user_prompt)
              response _ Hchat Hjson Htool Hfinal) as (es & Hstep & _).
  rewrite (session_stops_at_once env self verbose thinking write_convo user_prompt
             _ _ Hmax (fun n => loop_stops env self verbose thinking write_convo n 0 _ _ _ Hstep)).
  repeat split.
Qed.

Lemma C6_unknown_tool_witness :
  let (o, st) := get_consensus_answer flies_to_moon (demo_system 3) false false false
                   "What is the answer?" in
  o = UnknownTool (JString "fly_to_moon") (spoken MOON_REPLY None)
  /\ step_index st = 1
  /\ map role (conversation_history st) = [system; user; assistant].
Proof.
  apply (proj2 C6_unknown_tool flies_to_moon (demo_system 3) false false false).
  - reflexivity.
  - reflexivity.
  - reflexivity.
Defined.


Lemma load_error_kinds (env : Env) (s : string) (e : Exn) :
  json_loads env s = LoadError e ->
  (exists msg, e = RecursionError msg) \/ (exists msg, e = ValueError msg).
Proof.
  unfold json_loads. destruct (Decoder.decode _ _ s) as [v r| |[container|digits]|];
    try discriminate; intros [= <-]; [left | right]; eexists; reflexivity.
Qed.

(** a session whose first iteration stops, seen from [main] *)
Lemma main_stops_at_once (world : nat -> Env) (args : Args) (inputs : list string)
  (q : string) (o : Outcome) (st : Session) :
  question args = Some q ->
  nonempty q = true ->
  (0 < max_steps args)%Z ->
  reasoning_step (world 0) (built_system world args) (arg_verbose args)
    (arg_thinking args) (arg_write_convo args) 0 (start (world 0) q) = (Stop o, st) ->
  ask world args (built_system world args) 0 q = (o, st)
  /\ snd (main world args inputs) = match o with Raised _ => 1%Z | _ => 0%Z end.
Proof.
  intros Hq Hne Hmax Hrun.
  assert (Hask : ask world args (built_system world args) 0 q = (o, st)).
  { unfold ask. apply session_stops_at_once.
    - exact Hmax.
    - intros n. apply loop_stops. exact Hrun. }
  split; [exact Hask|].
  rewrite (main_single world args inputs q Hq Hne), Hask. reflexivity.
Qed.




(** C1, as the code has it: a reply that [json.loads] rejects with
    [JSONDecodeError] stops the loop in that iteration with [RawFallback];
    the iteration keeps the raw reply as the last turn of the history, and
    what it prints to [stdout] as the final output is the rendering of the
    whole response object (line 186), not the reply string.  The call
    returns normally: in [main] the process ends with status 0.  A reply on
    which [json.loads] raises another exception, [RecursionError] for
    containers nested deeper than the interpreter allows or [ValueError] for
    an integer literal longer than it converts, is not caught by line 184:
    the exception leaves the loop and the call, nothing but the thinking
    block is printed to [stdout], and [main] ends the process with
    status 1. *)
Theorem C1_raw_fallback :
  (forall env self verbose thinking write_convo n i st response,
      chat env self thinking i st = Replied response ->
      json_loads env (message_content response) = JSONDecodeError ->
      exists es,
        reasoning_loop env self verbose thinking write_convo (S n) i st
        = (Stop (RawFallback response), grow st [assistant_turn response] [] 1 es)
        /\ printed stdout es
           = (thinking_output verbose response ++ [response_str response])%list)
  /\ (forall world args inputs q response,
         question args = Some q ->
         nonempty q = true ->
         (0 < max_steps args)%Z ->
         chat (world 0) (built_system world args) (arg_thinking args) 0
           (start (world 0) q) = Replied response ->
         json_loads (world 0) (message_content response) = JSONDecodeError ->
         fst (ask world args (built_system world args) 0 q) = RawFallback response
         /\ snd (main world args inputs) = 0%Z)
  /\ (forall env self verbose thinking write_convo n i st response e,
         chat env self thinking i st = Replied response ->
         json_loads env (message_content response) = LoadError e ->
         ((exists msg, e = RecursionError msg) \/ (exists msg, e = ValueError msg))
         /\ exists es,
              reasoning_loop env self verbose thinking write_convo (S n) i st
              = (Stop (Raised e), grow st [assistant_turn response] [] 1 es)
              /\ printed stdout es = thinking_output verbose response)
  /\ (forall world args inputs q response e,
         question args = Some q ->
         nonempty q = true ->
         (0 < max_steps args)%Z ->
         chat (world 0) (built_system world args) (arg_thinking args) 0
           (start (world 0) q) = Replied response ->
         json_loads (world 0) (message_content response) = LoadError e ->
         fst (ask world args (built_system world args) 0 q) = Raised e
         /\ snd (main world args inputs) = 1%Z).
Proof.
  split; [|split; [|split]].
  - intros env self verbose thinking write_convo n i st response Hchat Hjson.
    destruct (step_fallback env self verbose thinking write_convo i st response
                Hchat Hjson) as (es & Hrun & Hq).
    exists es. split; [apply loop_stops; exact Hrun | exact Hq].
  - intros world args inputs q response Hq Hne Hmax Hchat Hjson.
    destruct (step_fallback (world 0) (built_system world args) (arg_verbose args)
                (arg_thinking args) (arg_write_convo args) 0 (start (world 0) q) response
                Hchat Hjson) as (es & Hrun & _).
    destruct (main_stops_at_once world args inputs q _ _ Hq Hne Hmax Hrun) as [-> ->].
    split; reflexivity.
  - intros env self verbose thinking write_convo n i st response e Hchat Hjson.
    split; [exact (load_error_kinds env _ e Hjson)|].
    destruct (step_load_error env self verbose thinking write_convo i st response e
                Hchat Hjson) as (es & Hrun & Hq).
    exists es. split; [apply loop_stops; exact Hrun | exact Hq].
  - intros world args inputs q response e Hq Hne Hmax Hchat Hjson.
    destruct (step_load_error (world 0) (built_system world args) (arg_verbose args)
                (arg_thinking args) (arg_write_convo args) 0 (start (world 0) q) response e
                Hchat Hjson) as (es & Hrun & _).
    destruct (main_stops_at_once world args inputs q _ _ Hq Hne Hmax Hrun) as [-> ->].
    split; reflexivity.
Qed.

Lemma C1_raw_fallback_witness :
  (exists es,
      reasoning_loop speaks_prose (demo_system 3) false false false 3 0
        (start speaks_prose "What is the answer?")
      = (Stop (RawFallback (spoken PROSE_REPLY None)),
         grow (start speaks_prose "What is the answer?")
           [assistant_turn (spoken PROSE_REPLY None)] [] 1 es)
      /\ printed stdout es
         = (thinking_output false (spoken PROSE_REPLY None)
            ++ [response_str (spoken PROSE_REPLY None)])%list)
  /\ (fst (ask (fun _ => nests_deeply) demo_args
             (built_system (fun _ => nests_deeply) demo_args) 0 "What is the answer?")
      = Raised (RecursionError
                  "maximum recursion depth exceeded while decoding a JSON array from a unicode string")
      /\ snd (main (fun _ => nests_deeply) demo_args []) = 1%Z).
Proof.
  split.
  - apply (proj1 C1_raw_fallback speaks_prose (demo_system 3) false false false 2 0).
    + reflexivity.
    + vm_compute. reflexivity.
  - apply (proj2 (proj2 (proj2 C1_raw_fallback)) (fun _ => nests_deeply) demo_args []
             "What is the answer?" (spoken (times 2000 "[") None)).
    + reflexivity.
    + reflexivity.
    + reflexivity.
    + reflexivity.
    + vm_compute. reflexivity.
Defined.

(** the reply of the scenario is printed inside the rendering of the
    response, not as the bare string *)
Lemma C1_counterexample :
  let (o, st) := get_consensus_answer speaks_prose (demo_system 3) false false false
                   "What is the answer?" in
  o = RawFallback (spoken PROSE_REPLY None)
  /\ printed stdout (events st)
     = ["model='mistral-small3.2' done=True message=Message(role='assistant', content='I think the answer is 42')"]
  /\ printed stdout (events st) <> [PROSE_REPLY].
Proof. vm_compute. split; [reflexivity|]. split; [reflexivity|]. discriminate. Qed.




(** an answer that is an unpaired surrogate is not printed: the session
    ends with the exception of [print], and [main] with status 1 *)
Lemma surrogate_answer_raises :
  let (o, st) := get_consensus_answer answers_surrogate (demo_system 3) false false false
                   "What is the answer?" in
  o = Raised (UnicodeEncodeError
                "'utf-8' codec can't encode character '\ud800' in position 0: surrogates not allowed")
  /\ printed stdout (events st) = []
  /\ snd (main (fun _ => answers_surrogate) demo_args []) = 1%Z.
Proof. vm_compute. repeat split. Qed.

Lemma quoted_reply_decodes (env : Env) :
  json_loads env (DQ ++ "42" ++ DQ) = Decoded (JString "42").
Proof. vm_compute. reflexivity. Qed.

Lemma number_reply_decodes (env : Env) : json_loads env "7" = Decoded (JInt 7).
Proof. vm_compute. reflexivity. Qed.

(** C10, as the code has it: a reply that is valid JSON but no object and
    that [json.loads] decodes (the texts of the string 42 and of the number
    7 are such replies) does not take the raw fallback; [tool_call.get]
    raises [AttributeError], which leaves the loop and the call: the session
    has no outcome but the exception, the iteration prints no final message
    to [stdout], and [main] ends the process with status 1.  Not every such
    reply is decoded: on an integer literal longer than the interpreter
    converts, or on arrays nested deeper than it allows, [json.loads] itself
    raises ([ValueError], [RecursionError]); that exception, not
    [AttributeError], leaves the call, with the same status. *)
Theorem C10_non_object_reply :
  (forall env,
      json_loads env (DQ ++ "42" ++ DQ) = Decoded (JString "42")
      /\ json_loads env "7" = Decoded (JInt 7))
  /\ (forall env self verbose thinking write_convo n i st response v,
         chat env self thinking i st = Replied response ->
         json_loads env (message_content response) = Decoded v ->
         is_dict v = false ->
         exists es,
           reasoning_loop env self verbose thinking write_convo (S n) i st
           = (Stop (Raised (AttributeError (type_name v))),
              grow st [assistant_turn response] [] 1 es)
           /\ printed stdout es = thinking_output verbose response)
  /\ (forall world args inputs q response v,
         question args = Some q ->
         nonempty q = true ->
         (0 < max_steps args)%Z ->
         chat (world 0) (built_system world args) (arg_thinking args) 0
           (start (world 0) q) = Replied response ->
         json_loads (world 0) (message_content response) = Decoded v ->
         is_dict v = false ->
         fst (ask world args (built_system world args) 0 q)
         = Raised (AttributeError (type_name v))
         /\ snd (main world args inputs) = 1%Z)
  /\ (forall world args inputs q response e,
         question args = Some q ->
         nonempty q = true ->
         (0 < max_steps args)%Z ->
         chat (world 0) (built_system world args) (arg_thinking args) 0
           (start (world 0) q) = Replied response ->
         json_loads (world 0) (message_content response) = LoadError e ->
         ((exists msg, e = RecursionError msg) \/ (exists msg, e = ValueError msg))
         /\ fst (ask world args (built_system world args) 0 q) = Raised e
         /\ snd (main world args inputs) = 1%Z).
Proof.
  split; [intros env; split; [apply quoted_reply_decodes | apply number_reply_decodes]|].
  split; [|split].
  - intros env self verbose thinking write_convo n i st response v Hchat Hjson Hdict.
    destruct (step_not_dict env self verbose thinking write_convo i st response v
                Hchat Hjson Hdict) as (es & Hrun & Hq).
    exists es. split; [apply loop_stops; exact Hrun | exact Hq].
  - intros world args inputs q response v Hq Hne Hmax Hchat Hjson Hdict.
    destruct (step_not_dict (world 0) (built_system world args) (arg_verbose args)
                (arg_thinking args) (arg_write_convo args) 0 (start (world 0) q) response v
                Hchat Hjson Hdict) as (es & Hrun & _).
    destruct (main_stops_at_once world args inputs q _ _ Hq Hne Hmax Hrun) as [-> ->].
    split; reflexivity.
  - intros world args inputs q response e Hq Hne Hmax Hchat Hjson.
    split; [exact (load_error_kinds (world 0) _ e Hjson)|].
    destruct (step_load_error (world 0) (built_system world args) (arg_verbose args)
                (arg_thinking args) (arg_write_convo args) 0 (start (world 0) q) response e
                Hchat Hjson) as (es & Hrun & _).
    destruct (main_stops_at_once world args inputs q _ _ Hq Hne Hmax Hrun) as [-> ->].
    split; reflexivity.
Qed.

Lemma C10_non_object_reply_witness :
  fst (ask (fun _ => replies_seven) demo_args
         (built_system (fun _ => replies_seven) demo_args) 0 "What is the answer?")
  = Raised (AttributeError "int")
  /\ snd (main (fun _ => replies_seven) demo_args []) = 1%Z.
Proof.
  apply (proj1 (proj2 (proj2 C10_non_object_reply)) (fun _ => replies_seven) demo_args []
           "What is the answer?" (spoken "7" None) (JInt 7)).
  - reflexivity.
  - reflexivity.
  - reflexivity.
  - reflexivity.
  - vm_compute. reflexivity.
  - reflexivity.
Defined.

(** an integer of 4301 digits is a JSON number, which the grammar of the
    decoder accepts when no limit is set; with the limit of 4300 digits
    [json.loads] raises [ValueError] on it, and it is this exception that
    ends the session, not [AttributeError] *)
Lemma C10_counterexample :
  let (o, st) := get_consensus_answer counts_too_far (demo_system 3) false false false
                   "What is the answer?" in
  (exists n, Decoder.decode 0 1 (times 4301 "1") = Decoder.Ok (JInt n) "")
  /\ o = Raised (ValueError
                   "Exceeds the limit (4300 digits) for integer string conversion: value has 4301 digits; use sys.set_int_max_str_digits() to increase the limit")
  /\ printed stdout (events st) = []
  /\ snd (main (fun _ => counts_too_far) demo_args []) = 1%Z.
Proof.
  vm_compute. split; [eexists; reflexivity|]. repeat split.
Qed.

(** ** What a session prints *)

Section Stdout.

Variable env : Env.
Variable self : ExpertSystem.
Variables (verbose thinking write_convo : bool).




(** the blocks of the iterations from [i] on depend on the history only
    through its prefixes from [2 + 2 * i] turns on *)
Lemma flat_map_thinking_ext (h h' : list Turn) (i k : nat) :
  (forall j, i <= j < i + k -> firstn (2 + 2 * j) h = firstn (2 + 2 * j) h') ->
  flat_map (thinking_at env self verbose thinking h) (seq i k)
  = flat_map (thinking_at env self verbose thinking h') (seq i k).
Proof.
  revert i. induction k as [|k IH]; intros i Hsame; [reflexivity|].
  simpl. rewrite IH by (intros j Hj; apply Hsame; lia).
  unfold thinking_at at 1 3, reply_at. rewrite (Hsame i) by lia. reflexivity.
Qed.


End Stdout.




(** ** The panel *)

Lemma map_from_length {A B : Type} (f : nat -> A -> B) (l : list A) (j0 : nat) :
  length (map_from j0 f l) = length l.
Proof. revert j0. induction l as [|x l IH]; intros j0; simpl; [|rewrite IH]; reflexivity. Qed.

Lemma map_from_nth {A B : Type} (f : nat -> A -> B) (l : list A) (j0 j : nat) (x : A) :
  nth_error l j = Some x ->
  nth_error (map_from j0 f l) j = Some (f (j0 + j) x).
Proof.
  revert j0 j. induction l as [|y l IH]; intros j0 [|j] Hnth; simpl in *; try discriminate.
  - injection Hnth as ->. rewrite Nat.add_0_r. reflexivity.
  - rewrite (IH (S j0) j Hnth). f_equal. f_equal. lia.
Qed.

Lemma member_section_complete (member : PanelMember) (r : Reply string) :
  panel_response member (snd (query_complete member r)) = member_section member r.
Proof. destruct r as [text|[]]; reflexivity. Qed.

Lemma sections_from (env : Env) (i j0 : nat) (members : list PanelMember) (prompt : json) :
  map (fun mr => panel_response (fst mr) (snd mr))
    (combine members
       (map snd (gather env i j0 (map (fun member => (member, prompt)) members))))
  = map_from j0 (fun j member => member_section member (panelist_chat env i j member prompt))
      members.
Proof.
  revert j0. induction members as [|member members IH]; intros j0; simpl.
  - reflexivity.
  - rewrite member_section_complete, IH. reflexivity.
Qed.

Lemma panel_sections_members (env : Env) (i : nat) (members : list PanelMember)
  (question : json) (outputs : list string) :
  panel_sections env i members question outputs
  = map_from 0
      (fun j member =>
         member_section member
           (panelist_chat env i j member (panel_prompt env question outputs)))
      members.
Proof. unfold panel_sections, tasks. apply sections_from. Qed.

Lemma append_assoc (a b c : string) : (a ++ b) ++ c = a ++ b ++ c.
Proof. induction a as [|x a IH]; simpl; [|rewrite IH]; reflexivity. Qed.

Lemma append_nil_r (a : string) : a ++ "" = a.
Proof. induction a as [|x a IH]; simpl; [|rewrite IH]; reflexivity. Qed.

Lemma startswith_app (p s : string) : startswith p (p ++ s) = true.
Proof.
  unfold startswith. induction p as [|c p IH]; simpl; [reflexivity|].
  rewrite Ascii.eqb_refl. exact IH.
Qed.

Lemma member_section_attributed (member : PanelMember) (r : Reply string) :
  startswith ("Response from '" ++ model member ++ "':" ++ LF) (member_section member r)
  || startswith ("Exception from panelist " ++ model member ++ ": ")
       (member_section member r) = true.
Proof.
  assert (Hresp : forall text,
             startswith ("Response from '" ++ model member ++ "':" ++ LF)
               ("Response from '" ++ model member ++ "':" ++ LF ++ text) = true).
  { intros text.
    replace ("Response from '" ++ model member ++ "':" ++ LF ++ text)
      with (("Response from '" ++ model member ++ "':" ++ LF) ++ text).
    - apply startswith_app.
    - rewrite !append_assoc. reflexivity. }
  assert (Hexn : forall text,
             startswith ("Exception from panelist " ++ model member ++ ": ")
               ("Exception from panelist " ++ model member ++ ": " ++ text) = true).
  { intros text.
    replace ("Exception from panelist " ++ model member ++ ": " ++ text)
      with (("Exception from panelist " ++ model member ++ ": ") ++ text).
    - apply startswith_app.
    - rewrite !append_assoc. reflexivity. }
  destruct r as [text|[]]; unfold member_section;
    rewrite ?Hresp, ?Hexn, ?orb_true_r; reflexivity.
Qed.

Section Panel.

Variable env : Env.
Variable self : ExpertSystem.
Variables (verbose thinking write_convo : bool).

(** an iteration that consults the panel *)
Lemma step_panel (i : nat) (st : Session) (response : Response)
  (d : list (string * json)) :
  chat env self thinking i st = Replied response ->
  json_loads env (message_content response) = Decoded (JObject d) ->
  dict_get d "tool" JNull = JString "llama_panel" ->
  let question := dict_get d "question" (JString "") in
  let out :=
    echo_call env "llama_panel" question (dict_get d "reason" JNull)
    ++ join SECTION_SEPARATOR
         (panel_sections env i (panel self) question (tool_outputs st)) in
  exists es,
    reasoning_step env self verbose thinking write_convo i st
    = (Next tt, grow st [assistant_turn response; tool_turn out] [out] 1 es)
    /\ printed stdout es = thinking_output verbose response.
Proof.
  intros Hchat Hjson Hname question out.
  rewrite (reasoning_step_run env self verbose thinking write_convo i st response Hchat).
  rewrite Hjson, dispatch_object.
  destruct (route_panel env self write_convo i response d
              (add_events (before_try self verbose i response st) (tool_narration env d))
              Hname) as (es & Hrun & Hq).
  cbv zeta in Hrun.
  change (tool_outputs (add_events (before_try self verbose i response st)
                          (tool_narration env d)))
    with (tool_outputs st ++ [])%list in Hrun.
  rewrite app_nil_r in Hrun. fold question in Hrun. fold out in Hrun.
  rewrite Hrun, routed_grow.
  eexists. split; [reflexivity|]. rewrite printed_routed, Hq, app_nil_r. reflexivity.
Qed.

End Panel.

(** C4: whichever members fail, [_query_panel] returns, and the text it
    returns is the sections of all the members joined by the separator: as
    many sections as members, the section at each position being that of
    the member registered there, opened by a line that names the member, and
    holding the reply or, for a member whose call failed, the error marker.
    The iteration that consulted the panel records this text and the loop
    goes on. *)
Theorem C4_panel_fan_out :
  (forall env i members question outputs st,
      exists sections es,
        _query_panel env i members question outputs st
        = (Next (join SECTION_SEPARATOR sections), add_events st es)
        /\ length sections = length members
        /\ (forall j member,
               nth_error members j = Some member ->
               let r := panelist_chat env i j member (panel_prompt env question outputs) in
               nth_error sections j = Some (member_section member r)
               /\ startswith ("Response from '" ++ model member ++ "':" ++ LF)
                    (member_section member r)
                  || startswith ("Exception from panelist " ++ model member ++ ": ")
                       (member_section member r) = true))
  /\ (forall env self verbose thinking write_convo i st response d,
         chat env self thinking i st = Replied response ->
         json_loads env (message_content response) = Decoded (JObject d) ->
         dict_lookup "tool" d = Some (JString "llama_panel") ->
         exists es sections,
           let out :=
             echo_call env "llama_panel" (dict_get d "question" (JString ""))
               (dict_get d "reason" JNull)
             ++ join SECTION_SEPARATOR sections in
           reasoning_step env self verbose thinking write_convo i st
           = (Next tt, grow st [assistant_turn response; tool_turn out] [out] 1 es)
           /\ length sections = length (panel self)).
Proof.
  split.
  - intros env i members question outputs st.
    destruct (query_panel_run env i members question outputs st) as (es & Hrun & _).
    exists (panel_sections env i members question outputs), es.
    split; [exact Hrun|]. rewrite panel_sections_members.
    split; [apply map_from_length|].
    intros j member Hnth r. split; [|apply member_section_attributed].
    subst r. rewrite (map_from_nth _ members 0 j member Hnth). reflexivity.
  - intros env self verbose thinking write_convo i st response d Hchat Hjson Hlookup.
    destruct (step_panel env self verbose thinking write_convo i st response d
                Hchat Hjson (dict_get_lookup d "tool" JNull _ Hlookup)) as (es & Hrun & _).
    eexists es, _. split; [exact Hrun|].
    rewrite panel_sections_members. apply map_from_length.
Qed.

(** four members, of whom the second times out and the fourth is refused *)
Lemma C4_panel_fan_out_witness :
  exists es sections,
    let out :=
      echo_call asks_panel "llama_panel" (JString "Is it 42?") JNull
      ++ join SECTION_SEPARATOR sections in
    reasoning_step asks_panel (demo_system 3) false false false 0
      (start asks_panel "What is the answer?")
    = (Next tt,
       grow (start asks_panel "What is the answer?")
         [assistant_turn (spoken (tool_reply [("tool", "llama_panel");
                                              ("question", "Is it 42?")]) None);
          tool_turn out] [out] 1 es)
    /\ length sections = 4.
Proof.
  apply (proj2 C4_panel_fan_out asks_panel (demo_system 3) false false false 0
           (start asks_panel "What is the answer?") _
           [("tool", JString "llama_panel"); ("question", JString "Is it 42?")]).
  - reflexivity.
  - vm_compute. reflexivity.
  - reflexivity.
Defined.

Lemma nonempty_app_l (a b : string) : nonempty a = true -> nonempty (a ++ b) = true.
Proof. destruct a; [discriminate | reflexivity]. Qed.

Lemma join_nonempty (sep : string) (parts : list string) :
  parts <> [] ->
  Forall (fun part => nonempty part = true) parts ->
  nonempty (join sep parts) = true.
Proof.
  intros Hparts Hall. destruct parts as [|part parts]; [contradiction|].
  inversion Hall as [|? ? Hpart _]; subst. unfold join. simpl.
  destruct parts; [exact Hpart | apply nonempty_app_l; exact Hpart].
Qed.

Lemma loop_outputs_nonempty (env : Env) (self : ExpertSystem)
  (verbose thinking write_convo : bool) (n i : nat) (st : Session) :
  Forall (fun out => nonempty out = true) (tool_outputs st) ->
  Forall (fun out => nonempty out = true)
    (tool_outputs (snd (reasoning_loop env self verbose thinking write_convo n i st))).
Proof.
  intros Hst.
  destruct (reasoning_loop_shape env self verbose thinking write_convo n i st)
    as (es & added & outs & k & blocks & -> & _ & Houts & _).
  simpl. apply Forall_app. auto.
Qed.

Lemma gather_with_panelists (env : Env)
  (panelists : nat -> nat -> PanelMember -> json -> Reply string)
  (i j0 : nat) (members : list PanelMember) (prompt : json) :
  (forall j member, panelists i j member prompt = panelist_chat env i j member prompt) ->
  gather (with_panelists env panelists) i j0 (map (fun member => (member, prompt)) members)
  = gather env i j0 (map (fun member => (member, prompt)) members).
Proof.
  intros Hsame. revert j0. induction members as [|member members IH]; intros j0.
  - reflexivity.
  - cbn [map gather]. rewrite IH. f_equal.
    change (panelist_chat (with_panelists env panelists) i j0 member prompt)
      with (panelists i j0 member prompt).
    rewrite Hsame. reflexivity.
Qed.

Lemma announced (env : Env) (members : list PanelMember) (question : json)
  (outputs : list string) (member : PanelMember) :
  In member members ->
  In (query_announce env member)
    (map (fun call => query_announce env (fst call)) (tasks env members question outputs)).
Proof.
  intros Hin. unfold tasks. rewrite map_map. cbn [fst].
  apply in_map_iff. exists member. auto.
Qed.

(** C5: [_query_panel] puts the one prompt [panel_prompt] to every member of
    the panel, in the order of the panel: each member is announced, the text
    returned is made of what each member answered to that prompt, and
    nothing a panelist would answer to another prompt has any part in the
    call.  In a session the prompt is built from the question of the tool
    call and the tool outputs recorded so far.  For a question that is text,
    the prompt is the question alone when there are no tool outputs; when
    there are (each of them, as in every session, not empty), it is the
    question, the context header, and the outputs in their order, each
    verbatim, a blank line between two of them; for any outputs whatever it
    starts with the question, which that block follows or nothing does.
    The question Q with the outputs A and B gives a prompt in which Q, A
    and B occur once each, in that order. *)
Theorem C5_panel_prompt :
  (forall env i members question outputs st,
      let prompt := panel_prompt env question outputs in
      exists es,
        _query_panel env i members question outputs st
        = (Next (join SECTION_SEPARATOR
                   (map_from 0
                      (fun j member =>
                         member_section member (panelist_chat env i j member prompt))
                      members)),
           add_events st es)
        /\ (forall member, In member members -> In (query_announce env member) es))
  /\ (forall env i members question outputs st panelists,
         (forall j member,
             panelists i j member (panel_prompt env question outputs)
             = panelist_chat env i j member (panel_prompt env question outputs)) ->
         _query_panel (with_panelists env panelists) i members question outputs st
         = _query_panel env i members question outputs st)
  /\ (forall env self verbose thinking write_convo i st response d,
         chat env self thinking i st = Replied response ->
         json_loads env (message_content response) = Decoded (JObject d) ->
         dict_lookup "tool" d = Some (JString "llama_panel") ->
         let question := dict_get d "question" (JString "") in
         let prompt := panel_prompt env question (tool_outputs st) in
         let out :=
           echo_call env "llama_panel" question (dict_get d "reason" JNull)
           ++ join SECTION_SEPARATOR
                (map_from 0
                   (fun j member =>
                      member_section member (panelist_chat env i j member prompt))
                   (panel self)) in
         exists es,
           reasoning_step env self verbose thinking write_convo i st
           = (Next tt, grow st [assistant_turn response; tool_turn out] [out] 1 es))
  /\ (forall env Q, panel_prompt env (JString Q) [] = JString Q)
  /\ (forall env Q outputs,
         outputs <> [] ->
         Forall (fun out => nonempty out = true) outputs ->
         panel_prompt env (JString Q) outputs
         = JString (Q ++ CONTEXT_HEADER ++ join (LF ++ LF) outputs))
  /\ (forall env Q outputs,
         exists rest,
           panel_prompt env (JString Q) outputs = JString (Q ++ rest)
           /\ (rest = "" \/ rest = CONTEXT_HEADER ++ join (LF ++ LF) outputs))
  /\ (forall env self verbose thinking write_convo n user_prompt,
         Forall (fun out => nonempty out = true)
           (tool_outputs (snd (reasoning_loop env self verbose thinking write_convo n 0
                                 (start env user_prompt)))))
  /\ (forall env,
         let prompt := "Q" ++ CONTEXT_HEADER ++ "A" ++ LF ++ LF ++ "B" in
         panel_prompt env (JString "Q") ["A"; "B"] = JString prompt
         /\ occurrences "Q" prompt = 1
         /\ occurrences "A" prompt = 1
         /\ occurrences "B" prompt = 1
         /\ find "Q" prompt = Some 0
         /\ find "A" prompt = Some 39
         /\ find "B" prompt = Some 42).
Proof.
  split; [|split; [|split; [|split; [|split; [|split; [|split]]]]]].
  - intros env i members question outputs st prompt. subst prompt.
    rewrite <- panel_sections_members. unfold _query_panel.
    exists (Print stderr (LF ++ "> Consulting the panel with the question: '"
                          ++ py_str env question ++ "'")
            :: map (fun call => query_announce env (fst call))
                 (tasks env members question outputs)
               ++ concat (map fst (gather env i 0 (tasks env members question outputs)))
               ++ [Print stderr "> Panel consultation complete."]).
    split.
    + unfold bind, cprint, emit, ret.
      rewrite !emit_all_run, !add_events_app. reflexivity.
    + intros member Hin. right. apply in_or_app. left.
      apply announced. exact Hin.
  - intros env i members question outputs st panelists Hsame.
    assert (Hgather : gather (with_panelists env panelists) i 0
                        (tasks env members question outputs)
                      = gather env i 0 (tasks env members question outputs))
      by (apply gather_with_panelists; exact Hsame).
    unfold _query_panel.
    change (tasks (with_panelists env panelists) members question outputs)
      with (tasks env members question outputs).
    rewrite Hgather. reflexivity.
  - intros env self verbose thinking write_convo i st response d Hchat Hjson Hlookup
      question prompt out.
    destruct (step_panel env self verbose thinking write_convo i st response d
                Hchat Hjson (dict_get_lookup d "tool" JNull _ Hlookup)) as (es & Hrun & _).
    cbv zeta in Hrun. rewrite panel_sections_members in Hrun.
    exists es. exact Hrun.
  - reflexivity.
  - intros env Q outputs Hsome Hall. unfold panel_prompt.
    rewrite (join_nonempty (LF ++ LF) outputs Hsome Hall). reflexivity.
  - intros env Q outputs. unfold panel_prompt.
    destruct (nonempty (join (LF ++ LF) outputs)).
    + eexists. split; [reflexivity|]. right. reflexivity.
    + exists "". split; [|left; reflexivity]. simpl py_str.
      rewrite append_nil_r. reflexivity.
  - intros env self verbose thinking write_convo n user_prompt.
    apply loop_outputs_nonempty. constructor.
  - intros env. vm_compute. repeat split.
Qed.

Lemma C5_panel_prompt_witness :
  panel_prompt asks_panel (JString "Q") ["A"; "B"]
  = JString ("Q" ++ CONTEXT_HEADER ++ join (LF ++ LF) ["A"; "B"]).
Proof.
  apply (proj1 (proj2 (proj2 (proj2 (proj2 C5_panel_prompt)))) asks_panel "Q" ["A"; "B"]).
  - discriminate.
  - repeat constructor.
Defined.

(** * Further properties *)

Lemma rsplit_colon_none (s : string) :
  rsplit_colon s = None <-> ~ In ":"%char (chars s).
Proof.
  induction s as [|c s IH]; simpl.
  - split; [intros _ []|reflexivity].
  - destruct (rsplit_colon s) as [[before after]|].
    + split; [discriminate|]. intros Hno. exfalso.
      assert (Hs : ~ In ":"%char (chars s)) by (intros Hin; apply Hno; right; exact Hin).
      apply IH in Hs. discriminate.
    + destruct (Ascii.eqb_spec c ":") as [->|Hc].
      * split; [discriminate|]. intros Hno. exfalso. apply Hno. left. reflexivity.
      * split; [|reflexivity]. intros _ [Heq|Hin]; [congruence|].
        apply (proj1 IH eq_refl). exact Hin.
Qed.

Lemma rsplit_colon_app (name temp : string) :
  ~ In ":"%char (chars temp) ->
  rsplit_colon (name ++ ":" ++ temp) = Some (name, temp).
Proof.
  intros Hno. change (":" ++ temp) with (String ":" temp).
  induction name as [|c name IH]; simpl.
  - rewrite (proj2 (rsplit_colon_none temp) Hno). reflexivity.
  - rewrite IH. reflexivity.
Qed.

Lemma rsplit_colon_some (value name temp : string) :
  rsplit_colon value = Some (name, temp) ->
  value = name ++ ":" ++ temp /\ ~ In ":"%char (chars temp).
Proof.
  revert name. induction value as [|c value IH]; intros name; simpl; [discriminate|].
  destruct (rsplit_colon value) as [[before after]|] eqn:Hrest.
  - intros [= <- <-]. destruct (IH before eq_refl) as [-> Hno]. auto.
  - destruct (Ascii.eqb_spec c ":") as [->|Hc]; [|discriminate].
    intros [= <- <-]. split; [reflexivity|]. apply rsplit_colon_none. exact Hrest.
Qed.

Lemma digit_not_colon (c : ascii) : Decoder.is_digit c = true -> c <> ":"%char.
Proof. intros Hd ->. discriminate. Qed.

Lemma all_digits_chars (s : string) :
  all_digits s = true <-> Forall (fun c => Decoder.is_digit c = true) (chars s).
Proof.
  induction s as [|c s IH]; simpl.
  - split; [constructor | reflexivity].
  - rewrite andb_true_iff, IH. split.
    + intros [Hc Hs]. constructor; assumption.
    + intros H. inversion H; subst. auto.
Qed.

(** what a text is made of when it is digits once its first dot is taken
    away *)
Lemma drop_first_dot_digits (s : string) :
  all_digits (drop_first_dot s) = true ->
  Forall (fun c => Decoder.is_digit c = true \/ c = "."%char) (chars s)
  /\ count_occ ascii_dec (chars s) "."%char <= 1.
Proof.
  induction s as [|c s IH]; simpl.
  - intros _. split; [constructor | lia].
  - destruct (Ascii.eqb_spec c ".") as [->|Hc].
    + intros Hs. apply all_digits_chars in Hs. split.
      * constructor; [right; reflexivity|].
        eapply Forall_impl; [|exact Hs]. intros a Ha. left. exact Ha.
      * destruct (ascii_dec "." "."); [|congruence].
        assert (Hzero : count_occ ascii_dec (chars s) "."%char = 0).
        { apply count_occ_not_In. intros Hin.
          rewrite Forall_forall in Hs. specialize (Hs _ Hin). discriminate. }
        lia.
    + simpl. rewrite andb_true_iff. intros [Hd Hs].
      destruct (IH Hs) as [Hall Hcount]. split.
      * constructor; [left; exact Hd | exact Hall].
      * destruct (ascii_dec c "."); [congruence | exact Hcount].
Qed.

Lemma temperature_no_colon (temp : string) :
  isdigit (drop_first_dot temp) = true -> ~ In ":"%char (chars temp).
Proof.
  unfold isdigit. rewrite andb_true_iff. intros [_ Hd].
  destruct (drop_first_dot_digits temp Hd) as [Hall _].
  rewrite Forall_forall in Hall. intros Hin.
  destruct (Hall _ Hin) as [Hdigit | Hdot]; discriminate.
Qed.

Lemma drop_first_dot_has_digit (s : string) :
  isdigit (drop_first_dot s) = true ->
  exists c, In c (chars s) /\ Decoder.is_digit c = true.
Proof.
  unfold isdigit. rewrite andb_true_iff. intros [Hne Hd].
  induction s as [|c s IH]; simpl in *; [discriminate|].
  destruct (Ascii.eqb_spec c ".") as [->|Hc].
  - destruct s as [|d s]; [discriminate|]. simpl in Hd.
    apply andb_true_iff in Hd. exists d. simpl. tauto.
  - simpl in Hd. apply andb_true_iff in Hd. exists c. tauto.
Qed.

(** X1: [parse_model_temp] splits at the last colon, so that a model name
    may hold colons: a value made of a name, a colon and a text without
    colon is accepted, as that name and that temperature, exactly when the
    text is digits with at most one dot taken away; a value without any
    colon is refused. *)
Theorem X1_parse_model_temp_last_colon :
  (forall name temp,
      ~ In ":"%char (chars temp) ->
      parse_model_temp (name ++ ":" ++ temp)
      = if isdigit (drop_first_dot temp) then inl (name, temp)
        else inr (invalid_format (name ++ ":" ++ temp)))
  /\ (forall name temp,
         isdigit (drop_first_dot temp) = true ->
         parse_model_temp (name ++ ":" ++ temp) = inl (name, temp))
  /\ (forall value,
         ~ In ":"%char (chars value) ->
         parse_model_temp value = inr (invalid_format value)).
Proof.
  split; [|split].
  - intros name temp Hno. unfold parse_model_temp.
    rewrite (rsplit_colon_app name temp Hno). reflexivity.
  - intros name temp Hvalid. unfold parse_model_temp.
    rewrite (rsplit_colon_app name temp (temperature_no_colon temp Hvalid)), Hvalid.
    reflexivity.
  - intros value Hno. unfold parse_model_temp.
    rewrite (proj2 (rsplit_colon_none value) Hno). reflexivity.
Qed.

Lemma X1_parse_model_temp_last_colon_witness :
  parse_model_temp ("gemma3:4b" ++ ":" ++ "0.5") = inl ("gemma3:4b", "0.5").
Proof.
  apply (proj1 (proj2 X1_parse_model_temp_last_colon) "gemma3:4b" "0.5").
  reflexivity.
Defined.

(** X2: what [parse_model_temp] accepts of the values that are ASCII text:
    the value is the name, a colon and the temperature; the temperature
    holds no colon, is made of the digits 0 to 9 and dots only, with one dot
    at most and one digit at least.  A sign, an exponent, a blank or an
    empty temperature is therefore refused. *)
Theorem X2_parse_model_temp_accepts :
  forall value name temp,
    is_ascii_text value = true ->
    parse_model_temp value = inl (name, temp) ->
    value = name ++ ":" ++ temp
    /\ Forall (fun c => Decoder.is_digit c = true \/ c = "."%char) (chars temp)
    /\ count_occ ascii_dec (chars temp) "."%char <= 1
    /\ exists c, In c (chars temp) /\ Decoder.is_digit c = true.
Proof.
  intros value name temp _. unfold parse_model_temp.
  destruct (rsplit_colon value) as [[name' temp']|] eqn:Hsplit; [|discriminate].
  destruct (isdigit (drop_first_dot temp')) eqn:Hvalid; [|discriminate].
  intros [= <- <-]. destruct (rsplit_colon_some _ _ _ Hsplit) as [-> _].
  split; [reflexivity|].
  pose proof Hvalid as Hd. unfold isdigit in Hd. apply andb_true_iff in Hd.
  destruct (drop_first_dot_digits temp' (proj2 Hd)) as [Hall Hcount].
  split; [exact Hall|]. split; [exact Hcount|].
  apply drop_first_dot_has_digit. exact Hvalid.
Qed.

Lemma X2_parse_model_temp_accepts_witness :
  "qwen3:4b:0.5" = "qwen3:4b" ++ ":" ++ "0.5"
  /\ Forall (fun c => Decoder.is_digit c = true \/ c = "."%char) (chars "0.5")
  /\ count_occ ascii_dec (chars "0.5") "."%char <= 1
  /\ exists c, In c (chars "0.5") /\ Decoder.is_digit c = true.
Proof.
  apply (X2_parse_model_temp_accepts "qwen3:4b:0.5" "qwen3:4b" "0.5").
  - reflexivity.
  - reflexivity.
Defined.

Lemma dumped_app (es es' : list Event) :
  dumped (es ++ es')%list = (dumped es ++ dumped es')%list.
Proof.
  induction es as [|[to text|fname doc|text] es IH]; simpl;
    [reflexivity | exact IH | | exact IH].
  rewrite IH. reflexivity.
Qed.

Lemma logs_quiet (es : list Event) :
  Forall is_log es -> printed stdout es = [] /\ dumped es = [].
Proof.
  induction 1 as [|[[] text|fname doc|text] es He _ [IHp IHd]]; simpl;
    try contradiction; auto.
Qed.

Lemma Logs_ret {A : Type} (a : A) : Logs (ret a).
Proof.
  intros st. exists a, []. split; [|constructor].
  unfold ret. rewrite add_events_nil. reflexivity.
Qed.

Lemma Logs_bind {A B : Type} (c : Run A) (k : A -> Run B) :
  Logs c -> (forall a, Logs (k a)) -> Logs (bind c k).
Proof.
  intros Hc Hk st.
  destruct (Hc st) as (a & es & Hrun & Hq).
  destruct (Hk a (add_events st es)) as (b & es' & Hrun' & Hq').
  exists b, (es ++ es')%list. split.
  - unfold bind. rewrite Hrun, Hrun', add_events_app. reflexivity.
  - apply Forall_app. auto.
Qed.

Lemma Logs_cprint (text : string) : Logs (cprint text).
Proof.
  intros st. exists tt, [Print stderr text]. split; [reflexivity|].
  constructor; [exact I | constructor].
Qed.

Lemma Logs_emit_all (es : list Event) : Forall is_log es -> Logs (emit_all es).
Proof. intros Hq st. exists tt, es. split; [apply emit_all_run | exact Hq]. Qed.

Create HintDb logs.
#[local] Hint Resolve Logs_ret Logs_cprint : logs.

Lemma Logs_read_webpage (env : Env) (i : nat) (url : json) :
  Logs (read_webpage env i url).
Proof.
  unfold read_webpage. apply Logs_bind; [auto with logs|]. intros _.
  destruct (http_get env i url); apply Logs_bind; auto with logs.
Qed.

Lemma Logs_search_web (env : Env) (i : nat) (query : json) :
  Logs (search_web env i query).
Proof.
  unfold search_web. apply Logs_bind; [auto with logs|]. intros _.
  destruct (google_search env i query) as [found|e].
  - destruct (filter _ found); [auto with logs|].
    apply Logs_bind; auto with logs.
  - apply Logs_bind; auto with logs.
Qed.

Lemma gather_logs (env : Env) (calls : list (PanelMember * json)) (i j : nat) :
  Forall is_log (concat (map fst (gather env i j calls))).
Proof.
  revert j. induction calls as [|[member prompt] calls IH]; intros j; simpl.
  - constructor.
  - apply Forall_app. split; [|apply IH].
    destruct (panelist_chat env i j member prompt) as [text|[]]; simpl;
      repeat constructor.
Qed.

Lemma Logs_query_panel (env : Env) (i : nat) (members : list PanelMember)
  (question : json) (outputs : list string) :
  Logs (_query_panel env i members question outputs).
Proof.
  unfold _query_panel. apply Logs_bind; [auto with logs|]. intros _.
  apply Logs_bind.
  { apply Logs_emit_all. induction (tasks env members question outputs); simpl;
      constructor; [exact I | assumption]. }
  intros _. apply Logs_bind; [apply Logs_emit_all, gather_logs|]. intros _.
  apply Logs_bind; auto with logs.
Qed.

Lemma strip_prefix_spec (p s r : string) : strip_prefix p s = Some r <-> s = p ++ r.
Proof.
  revert s. induction p as [|a p IH]; intros s; simpl.
  - split; [intros [= ->]; reflexivity | intros ->; reflexivity].
  - destruct s as [|b s]; [split; discriminate|].
    destruct (Ascii.eqb_spec a b) as [->|Hab].
    + rewrite IH. split; [intros ->; reflexivity | intros [= ->]; reflexivity].
    + split; [discriminate | intros [= -> _]; congruence].
Qed.

Lemma startswith_spec (p s : string) :
  startswith p s = true <-> exists post, s = p ++ post.
Proof.
  unfold startswith. destruct (strip_prefix p s) as [r|] eqn:Hstrip.
  - apply strip_prefix_spec in Hstrip. split; [eauto | reflexivity].
  - split; [discriminate|]. intros [post Hpost].
    apply strip_prefix_spec in Hpost. congruence.
Qed.

(** [needle in hay] holds exactly when the hay is some text, the needle,
    and some text *)
Lemma contains_spec (needle hay : string) :
  contains needle hay = true <-> exists pre post, hay = pre ++ needle ++ post.
Proof.
  induction hay as [|c hay IH]; simpl.
  - rewrite orb_false_r, startswith_spec. split.
    + intros [post Hpost]. exists "", post. exact Hpost.
    + intros (pre & post & Heq). destruct pre; [eauto | discriminate].
  - rewrite orb_true_iff, startswith_spec, IH. split.
    + intros [[post Hpost] | (pre & post & Hhay)].
      * exists "", post. exact Hpost.
      * exists (String c pre), post. simpl. rewrite Hhay. reflexivity.
    + intros (pre & post & Heq). destruct pre as [|a pre].
      * left. exists post. exact Heq.
      * right. simpl in Heq. injection Heq as _ Hhay. eauto.
Qed.

Lemma take_chars_length (n : nat) (s : string) :
  char_length (take_chars n s) = Nat.min n (char_length s).
Proof.
  revert n. induction s as [|c s IH]; intros n; simpl.
  - rewrite Nat.min_0_r. reflexivity.
  - destruct (is_continuation c) eqn:Hc; simpl.
    + rewrite Hc. apply IH.
    + destruct n as [|n]; simpl; [reflexivity|]. rewrite Hc, IH. reflexivity.
Qed.

(** the cut falls between two characters *)
Lemma take_chars_prefix (n : nat) (s : string) :
  exists rest,
    s = take_chars n s ++ rest
    /\ match rest with
       | EmptyString => True
       | String c _ => is_continuation c = false
       end.
Proof.
  revert n. induction s as [|c s IH]; intros n; simpl.
  - exists "". split; [reflexivity | exact I].
  - destruct (is_continuation c) eqn:Hc.
    + destruct (IH n) as (rest & Hrest & Hcut). exists rest.
      split; [simpl; rewrite <- Hrest; reflexivity | exact Hcut].
    + destruct n as [|n].
      * exists (String c s). split; [reflexivity | exact Hc].
      * destruct (IH n) as (rest & Hrest & Hcut). exists rest.
        split; [simpl; rewrite <- Hrest; reflexivity | exact Hcut].
Qed.

(** X3: [read_webpage] never raises and writes to [stderr] only.  For a
    page that was fetched it returns a header naming the URL, the first 4000
    characters of the cleaned text at most (a prefix of it, cut between two
    characters and counted in characters, not in bytes), and three dots,
    which are appended whether the text was cut or not; for a failure it
    returns the error message, the very text it logs. *)
Theorem X3_read_webpage_bounded :
  forall env i url st,
    exists out es,
      read_webpage env i url st = (Next out, add_events st es)
      /\ Forall is_log es
      /\ match http_get env i url with
         | Page clean_text =>
             exists body rest,
               out = "Content from " ++ py_str env url ++ ":" ++ LF ++ LF ++ body ++ "..."
               /\ clean_text = body ++ rest
               /\ char_length body = Nat.min 4000 (char_length clean_text)
               /\ match rest with
                  | EmptyString => True
                  | String c _ => is_continuation c = false
                  end
         | RequestError request_url msg =>
             out = "Error fetching URL " ++ request_url ++ ": " ++ msg
             /\ last es (Print stdout "") = Print stderr ("> " ++ out)
         | FetchException msg =>
             out = "An unexpected error occurred while processing "
                   ++ py_str env url ++ ": " ++ msg
             /\ last es (Print stdout "") = Print stderr ("> " ++ out)
         end.
Proof.
  intros env i url st. unfold read_webpage, bind, cprint, emit, ret.
  destruct (http_get env i url) as [clean_text | request_url msg | msg].
  - rewrite add_events_app. eexists _, _. split; [reflexivity|].
    split; [repeat constructor|].
    destruct (take_chars_prefix 4000 clean_text) as (rest & Hrest & Hcut).
    exists (take_chars 4000 clean_text), rest.
    split; [reflexivity|]. split; [exact Hrest|].
    split; [apply take_chars_length | exact Hcut].
  - rewrite add_events_app. eexists _, _. split; [reflexivity|].
    split; [repeat constructor|]. split; reflexivity.
  - rewrite add_events_app. eexists _, _. split; [reflexivity|].
    split; [repeat constructor|]. split; reflexivity.
Qed.

(** X4: [search_web] never raises and writes to [stderr] only.  When the
    search itself fails it returns a fixed error text.  Otherwise the hits
    it lists are those whose URL does not hold [substack.com], in the order
    the engine gave them, every other hit being left out; with no hit left
    it returns [No results found.]. *)
Theorem X4_search_web_filters :
  forall env i query st,
    exists out es,
      search_web env i query st = (Next out, add_events st es)
      /\ Forall is_log es
      /\ match google_search env i query with
         | Failed _ => out = "An error occurred during the Google search."
         | Replied found =>
             exists kept,
               Forall (fun hit => ~ from_substack hit) kept
               /\ (forall hit, In hit found -> from_substack hit \/ In hit kept)
               /\ (forall hit, In hit kept -> In hit found)
               /\ kept = filter (fun hit => negb (contains "substack.com" (url hit))) found
               /\ out = match kept with
                        | [] => "No results found."
                        | _ :: _ =>
                            "Google Search Results for '" ++ py_str env query ++ "':"
                            ++ LF ++ LF ++ join LF (map shown kept)
                        end
         end.
Proof.
  intros env i query st. unfold search_web, bind, cprint, emit, ret.
  destruct (google_search env i query) as [found|e].
  - set (kept := filter (fun hit => negb (contains "substack.com" (url hit))) found).
    assert (Hkept : Forall (fun hit => ~ from_substack hit) kept
                    /\ (forall hit, In hit found -> from_substack hit \/ In hit kept)
                    /\ (forall hit, In hit kept -> In hit found)).
    { split; [|split].
      - apply Forall_forall. intros hit Hin. apply filter_In in Hin.
        destruct Hin as [_ Hno]. apply negb_true_iff in Hno.
        intros Hsub. apply contains_spec in Hsub. congruence.
      - intros hit Hin.
        destruct (contains "substack.com" (url hit)) eqn:Hc.
        + left. apply contains_spec. exact Hc.
        + right. apply filter_In. split; [exact Hin|]. rewrite Hc. reflexivity.
      - intros hit Hin. apply filter_In in Hin. tauto. }
    destruct Hkept as (Hnone & Hall & Hsub).
    destruct kept as [|hit kept'] eqn:Hk.
    + eexists _, _. split; [reflexivity|]. split; [repeat constructor|].
      exists []. repeat split; auto.
    + rewrite add_events_app. eexists _, _. split; [reflexivity|].
      split; [repeat constructor|].
      exists (hit :: kept'). repeat split; auto.
  - rewrite add_events_app. eexists _, _. split; [reflexivity|].
    split; [repeat constructor|]. reflexivity.
Qed.

Lemma text_tool_name (d : list (string * json)) (name : string) :
  dict_lookup "tool" d = Some (JString name) ->
  In name TEXT_TOOLS ->
  text_tool d = true.
Proof.
  intros Hlookup Hin. unfold text_tool.
  rewrite (dict_get_lookup d "tool" JNull _ Hlookup).
  destruct Hin as [<- | [<- | [<- | []]]]; reflexivity.
Qed.

(** X5: whatever the adapters and the panelists do, an iteration in which
    the expert asks for the panel, a search, or a page goes on to the next:
    the raw reply and one tool output, never empty, are appended to the
    history in that order, the same output is appended to [tool_outputs],
    the step count grows by one, and nothing is printed to [stdout] but the
    thinking block. *)
Theorem X5_tool_output_always_recorded :
  forall env self verbose thinking write_convo i st response d name,
    chat env self thinking i st = Replied response ->
    json_loads env (message_content response) = Decoded (JObject d) ->
    dict_lookup "tool" d = Some (JString name) ->
    In name TEXT_TOOLS ->
    exists es out,
      reasoning_step env self verbose thinking write_convo i st
      = (Next tt, grow st [assistant_turn response; tool_turn out] [out] 1 es)
      /\ nonempty out = true
      /\ printed stdout es = thinking_output verbose response.
Proof.
  intros env self verbose thinking write_convo i st response d name
    Hchat Hjson Hlookup Hin.
  apply (step_text_tool env self verbose thinking write_convo i st response d Hchat Hjson).
  apply (text_tool_name d name Hlookup Hin).
Qed.


Lemma X5_tool_output_always_recorded_witness :
  exists es out,
    reasoning_step fetch_fails (demo_system 3) false false false 0
      (start fetch_fails "What is the answer?")
    = (Next tt,
       grow (start fetch_fails "What is the answer?")
         [assistant_turn
            (spoken (tool_reply [("tool", "read_webpage"); ("url", "http://x")]) None);
          tool_turn out] [out] 1 es)
    /\ nonempty out = true
    /\ printed stdout es
       = thinking_output false
           (spoken (tool_reply [("tool", "read_webpage"); ("url", "http://x")]) None).
Proof.
  apply (X5_tool_output_always_recorded fetch_fails (demo_system 3) false false false 0
           (start fetch_fails "What is the answer?") _
           [("tool", JString "read_webpage"); ("url", JString "http://x")] "read_webpage").
  - reflexivity.
  - vm_compute. reflexivity.
  - reflexivity.
  - simpl. auto.
Defined.

Lemma dumped_prints (texts : list string) (to : Stream) :
  dumped (map (Print to) texts) = [].
Proof. induction texts as [|t texts IH]; simpl; [|rewrite IH]; reflexivity. Qed.

Lemma tool_narration_logs (env : Env) (d : list (string * json)) :
  Forall is_log (tool_narration env d).
Proof. unfold tool_narration. destruct (truthy env _); repeat constructor. Qed.

Lemma main_single_events (world : nat -> Env) (args : Args) (inputs : list string)
  (q : string) :
  question args = Some q ->
  nonempty q = true ->
  fst (main world args inputs)
  = (fst (ExpertSystem_init (world 0) (expert args) (panel_configs args) (max_steps args))
     ++ events (snd (ask world args (built_system world args) 0 q))
     ++ match fst (ask world args (built_system world args) 0 q) with
        | Raised e => fst (handle e)
        | _ => []
        end)%list.
Proof.
  intros Hq Hne. unfold main, built_system.
  destruct (ExpertSystem_init _ _ _ _) as [init system]. simpl fst. simpl snd.
  rewrite Hq, Hne.
  destruct (ask world args system 0 q) as [o st]. simpl fst. simpl snd.
  destruct o as [answer | r | name r | | e]; try (rewrite app_nil_r; reflexivity).
  unfold handle. destruct e; reflexivity.
Qed.

(** X6: when the call to the expert raises, the loop stops in that
    iteration with that exception: the banner of the step is all that was
    written, and the history is unchanged.  In [main], a [ResponseError] of
    the first call is reported on [stderr] as a fatal error with its [error]
    text, nothing is printed to [stdout], and the status is 1. *)
Theorem X6_expert_failure :
  (forall env self verbose thinking write_convo n i st e,
      chat env self thinking i st = Failed e ->
      reasoning_loop env self verbose thinking write_convo (S n) i st
      = (Stop (Raised e), grow st [] [] 1 [step_banner self i]))
  /\ (forall world args inputs q error,
         question args = Some q ->
         nonempty q = true ->
         (0 < max_steps args)%Z ->
         chat (world 0) (built_system world args) (arg_thinking args) 0
           (start (world 0) q) = Failed (ResponseError error) ->
         snd (main world args inputs) = 1%Z
         /\ printed stdout (fst (main world args inputs)) = []
         /\ last (fst (main world args inputs)) (Print stdout "")
            = Print stderr (LF ++ "Fatal Error: " ++ error)).
Proof.
  split.
  - intros env self verbose thinking write_convo n i st e Hchat.
    apply loop_stops. apply reasoning_step_raise. exact Hchat.
  - intros world args inputs q error Hq Hne Hmax Hchat.
    assert (Hask : ask world args (built_system world args) 0 q
                   = (Raised (ResponseError error),
                      grow (start (world 0) q) [] [] 1
                        [step_banner (built_system world args) 0])).
    { unfold ask. apply session_stops_at_once; [exact Hmax|].
      intros n. apply loop_stops. apply reasoning_step_raise. exact Hchat. }
    rewrite (main_single world args inputs q Hq Hne).
    rewrite (main_single_events world args inputs q Hq Hne), Hask.
    split; [reflexivity|]. split.
    + rewrite !printed_app. reflexivity.
    + simpl fst. simpl snd. simpl events. unfold handle. simpl fst.
      rewrite !app_assoc. apply last_last.
Qed.


Lemma X6_expert_failure_witness :
  snd (main (fun _ => expert_is_down) demo_args []) = 1%Z
  /\ printed stdout (fst (main (fun _ => expert_is_down) demo_args [])) = []
  /\ last (fst (main (fun _ => expert_is_down) demo_args [])) (Print stdout "")
     = Print stderr (LF ++ "Fatal Error: " ++ "model 'mistral-small3.2' not found").
Proof.
  apply (proj2 X6_expert_failure (fun _ => expert_is_down) demo_args []
           "What is the answer?").
  - reflexivity.
  - reflexivity.
  - reflexivity.
  - reflexivity.
Defined.



(** X8: with no step allowed (zero, or a negative number), the expert is
    never called: the session is the two seeded turns, the notice on
    [stderr], and the exhaustion notice on [stdout]. *)
Theorem X8_no_step_allowed :
  forall env self verbose thinking write_convo user_prompt,
    (max_reasoning_steps self <= 0)%Z ->
    get_consensus_answer env self verbose thinking write_convo user_prompt
    = (StepsExhausted,
       add_events (start env user_prompt)
         [Print stderr (LF ++ "--- Max Reasoning Steps Reached ---");
          Print stdout EXHAUSTION_NOTICE]).
Proof.
  intros env self verbose thinking write_convo user_prompt Hmax.
  apply consensus_exhausted.
  replace (Z.to_nat (max_reasoning_steps self)) with 0 by lia. reflexivity.
Qed.

Lemma X8_no_step_allowed_witness :
  get_consensus_answer search_forever (demo_system (-1)) false false false
    "What is the answer?"
  = (StepsExhausted,
     add_events (start search_forever "What is the answer?")
       [Print stderr (LF ++ "--- Max Reasoning Steps Reached ---");
        Print stdout EXHAUSTION_NOTICE]).
Proof.
  apply (X8_no_step_allowed search_forever (demo_system (-1)) false false false).
  simpl. lia.
Defined.

Lemma dumped_before_route (env : Env) (self : ExpertSystem) (verbose : bool) (i : nat)
  (response : Response) (narration es : list Event) :
  Forall is_log narration ->
  dumped (step_banner self i
          :: map (Print stdout) (thinking_output verbose response) ++ narration ++ es)
  = dumped es.
Proof.
  intros Hlog. unfold step_banner. simpl.
  rewrite !dumped_app, dumped_prints, (proj2 (logs_quiet _ Hlog)). reflexivity.
Qed.

Section Trace.

Variable env : Env.
Variable self : ExpertSystem.
Variables (verbose thinking write_convo : bool).

Lemma route_text_tool_logs (i : nat) (response : Response) (d : list (string * json))
  (st : Session) :
  text_tool d = true ->
  exists es out,
    route env self write_convo i response d st
    = (Next tt, grow st [tool_turn out] [out] 0 es)
    /\ nonempty out = true /\ Forall is_log es.
Proof.
  unfold text_tool. intros Htool. unfold route.
  destruct (is_str (dict_get d "tool" JNull) "llama_panel").
  { unfold bind at 1, read at 1.
    destruct (Logs_query_panel env i (panel self) (dict_get d "question" (JString ""))
                (tool_outputs st) st) as (output & es & Hrun & Hlog).
    eexists es, _. split; [apply tool_branch_run; exact Hrun|].
    split; [apply echo_call_nonempty | exact Hlog]. }
  destruct (is_str (dict_get d "tool" JNull) "search_web").
  { destruct (Logs_search_web env i (dict_get d "query" (JString "")) st)
      as (output & es & Hrun & Hlog).
    eexists es, _. split; [apply tool_branch_run; exact Hrun|].
    split; [apply echo_call_nonempty | exact Hlog]. }
  destruct (is_str (dict_get d "tool" JNull) "read_webpage"); [|discriminate].
  destruct (Logs_read_webpage env i (dict_get d "url" (JString "")) st)
    as (output & es & Hrun & Hlog).
  eexists es, _. split; [apply tool_branch_run; exact Hrun|].
  split; [apply echo_call_nonempty | exact Hlog].
Qed.

Lemma route_final_dumped (i : nat) (response : Response) (d : list (string * json))
  (st : Session) :
  dict_get d "tool" JNull = JString "final_answer" ->
  exists o es,
    route env self write_convo i response d st = (Stop o, add_events st es)
    /\ ((o = Concluded (dict_get d "answer" (JString "No answer provided."))
         /\ dumped es
            = if write_convo then [(transcript_name env, conversation_history st)] else [])
        \/ (exists e, o = Raised e /\ dumped es = [])).
Proof.
  intros Hname. rewrite (route_final env self write_convo i response d st Hname).
  eexists _, _. split; [reflexivity|].
  unfold final_outcome, final_events, transcript_error, transcript_name.
  destruct (answer_error env _) as [e|].
  { right. exists e. split; reflexivity. }
  destruct write_convo.
  - destruct (write_file env _ (conversation_history st)) as [e|].
    + right. exists e. split; reflexivity.
    + left. split; reflexivity.
  - left. split; reflexivity.
Qed.

Lemma reasoning_step_trace (i : nat) (st : Session) :
  StepTrace env write_convo st (reasoning_step env self verbose thinking write_convo i st).
Proof.
  unfold StepTrace.
  destruct (chat env self thinking i st) as [response|e] eqn:Hchat.
  2:{ rewrite (reasoning_step_raise env self verbose thinking write_convo i st e Hchat).
      exists [step_banner self i], []. cbn [fst snd].
      split; [reflexivity|]. split; [reflexivity|]. left. reflexivity. }
  rewrite (reasoning_step_run env self verbose thinking write_convo i st response Hchat).
  set (st0 := before_try self verbose i response st).
  assert (Hraise : forall e0,
             exists es added,
               snd (finish (A:=unit) (Raised e0) st0)
               = grow st added (tool_contents added) 1 es
               /\ dumped es = []
               /\ (added = [] \/ exists response0, added = [assistant_turn response0])).
  { intros e0. eexists _, [assistant_turn response]. split; [|split].
    - unfold finish. cbn [fst snd]. subst st0.
      rewrite <- (add_events_nil (before_try _ _ _ _ _)).
      rewrite grow_events, before_try_grow. reflexivity.
    - rewrite app_nil_r. unfold step_banner. simpl. apply dumped_prints.
    - right. exists response. reflexivity. }
  destruct (json_loads env (message_content response)) as [tool_call| |e0];
    [| |apply Hraise].
  - destruct tool_call as [| b | n | x | s | l | d];
      try apply (Hraise (AttributeError _)).
    clear Hraise. rewrite dispatch_object.
    set (st1 := add_events st0 (tool_narration env d)).
    pose proof (routed_grow env self verbose i response d st) as Hst1. fold st0 st1 in Hst1.
    pose proof (fun es => dumped_before_route env self verbose i response
                            (tool_narration env d) es (tool_narration_logs env d)) as Hd1.
    destruct (text_tool d) eqn:Htool.
    + destruct (route_text_tool_logs i response d st1 Htool) as (es & out & -> & Hne & Hlog).
      eexists _, [assistant_turn response; tool_turn out]. cbn [fst snd].
      split; [apply Hst1|]. split.
      * rewrite Hd1. apply (proj2 (logs_quiet es Hlog)).
      * exists response, out. auto.
    + destruct (is_str (dict_get d "tool" JNull) "final_answer") eqn:Hfinal.
      * destruct (route_final_dumped i response d st1 (is_str_true _ _ Hfinal))
          as (o & es & -> & Ho).
        eexists _, [assistant_turn response]. cbn [fst snd].
        split; [rewrite grow_events; apply Hst1|]. rewrite Hd1.
        destruct Ho as [[-> Hdump] | (e & -> & Hdump)].
        -- split; [|exists response; reflexivity]. rewrite Hdump.
           destruct write_convo; [|reflexivity]. subst st1 st0. reflexivity.
        -- split; [exact Hdump|]. right. exists response. reflexivity.
      * rewrite (route_unknown env self write_convo i response d st1 Htool Hfinal).
        eexists _, [assistant_turn response]. cbn [fst snd].
        split; [rewrite grow_events; apply Hst1|]. rewrite Hd1.
        split; [reflexivity|]. exists response. reflexivity.
  - unfold fallback, bind, cprint, print, emit, finish. rewrite add_events_app.
    eexists _, [assistant_turn response]. cbn [fst snd]. split; [|split].
    + subst st0. rewrite grow_events, before_try_grow. reflexivity.
    + unfold step_banner. simpl. rewrite dumped_app, dumped_prints. reflexivity.
    + exists response. reflexivity.
Qed.

End Trace.

Lemma tool_contents_app (h h' : list Turn) :
  tool_contents (h ++ h') = (tool_contents h ++ tool_contents h')%list.
Proof. unfold tool_contents. rewrite filter_app, map_app. reflexivity. Qed.

Lemma tool_rounds_succ (m : nat) :
  ([assistant; tool] ++ tool_rounds m)%list = tool_rounds (S m).
Proof. reflexivity. Qed.

Section LoopTrace.

Variable env : Env.
Variable self : ExpertSystem.
Variables (verbose thinking write_convo : bool).

(** the loop keeps [tool_outputs] equal to the contents of the tool turns *)
Lemma loop_outputs_mirror (n i : nat) (st : Session) :
  tool_outputs st = tool_contents (conversation_history st) ->
  tool_outputs (snd (reasoning_loop env self verbose thinking write_convo n i st))
  = tool_contents
      (conversation_history
         (snd (reasoning_loop env self verbose thinking write_convo n i st))).
Proof.
  revert i st. induction n as [|n IH]; intros i st Hst; [exact Hst|].
  simpl. unfold bind.
  destruct (reasoning_step_trace env self verbose thinking write_convo i st)
    as (es & added & Hsnd & _ & _).
  destruct (reasoning_step env self verbose thinking write_convo i st) as [[[]|o] st1];
    simpl in Hsnd; subst st1.
  - apply IH. simpl. rewrite tool_contents_app, Hst. reflexivity.
  - simpl. rewrite tool_contents_app, Hst. reflexivity.
Qed.


(** the roles of the history a run of the loop leaves, and its step count *)
Lemma loop_roles (n i : nat) (st : Session) :
  let r := reasoning_loop env self verbose thinking write_convo n i st in
  exists m,
    match fst r with
    | Next _ =>
        m = n
        /\ map role (conversation_history (snd r))
           = (map role (conversation_history st) ++ tool_rounds m)%list
        /\ step_index (snd r) = m + step_index st
    | Stop StepsExhausted => False
    | Stop (Raised _) =>
        m < n
        /\ (map role (conversation_history (snd r))
            = (map role (conversation_history st) ++ tool_rounds m)%list
            \/ map role (conversation_history (snd r))
               = (map role (conversation_history st) ++ tool_rounds m ++ [assistant])%list)
        /\ step_index (snd r) = S m + step_index st
    | Stop _ =>
        m < n
        /\ map role (conversation_history (snd r))
           = (map role (conversation_history st) ++ tool_rounds m ++ [assistant])%list
        /\ step_index (snd r) = S m + step_index st
    end.
Proof.
  revert i st. induction n as [|n IH]; intros i st; simpl.
  - exists 0. simpl. rewrite app_nil_r. auto.
  - unfold bind.
    destruct (reasoning_step_trace env self verbose thinking write_convo i st)
      as (es & added & Hsnd & _ & Hcase).
    destruct (reasoning_step env self verbose thinking write_convo i st) as [[[]|o] st1];
      simpl in Hsnd, Hcase; subst st1.
    + destruct Hcase as (response & out & -> & _).
      destruct (IH (S i) (grow st [assistant_turn response; tool_turn out]
                            (tool_contents [assistant_turn response; tool_turn out]) 1 es))
        as (m & Hm).
      exists (S m).
      destruct (fst (reasoning_loop env self verbose thinking write_convo n (S i) _))
        as [[]|[answer | r | name r | | e]]; simpl in Hm |- *.
      * destruct Hm as (-> & Hroles & Hidx). rewrite Hroles, Hidx, map_app.
        simpl. rewrite <- app_assoc. repeat split. lia.
      * destruct Hm as (Hlt & Hroles & Hidx). rewrite Hroles, Hidx, map_app.
        simpl. rewrite <- app_assoc. repeat split; lia.
      * destruct Hm as (Hlt & Hroles & Hidx). rewrite Hroles, Hidx, map_app.
        simpl. rewrite <- app_assoc. repeat split; lia.
      * destruct Hm as (Hlt & Hroles & Hidx). rewrite Hroles, Hidx, map_app.
        simpl. rewrite <- app_assoc. repeat split; lia.
      * exact Hm.
      * destruct Hm as (Hlt & Hroles & Hidx). rewrite Hidx.
        split; [lia|]. split; [|simpl; lia].
        destruct Hroles as [-> | ->]; [left | right];
          rewrite map_app; simpl; rewrite <- app_assoc; reflexivity.
    + exists 0. simpl.
      destruct o as [answer | r | name r | | e]; simpl in Hcase |- *.
      1-3: destruct Hcase as (response & ->); rewrite map_app; simpl;
           repeat split; lia.
      * exact Hcase.
      * split; [lia|]. split; [|reflexivity].
        destruct Hcase as [-> | (response & ->)]; [left | right].
        -- rewrite !app_nil_r. reflexivity.
        -- rewrite map_app. reflexivity.
Qed.

End LoopTrace.


(** X10: the history of a session is the system turn, the user turn, then
    one assistant turn and one tool turn for each iteration that ran a tool,
    and last, unless the steps were exhausted, the assistant turn of the
    reply that ended the session (absent too when the call to the expert
    raised).  The steps are exhausted only after exactly
    [max_reasoning_steps] such iterations; otherwise the step count is one
    more than their number. *)
Theorem X10_history_alternates :
  forall env self verbose thinking write_convo user_prompt,
    let (o, st) := get_consensus_answer env self verbose thinking write_convo user_prompt in
    exists m,
      match o with
      | StepsExhausted =>
          m = Z.to_nat (max_reasoning_steps self)
          /\ map role (conversation_history st) = ([system; user] ++ tool_rounds m)%list
          /\ step_index st = m
      | Raised _ =>
          m < Z.to_nat (max_reasoning_steps self)
          /\ (map role (conversation_history st) = ([system; user] ++ tool_rounds m)%list
              \/ map role (conversation_history st)
                 = ([system; user] ++ tool_rounds m ++ [assistant])%list)
          /\ step_index st = S m
      | _ =>
          m < Z.to_nat (max_reasoning_steps self)
          /\ map role (conversation_history st)
             = ([system; user] ++ tool_rounds m ++ [assistant])%list
          /\ step_index st = S m
      end.
Proof.
  intros env self verbose thinking write_convo user_prompt.
  destruct (loop_roles env self verbose thinking write_convo
              (Z.to_nat (max_reasoning_steps self)) 0 (start env user_prompt)) as (m & Hm).
  destruct (consensus_cases env self verbose thinking write_convo user_prompt)
    as [(o & Ho & ->) | (Hnext & ->)]; exists m.
  - rewrite Ho in Hm. simpl in Hm.
    destruct o as [answer | r | name r | | e]; try contradiction;
      destruct Hm as (Hlt & Hroles & Hidx); rewrite Hidx, Nat.add_0_r; auto.
  - rewrite Hnext in Hm. destruct Hm as (-> & Hroles & Hidx).
    simpl. rewrite Hroles, Hidx. simpl. auto.
Qed.

(** X11: at every point of a session, [tool_outputs] is the contents of the
    tool turns of the history, in order: what is replayed to the expert as
    tool results is what the panel is given as context. *)
Theorem X11_outputs_mirror_history :
  (forall env self verbose thinking write_convo n user_prompt,
      let st := snd (reasoning_loop env self verbose thinking write_convo n 0
                       (start env user_prompt)) in
      tool_outputs st = tool_contents (conversation_history st))
  /\ (forall env self verbose thinking write_convo user_prompt,
         let st := snd (get_consensus_answer env self verbose thinking write_convo
                          user_prompt) in
         tool_outputs st = tool_contents (conversation_history st)).
Proof.
  split.
  - intros env self verbose thinking write_convo n user_prompt.
    apply loop_outputs_mirror. reflexivity.
  - intros env self verbose thinking write_convo user_prompt.
    pose proof (loop_outputs_mirror env self verbose thinking write_convo
                  (Z.to_nat (max_reasoning_steps self)) 0 (start env user_prompt) eq_refl)
      as Hloop.
    destruct (consensus_cases env self verbose thinking write_convo user_prompt)
      as [(o & _ & ->) | (_ & ->)]; exact Hloop.
Qed.

(** X12: a reply object that names no tool at all, or whose [tool] is not
    text, is an unknown tool like any other: the loop stops in that
    iteration with [UnknownTool] of the value found ([None] for a missing
    key), after the error line on [stderr] and the rendering of the response
    on [stdout]. *)
Theorem X12_missing_tool_is_unknown :
  forall env self verbose thinking write_convo n i st response d,
    chat env self thinking i st = Replied response ->
    json_loads env (message_content response) = Decoded (JObject d) ->
    (forall name, dict_lookup "tool" d <> Some (JString name)) ->
    exists es,
      reasoning_loop env self verbose thinking write_convo (S n) i st
      = (Stop (UnknownTool (dict_get d "tool" JNull) response),
         grow st [assistant_turn response] [] 1 es)
      /\ printed stdout es
         = (thinking_output verbose response ++ [response_str response])%list
      /\ In (Print stderr ("Error: Expert called an unknown tool: "
                           ++ py_str env (dict_get d "tool" JNull))) es.
Proof.
  intros env self verbose thinking write_convo n i st response d Hchat Hjson Hname.
  assert (Hstr : forall s, is_str (dict_get d "tool" JNull) s = false).
  { intros s. unfold dict_get.
    destruct (dict_lookup "tool" d) as [[| | | | name | |]|] eqn:Hlookup; try reflexivity.
    exfalso. apply (Hname name). reflexivity. }
  assert (Htool : text_tool d = false) by (unfold text_tool; rewrite !Hstr; reflexivity).
  rewrite (loop_stops env self verbose thinking write_convo n i st
             (grow st [assistant_turn response] [] 1
                (step_banner self i
                 :: map (Print stdout) (thinking_output verbose response)
                    ++ tool_narration env d
                    ++ [Print stderr ("Error: Expert called an unknown tool: "
                                      ++ py_str env (dict_get d "tool" JNull));
                        Print stdout (response_str response)]))
             (UnknownTool (dict_get d "tool" JNull) response)).
  - eexists. split; [reflexivity|]. split.
    + rewrite printed_routed. reflexivity.
    + right. apply in_or_app. right. apply in_or_app. right. left. reflexivity.
  - rewrite (reasoning_step_run env self verbose thinking write_convo i st response Hchat).
    rewrite Hjson, dispatch_object.
    rewrite (route_unknown env self write_convo i response d _ Htool (Hstr _)).
    rewrite grow_events, routed_grow. reflexivity.
Qed.


Lemma X12_missing_tool_is_unknown_witness :
  exists es,
    reasoning_loop names_no_tool (demo_system 3) false false false 3 0
      (start names_no_tool "What is the answer?")
    = (Stop (UnknownTool JNull (spoken (tool_reply [("answer", "42")]) None)),
       grow (start names_no_tool "What is the answer?")
         [assistant_turn (spoken (tool_reply [("answer", "42")]) None)] [] 1 es)
    /\ printed stdout es
       = (thinking_output false (spoken (tool_reply [("answer", "42")]) None)
          ++ [response_str (spoken (tool_reply [("answer", "42")]) None)])%list
    /\ In (Print stderr ("Error: Expert called an unknown tool: "
                         ++ py_str names_no_tool JNull)) es.
Proof.
  apply (X12_missing_tool_is_unknown names_no_tool (demo_system 3) false false false 2 0
           (start names_no_tool "What is the answer?")
           (spoken (tool_reply [("answer", "42")]) None)
           [("answer", JString "42")]).
  - reflexivity.
  - vm_compute. reflexivity.
  - intros name. discriminate.
Defined.

Lemma dict_lookup_set (d : list (string * json)) (key k : string) (v : json) :
  dict_lookup k (dict_set key v d)
  = if String.eqb k key then Some v else dict_lookup k d.
Proof.
  induction d as [|[k' v'] d IH]; simpl.
  - reflexivity.
  - destruct (String.eqb_spec key k') as [->|Hkey]; simpl.
    + destruct (String.eqb_spec k k'); reflexivity.
    + destruct (String.eqb_spec k k') as [->|Hk].
      * destruct (String.eqb_spec k' key); [congruence | reflexivity].
      * exact IH.
Qed.

Lemma dict_get_set_missing (d : list (string * json)) (key k : string) (default : json) :
  dict_lookup key d = None ->
  dict_get (dict_set key default d) k (if String.eqb k key then default else JNull)
  = dict_get d k (if String.eqb k key then default else JNull)
  /\ (String.eqb k key = false ->
      forall other, dict_get (dict_set key default d) k other = dict_get d k other).
Proof.
  intros Hmissing. unfold dict_get. rewrite dict_lookup_set.
  destruct (String.eqb_spec k key) as [->|Hk].
  - rewrite Hmissing. split; [reflexivity | discriminate].
  - split; [reflexivity | intros _ other; reflexivity].
Qed.

(** X13: a call whose payload key ([question], [query] or [url]) is missing
    is dispatched exactly as the same call with the empty text for
    payload: the adapter is called with the empty text, not skipped. *)
Theorem X13_missing_payload_is_empty :
  forall env self write_convo i response d key st,
    In key PAYLOAD_KEYS ->
    dict_lookup key d = None ->
    dispatch env self write_convo i response (JObject d) st
    = dispatch env self write_convo i response (JObject (dict_set key (JString "") d)) st.
Proof.
  intros env self write_convo i response d key st Hkey Hmissing.
  assert (Hother : forall k other, String.eqb k key = false ->
                     dict_get (dict_set key (JString "") d) k other = dict_get d k other).
  { intros k other Hk.
    apply (proj2 (dict_get_set_missing d key k (JString "") Hmissing) Hk). }
  assert (Hself : dict_get (dict_set key (JString "") d) key (JString "")
                  = dict_get d key (JString "")).
  { pose proof (proj1 (dict_get_set_missing d key key (JString "") Hmissing)) as H.
    rewrite String.eqb_refl in H. exact H. }
  unfold dispatch, tool_narration, route.
  destruct Hkey as [<- | [<- | [<- | []]]];
    rewrite ?Hself, ?(Hother "tool"), ?(Hother "reason"), ?(Hother "question"),
      ?(Hother "query"), ?(Hother "url"), ?(Hother "answer") by reflexivity;
    reflexivity.
Qed.

Lemma X13_missing_payload_is_empty_witness :
  dispatch search_forever (demo_system 3) false 0 (spoken "" None)
    (JObject [("tool", JString "search_web")]) (start search_forever "q")
  = dispatch search_forever (demo_system 3) false 0 (spoken "" None)
      (JObject (dict_set "query" (JString "") [("tool", JString "search_web")]))
      (start search_forever "q").
Proof.
  apply (X13_missing_payload_is_empty search_forever (demo_system 3) false 0
           (spoken "" None) [("tool", JString "search_web")] "query").
  - simpl. auto.
  - reflexivity.
Defined.

Lemma off_stdout_app (es1 es2 : list Event) :
  off_stdout (es1 ++ es2) = (off_stdout es1 ++ off_stdout es2)%list.
Proof. apply filter_app. Qed.

Lemma alike_refl (st : Session) : Alike st st.
Proof. repeat split. Qed.

Lemma alike_ret {A : Type} (a : A) : RunsAlike (ret a) (ret a).
Proof. intros s1 s2 H. split; [reflexivity | exact H]. Qed.

Lemma alike_finish {A : Type} (o : Outcome) : RunsAlike (@finish A o) (finish o).
Proof. intros s1 s2 H. split; [reflexivity | exact H]. Qed.

Lemma alike_bind {A B : Type} (c1 c2 : Run A) (k1 k2 : A -> Run B) :
  RunsAlike c1 c2 ->
  (forall a, RunsAlike (k1 a) (k2 a)) ->
  RunsAlike (bind c1 k1) (bind c2 k2).
Proof.
  intros Hc Hk s1 s2 H. unfold bind.
  destruct (Hc s1 s2 H) as [Hflow Hst].
  destruct (c1 s1) as [[a1 | o1] s1'], (c2 s2) as [[a2 | o2] s2'];
    simpl in Hflow, Hst; try discriminate.
  - injection Hflow as <-. apply Hk. exact Hst.
  - injection Hflow as <-. split; [reflexivity | exact Hst].
Qed.

Lemma alike_emit (e : Event) : RunsAlike (emit e) (emit e).
Proof.
  intros s1 s2 (Hh & Ho & Hi & He). split; [reflexivity|].
  repeat split; simpl; auto. rewrite !off_stdout_app, He. reflexivity.
Qed.

Lemma alike_print_l (text : string) : RunsAlike (print text) (ret tt).
Proof.
  intros s1 s2 (Hh & Ho & Hi & He). split; [reflexivity|].
  repeat split; simpl; auto. rewrite off_stdout_app, He. apply app_nil_r.
Qed.

Lemma alike_print_r (text : string) : RunsAlike (ret tt) (print text).
Proof.
  intros s1 s2 (Hh & Ho & Hi & He). split; [reflexivity|].
  repeat split; simpl; auto. rewrite off_stdout_app, He. symmetry. apply app_nil_r.
Qed.

Lemma alike_emit_all (es : list Event) : RunsAlike (emit_all es) (emit_all es).
Proof.
  induction es as [|e es IH]; simpl.
  - apply alike_ret.
  - apply alike_bind; [apply alike_emit | intros _; exact IH].
Qed.

Lemma alike_append_turn (t : Turn) : RunsAlike (append_turn t) (append_turn t).
Proof.
  intros s1 s2 (Hh & Ho & Hi & He). split; [reflexivity|].
  repeat split; simpl; auto. rewrite Hh. reflexivity.
Qed.

Lemma alike_push_output (s : string) : RunsAlike (push_output s) (push_output s).
Proof.
  intros s1 s2 (Hh & Ho & Hi & He). split; [reflexivity|].
  repeat split; simpl; auto. rewrite Ho. reflexivity.
Qed.

Lemma alike_begin_step : RunsAlike begin_step begin_step.
Proof.
  intros s1 s2 (Hh & Ho & Hi & He). split; [reflexivity|].
  repeat split; simpl; auto.
Qed.

Lemma alike_history : RunsAlike (read conversation_history) (read conversation_history).
Proof.
  intros s1 s2 H. split; [|exact H]. simpl. f_equal. apply H.
Qed.

Lemma alike_outputs : RunsAlike (read tool_outputs) (read tool_outputs).
Proof.
  intros s1 s2 H. split; [|exact H]. simpl. f_equal. apply H.
Qed.

Lemma alike_await {A : Type} (r : Reply A) : RunsAlike (await r) (await r).
Proof. destruct r; [apply alike_ret | apply alike_finish]. Qed.

Lemma alike_when (b : bool) (c1 c2 : Run unit) :
  RunsAlike c1 c2 -> RunsAlike (when b c1) (when b c2).
Proof. intros H. destruct b; [exact H | apply alike_ret]. Qed.

Create HintDb alike.

#[local] Hint Resolve alike_ret alike_finish alike_emit alike_emit_all alike_append_turn
  alike_push_output alike_begin_step alike_history alike_outputs alike_await : alike.

Ltac alike :=
  repeat first
    [ apply alike_bind; [|intros ?]
    | apply alike_when
    | solve [unfold print, cprint; auto with alike] ].

Section Comparison.

Variable env : Env.
Variable self : ExpertSystem.
Variables (thinking write_convo : bool).

Lemma alike_read_webpage (i : nat) (url : json) :
  RunsAlike (read_webpage env i url) (read_webpage env i url).
Proof. unfold read_webpage. alike. destruct (http_get env i url); alike. Qed.

Lemma alike_search_web (i : nat) (query : json) :
  RunsAlike (search_web env i query) (search_web env i query).
Proof.
  unfold search_web. alike.
  destruct (google_search env i query) as [found | e]; [|alike].
  destruct (filter _ found); alike.
Qed.

Lemma alike_query_panel (i : nat) (members : list PanelMember) (question : json)
  (outputs : list string) :
  RunsAlike (_query_panel env i members question outputs)
    (_query_panel env i members question outputs).
Proof. unfold _query_panel. alike. Qed.

Lemma alike_record_output (out : string) : RunsAlike (record_output out) (record_output out).
Proof. unfold record_output. alike. Qed.

Lemma alike_persist : RunsAlike (persist env write_convo) (persist env write_convo).
Proof.
  unfold persist. apply alike_when.
  apply alike_bind; [apply alike_history | intros history].
  destruct (write_file env _ history); alike.
Qed.

Lemma alike_print_decoded (text : string) :
  RunsAlike (print_decoded env text) (print_decoded env text).
Proof. unfold print_decoded. destruct (has_surrogate text); alike. Qed.

Lemma alike_route (i : nat) (response : Response) (d : list (string * json)) :
  RunsAlike (route env self write_convo i response d)
    (route env self write_convo i response d).
Proof.
  pose proof alike_query_panel. pose proof alike_search_web.
  pose proof alike_read_webpage. pose proof alike_record_output. pose proof alike_persist.
  pose proof alike_print_decoded.
  unfold route.
  repeat match goal with |- context [if ?b then _ else _] => destruct b end;
    repeat first [solve [unfold print, cprint; auto with alike] | apply alike_bind; [|intros ?]].
Qed.

Lemma alike_dispatch (i : nat) (response : Response) (tool_call : json) :
  RunsAlike (dispatch env self write_convo i response tool_call)
    (dispatch env self write_convo i response tool_call).
Proof.
  destruct tool_call; unfold dispatch; try apply alike_finish.
  apply alike_bind; [apply alike_emit_all | intros _; apply alike_route].
Qed.

Lemma alike_step (v1 v2 : bool) (i : nat) :
  RunsAlike (reasoning_step env self v1 thinking write_convo i)
    (reasoning_step env self v2 thinking write_convo i).
Proof.
  unfold reasoning_step.
  apply alike_bind; [apply alike_begin_step | intros _].
  apply alike_bind; [apply alike_emit | intros _].
  apply alike_bind; [apply alike_history | intros history].
  apply alike_bind; [apply alike_await | intros response].
  apply alike_bind.
  - destruct v1, v2, (message_thinking response); simpl;
      first [apply alike_ret | apply alike_emit | apply alike_print_l | apply alike_print_r].
  - intros _. apply alike_bind; [apply alike_append_turn | intros _].
    destruct (json_loads env (message_content response));
      [apply alike_dispatch | unfold fallback; alike | apply alike_finish].
Qed.

Lemma alike_loop (v1 v2 : bool) (n i : nat) :
  RunsAlike (reasoning_loop env self v1 thinking write_convo n i)
    (reasoning_loop env self v2 thinking write_convo n i).
Proof.
  revert i. induction n as [|n IH]; intros i; simpl.
  - apply alike_ret.
  - apply alike_bind; [apply alike_step | intros _; apply IH].
Qed.

Lemma alike_body (v1 v2 : bool) :
  RunsAlike (consensus_body env self v1 thinking write_convo)
    (consensus_body env self v2 thinking write_convo).
Proof.
  unfold consensus_body.
  apply alike_bind; [apply alike_loop | intros _]. alike.
Qed.

End Comparison.

(** X14: [verbose] changes nothing but what is printed to [stdout].  With
    the same expert, services and other flags, the session ends the same
    way, with the same history, the same tool outputs and after as many
    steps, writes the same lines to [stderr] and the same transcript, and in
    the same order, whether the flag is set or not. *)
Theorem X14_verbose_only_prints :
  forall env self v1 v2 thinking write_convo user_prompt,
    let (o1, s1) := get_consensus_answer env self v1 thinking write_convo user_prompt in
    let (o2, s2) := get_consensus_answer env self v2 thinking write_convo user_prompt in
    o1 = o2
    /\ conversation_history s1 = conversation_history s2
    /\ tool_outputs s1 = tool_outputs s2
    /\ step_index s1 = step_index s2
    /\ off_stdout (events s1) = off_stdout (events s2)
    /\ printed stderr (events s1) = printed stderr (events s2)
    /\ dumped (events s1) = dumped (events s2).
Proof.
  intros env self v1 v2 thinking write_convo user_prompt.
  destruct (alike_body env self thinking write_convo v1 v2
              (start env user_prompt) (start env user_prompt)
              (alike_refl _)) as [Hflow (Hh & Ho & Hi & He)].
  unfold get_consensus_answer.
  destruct (consensus_body env self v1 thinking write_convo (start env user_prompt))
    as [f1 s1].
  destruct (consensus_body env self v2 thinking write_convo (start env user_prompt))
    as [f2 s2].
  simpl in Hflow, Hh, Ho, Hi, He. subst f2.
  repeat split; auto.
  - assert (Hp : forall es, printed stderr es = printed stderr (off_stdout es)).
    { induction es as [|[[|] text | fname doc | text] es IH]; simpl; congruence. }
    rewrite (Hp (events s1)), (Hp (events s2)), He. reflexivity.
  - assert (Hd : forall es, dumped es = dumped (off_stdout es)).
    { induction es as [|[[|] text | fname doc | text] es IH]; simpl; congruence. }
    rewrite (Hd (events s1)), (Hd (events s2)), He. reflexivity.
Qed.

Section Chat.

Variable world : nat -> Env.
Variable args : Args.
Variable self : ExpertSystem.

(** the lines typed before the chat ends are asked one after the other *)
Lemma chat_loop_app (before rest : list string) (k : nat) :
  (forall j line, nth_error before j = Some line ->
     is_exit line = false /\ raises (fst (ask world args self (k + j) line)) = false) ->
  chat_loop world args self k (before ++ rest)
  = ((chat_rounds world args self k before
      ++ fst (chat_loop world args self (k + length before) rest))%list,
     snd (chat_loop world args self (k + length before) rest)).
Proof.
  revert k. induction before as [|line before IH]; intros k Hquiet.
  - simpl. rewrite Nat.add_0_r. destruct (chat_loop world args self k rest). reflexivity.
  - destruct (Hquiet 0 line eq_refl) as [Hexit Hraise]. rewrite Nat.add_0_r in Hraise.
    change ((line :: before) ++ rest)%list with (line :: (before ++ rest))%list.
    cbn [chat_loop]. unfold is_exit in Hexit. rewrite Hexit.
    cbn [chat_rounds].
    destruct (ask world args self k line) as [o st] eqn:Hask. cbn [fst snd] in *.
    rewrite IH.
    + cbn [length]. rewrite <- Nat.add_succ_comm.
      destruct o; try discriminate; cbn [fst snd];
        rewrite <- app_comm_cons, <- app_assoc; reflexivity.
    + intros j l Hj. rewrite Nat.add_succ_comm. apply (Hquiet (S j) l). exact Hj.
Qed.

Lemma chat_loop_without_exit (inputs : list string) (k : nat) :
  Forall (fun line => is_exit line = false) inputs ->
  exists e, snd (chat_loop world args self k inputs) = Some e.
Proof.
  revert k. induction inputs as [|line inputs IH]; intros k Hall.
  - exists EOFError. reflexivity.
  - inversion Hall as [|? ? Hexit Hrest]; subst.
    cbn [chat_loop]. unfold is_exit in Hexit. rewrite Hexit.
    destruct (ask world args self k line) as [o st].
    destruct (IH (S k) Hrest) as (e & He).
    destruct (chat_loop world args self (S k) inputs) as [es r]. cbn [snd] in He.
    destruct o; try (exists e; exact He). eexists. reflexivity.
Qed.

End Chat.

Lemma main_interactive (world : nat -> Env) (args : Args) (inputs : list string) :
  interactive args = true ->
  main world args inputs
  = let init := fst (ExpertSystem_init (world 0) (expert args) (panel_configs args)
                       (max_steps args)) in
    let (es, r) := chat_loop world args (built_system world args) 0 inputs in
    match r with
    | None => ((init ++ WELCOME :: es ++ [Print stdout "Goodbye!"])%list, 0%Z)
    | Some e => ((init ++ (WELCOME :: es ++ []) ++ fst (handle e))%list, 1%Z)
    end.
Proof.
  intros Hmode. unfold main, built_system, interactive in *.
  destruct (ExpertSystem_init _ _ _ _) as [init system]. cbn [fst snd].
  assert (Hsingle : match question args with Some q => nonempty q | None => false end
                    = false).
  { destruct (question args) as [q|]; [|reflexivity].
    destruct (nonempty q); [discriminate | reflexivity]. }
  rewrite Hsingle.
  destruct (chat_loop world args system 0 inputs) as [es [e|]]; [|reflexivity].
  unfold handle. destruct e; reflexivity.
Qed.

(** X15: started with no question, or with the empty one, [main] chats.
    When a line that is [exit] or [quit] in any case follows lines whose
    sessions raised nothing, the program has asked those lines, each one a
    session of its own and in the order typed, says goodbye and ends with
    status 0; the exit line starts no session, and what was typed after it
    is not read. *)
Theorem X15_chat_until_exit :
  forall world args before word after,
    interactive args = true ->
    is_exit word = true ->
    (forall k line, nth_error before k = Some line ->
       is_exit line = false
       /\ raises (fst (ask world args (built_system world args) k line)) = false) ->
    main world args (before ++ word :: after)
    = ((fst (ExpertSystem_init (world 0) (expert args) (panel_configs args) (max_steps args))
        ++ WELCOME :: chat_rounds world args (built_system world args) 0 before
        ++ [Prompt INPUT_PROMPT; Print stdout "Goodbye!"])%list, 0%Z).
Proof.
  intros world args before word after Hmode Hword Hquiet.
  rewrite (main_interactive world args _ Hmode). cbv zeta.
  rewrite (chat_loop_app world args (built_system world args) before (word :: after) 0 Hquiet).
  cbn [chat_loop]. unfold is_exit in Hword. rewrite Hword. cbn [fst snd].
  rewrite <- app_assoc. reflexivity.
Qed.

Lemma X15_chat_until_exit_witness :
  main (fun _ => answers_at_once) chatting_args
    (["What is the answer?"] ++ "Quit" :: ["never read"])
  = ((fst (ExpertSystem_init answers_at_once (expert chatting_args)
             (panel_configs chatting_args) (max_steps chatting_args))
      ++ WELCOME :: chat_rounds (fun _ => answers_at_once) chatting_args
                      (built_system (fun _ => answers_at_once) chatting_args) 0
                      ["What is the answer?"]
      ++ [Prompt INPUT_PROMPT; Print stdout "Goodbye!"])%list, 0%Z).
Proof.
  apply (X15_chat_until_exit (fun _ => answers_at_once) chatting_args
           ["What is the answer?"] "Quit" ["never read"]).
  - reflexivity.
  - reflexivity.
  - intros [|[|k]] line Hline; try discriminate.
    injection Hline as <-. split; vm_compute; reflexivity.
Defined.

(** X16: a chat that is left to run until its input ends, no line of it
    being an exit line, ends with status 1, and the last thing it writes is
    an error line on [stderr]: either a session raised, or [input] met the
    end of the input.  In the latter case every line was asked, the prompt
    was written once more, and the error reported is [EOFError]. *)
Theorem X16_chat_ends_with_input :
  forall world args inputs,
    interactive args = true ->
    Forall (fun line => is_exit line = false) inputs ->
    snd (main world args inputs) = 1%Z
    /\ (exists text,
           last (fst (main world args inputs)) WELCOME = Print stderr text)
    /\ ((forall k line, nth_error inputs k = Some line ->
           raises (fst (ask world args (built_system world args) k line)) = false) ->
        fst (main world args inputs)
        = (fst (ExpertSystem_init (world 0) (expert args) (panel_configs args)
                  (max_steps args))
           ++ WELCOME :: chat_rounds world args (built_system world args) 0 inputs
           ++ [Prompt INPUT_PROMPT;
               Print stderr (LF ++ "An unexpected error occurred: "
                             ++ "EOF when reading a line")])%list).
Proof.
  intros world args inputs Hmode Hall.
  rewrite (main_interactive world args _ Hmode). cbv zeta.
  destruct (chat_loop_without_exit world args (built_system world args) inputs 0 Hall)
    as (e & He).
  split; [|split].
  - destruct (chat_loop world args (built_system world args) 0 inputs) as [es r].
    cbn [snd] in He. subst r. reflexivity.
  - destruct (chat_loop world args (built_system world args) 0 inputs) as [es r].
    cbn [snd] in He. subst r. cbn [fst].
    assert (Hh : exists text, fst (handle e) = [Print stderr text])
      by (unfold handle; destruct e; eexists; reflexivity).
    destruct Hh as (text & ->). exists text.
    rewrite !app_assoc. apply last_last.
  - intros Hquiet.
    assert (Hq : forall k line, nth_error inputs k = Some line ->
               is_exit line = false
               /\ raises (fst (ask world args (built_system world args) (0 + k) line))
                  = false).
    { intros k line Hk. split; [|apply (Hquiet k line Hk)].
      apply (proj1 (Forall_forall _ inputs) Hall). apply (nth_error_In _ _ Hk). }
    pose proof (chat_loop_app world args (built_system world args) inputs [] 0 Hq) as Hrun.
    rewrite app_nil_r in Hrun. rewrite Hrun. cbn [chat_loop fst snd handle].
    rewrite !app_nil_r. f_equal. rewrite <- app_comm_cons. f_equal.
    rewrite <- app_assoc. reflexivity.
Qed.

Lemma X16_chat_ends_with_input_witness :
  snd (main (fun _ => answers_at_once) chatting_args ["What is the answer?"]) = 1%Z.
Proof.
  apply (X16_chat_ends_with_input (fun _ => answers_at_once) chatting_args
           ["What is the answer?"]).
  - reflexivity.
  - repeat constructor.
Defined.

(** X17: asked one question, [main] reads no input and its status tells an
    exception from everything else: 1 when the session raised, with the
    error line on [stderr] after what the session wrote, and 0 otherwise,
    also when the session ended on an unknown tool, on a reply that is no
    JSON, or with the steps exhausted. *)
Theorem X17_single_question_status :
  forall world args inputs q,
    question args = Some q ->
    nonempty q = true ->
    let (o, st) := ask world args (built_system world args) 0 q in
    main world args inputs = main world args []
    /\ snd (main world args inputs) = (if raises o then 1%Z else 0%Z)
    /\ fst (main world args inputs)
       = (fst (ExpertSystem_init (world 0) (expert args) (panel_configs args)
                 (max_steps args))
          ++ events st
          ++ match o with
             | Raised e => fst (handle e)
             | _ => []
             end)%list.
Proof.
  intros world args inputs q Hq Hne.
  pose proof (main_single world args inputs q Hq Hne) as Hstatus.
  pose proof (main_single_events world args inputs q Hq Hne) as Hevents.
  destruct (ask world args (built_system world args) 0 q) as [o st].
  cbn [fst snd] in Hstatus, Hevents.
  split; [|split].
  - unfold main. destruct (ExpertSystem_init _ _ _ _) as [init system].
    rewrite Hq, Hne. reflexivity.
  - rewrite Hstatus. destruct o; reflexivity.
  - exact Hevents.
Qed.

Lemma X17_single_question_status_witness :
  let (o, st) := ask (fun _ => flies_to_moon) demo_args
                   (built_system (fun _ => flies_to_moon) demo_args) 0
                   "What is the answer?" in
  main (fun _ => flies_to_moon) demo_args ["exit"] = main (fun _ => flies_to_moon) demo_args []
  /\ snd (main (fun _ => flies_to_moon) demo_args ["exit"]) = (if raises o then 1%Z else 0%Z)
  /\ fst (main (fun _ => flies_to_moon) demo_args ["exit"])
     = (fst (ExpertSystem_init flies_to_moon (expert demo_args) (panel_configs demo_args)
               (max_steps demo_args))
        ++ events st
        ++ match o with
           | Raised e => fst (handle e)
           | _ => []
           end)%list.
Proof.
  apply (X17_single_question_status (fun _ => flies_to_moon) demo_args ["exit"]
           "What is the answer?").
  - reflexivity.
  - reflexivity.
Defined.

(** X18: the list of the panel models is parsed entry by entry.  It is
    accepted when every entry is, and gives their pairs in the order
    written; otherwise the error is the one of the first entry that is
    malformed, and names that entry. *)
Theorem X18_parse_panel_first_error :
  forall values,
    match parse_panel values with
    | inl configs =>
        Forall2 (fun value config => parse_model_temp value = inl config) values configs
    | inr msg =>
        exists before bad after,
          values = (before ++ bad :: after)%list
          /\ Forall (fun value => exists config, parse_model_temp value = inl config) before
          /\ parse_model_temp bad = inr msg
          /\ msg = invalid_format bad
    end.
Proof.
  induction values as [|value values IH]; simpl.
  - constructor.
  - destruct (parse_model_temp value) as [config | msg] eqn:Hvalue.
    + destruct (parse_panel values) as [configs | msg].
      * constructor; assumption.
      * destruct IH as (before & bad & after & -> & Hbefore & Hbad & Hmsg).
        exists (value :: before), bad, after. repeat split; auto.
        constructor; [exists config; exact Hvalue | exact Hbefore].
    + exists [], value, values. repeat split; auto.
      unfold parse_model_temp in Hvalue.
      destruct (rsplit_colon value) as [[name temp]|].
      * destruct (isdigit (drop_first_dot temp)); congruence.
      * congruence.
Qed.
